(** * file-census: a shallow embedding of the three pipelines

    The repository holds three scripts that share one pattern,
    scan -> aggregate -> render:

    - [file_census.py]            (module [Census]),
    - [downloads_weekly_review.py] (module [Weekly]),
    - [summary_report.py]         (module [Summary]).

    Python values are embedded as follows.  An [int] is a [Z]; a [str] is a
    [string]; a list is a [list]; a dict with a fixed set of keys is a
    record, and a key that some code path leaves out is an [option] field.
    An exception is a constructor of [exn] and a call that may raise returns
    a [result].  A generator is a finite tree of [Yield]s that ends in a
    return or a raise ([gen]). *)

From Stdlib Require Import ZArith List String Ascii Bool Lia.
From Stdlib Require Import DecimalString DecimalPos.
From Stdlib Require Import Permutation Sorted.
Import ListNotations.

Open Scope string_scope.
Open Scope Z_scope.

(** ** Python primitives shared by the three scripts *)

Module Py.

(** The exception classes the scripts raise or catch. *)
Inductive exn : Type :=
| FileNotFoundError (message : string)
| NotADirectoryError (message : string)
| PermissionError (message : string)
| OSError (message : string)
| OverflowError
| ZeroDivisionError
| ValueError
| KeyError (key : string)
| KeyboardInterrupt
| SystemExit (code : Z).

(** [isinstance(e, Exception)]: everything but the two [BaseException]s. *)
Definition is_Exception (e : exn) : bool :=
  match e with
  | KeyboardInterrupt | SystemExit _ => false
  | _ => true
  end.

(** [isinstance(e, OSError)]; [PermissionError], [FileNotFoundError] and
    [NotADirectoryError] are subclasses of [OSError]. *)
Definition is_OSError (e : exn) : bool :=
  match e with
  | FileNotFoundError _ | NotADirectoryError _ | PermissionError _
  | OSError _ => true
  | _ => false
  end.

Definition is_PermissionError (e : exn) : bool :=
  match e with
  | PermissionError _ => true
  | _ => false
  end.

(** [str(e)], as [f"{e}"] prints an exception. *)
Definition exn_text (e : exn) : string :=
  match e with
  | FileNotFoundError m | NotADirectoryError m | PermissionError m
  | OSError m => m
  | OverflowError => "int too large to convert to float"
  | ZeroDivisionError => "division by zero"
  | ValueError => "invalid value"
  | KeyError key => "'" ++ key ++ "'"
  | KeyboardInterrupt => ""
  | SystemExit code => NilZero.string_of_int (Z.to_int code)
  end.

Inductive result (A : Type) : Type :=
| Ok (a : A)
| Raise (e : exn).
Arguments Ok {A} a.
Arguments Raise {A} e.

Definition bind {A B : Type} (r : result A) (k : A -> result B) : result B :=
  match r with
  | Ok a => k a
  | Raise e => Raise e
  end.

Notation "x <- r ;; k" := (bind r (fun x => k))
  (at level 61, r at next level, right associativity).
Notation "' p <- r ;; k" := (bind r (fun x => match x with p => k end))
  (at level 61, p pattern, r at next level, right associativity).

(** [str(n)] for an [int]. *)
Definition str (n : Z) : string := NilZero.string_of_int (Z.to_int n).

(** [len(s)] as an integer. *)
Definition len (s : string) : Z := Z.of_nat (String.length s).

(** The first [n] characters of [s], all of [s] when it has fewer. *)
Fixpoint take (n : nat) (s : string) : string :=
  match n, s with
  | S n', String c s' => String c (take n' s')
  | _, _ => ""
  end.

(** The slice [s[:k]]: a negative [k] counts from the end. *)
Definition slice_to (k : Z) (s : string) : string :=
  if k <? 0 then take (Z.to_nat (Z.max 0 (len s + k))) s
  else take (Z.to_nat k) s.

(** [c in s] for a character [c]. *)
Fixpoint contains (c : ascii) (s : string) : bool :=
  match s with
  | "" => false
  | String d s' => Ascii.eqb d c || contains c s'
  end.

(** [s.rsplit(c, 1)] when [c] occurs in [s]: what stands before the last
    [c] and what stands after it; [None] when [c] does not occur (Python
    then returns the one-element list [[s]]). *)
Fixpoint rsplit1 (c : ascii) (s : string) : option (string * string) :=
  match s with
  | "" => None
  | String d s' =>
      match rsplit1 c s' with
      | Some (name, ext) => Some (String d name, ext)
      | None => if Ascii.eqb d c then Some ("", s') else None
      end
  end.

(** The nearest integer to [a / b] for [b > 0], ties going to the even
    neighbour: the rounding of IEEE-754 and of [format(x, '.1f')]. *)
Definition round_half_even (a b : Z) : Z :=
  let q := a / b in
  let r := a mod b in
  if 2 * r <? b then q
  else if b <? 2 * r then q + 1
  else if Z.even q then q else q + 1.

(** A binary64 value, as the dyadic rational [f_num / 2 ^ f_shift].  Every
    float that [format_file_size] builds from a byte count is the image of
    an integer divided by 1024 at most four times, so the division is
    exact and the pair loses nothing. *)
Record float : Type := mkFloat { f_num : Z; f_shift : Z }.

(** [float(n)] for an [int]: exact below [2^53]; above, the nearest value
    with 53 significant bits (ties to even), and [OverflowError] once that
    value reaches [2^1024]. *)
Definition float_of_int (n : Z) : result float :=
  let a := Z.abs n in
  if a <? 2 ^ 53 then Ok (mkFloat n 0)
  else
    let e := Z.log2 a - 52 in
    let m := round_half_even a (2 ^ e) in
    if 2 ^ 1024 <=? m * 2 ^ e then Raise OverflowError
    else Ok (mkFloat (Z.sgn n * (m * 2 ^ e)) 0).

(** [x / 1024.0] *)
Definition fdiv1024 (x : float) : float :=
  mkFloat (f_num x) (f_shift x + 10).

(** [x >= 1024] for a float [x]; Python compares a float with an int
    exactly. *)
Definition fge1024 (x : float) : bool :=
  1024 * 2 ^ f_shift x <=? f_num x.

(** [f"{x:.1f}"] for a float: the decimal with one fractional digit that is
    nearest to the exact value of [x], ties to even. *)
Definition format_1f (x : float) : string :=
  let q := round_half_even (10 * Z.abs (f_num x)) (2 ^ f_shift x) in
  (if f_num x <? 0 then "-" else "") ++ str (q / 10) ++ "." ++ str (q mod 10).

(** A value that is an [int] or a [float], as the variable [size_bytes] of
    [format_file_size] is in turn. *)
Inductive number : Type :=
| Int (n : Z)
| Float (x : float).

Definition is_zero (v : number) : bool :=
  match v with
  | Int n => n =? 0
  | Float x => f_num x =? 0
  end.

Definition ge1024 (v : number) : bool :=
  match v with
  | Int n => 1024 <=? n
  | Float x => fge1024 x
  end.

(** [v / 1024.0]: an [int] operand is converted with [float] first. *)
Definition div1024 (v : number) : result number :=
  match v with
  | Int n => x <- float_of_int n ;; Ok (Float (fdiv1024 x))
  | Float x => Ok (Float (fdiv1024 x))
  end.

(** [f"{v:.1f}"]: an [int] is converted with [float] first. *)
Definition fmt_1f (v : number) : result string :=
  match v with
  | Int n => x <- float_of_int n ;; Ok (format_1f x)
  | Float x => Ok (format_1f x)
  end.

(** The nearest binary64 value to the rational [num / den], for
    [num >= 0] and [den > 0]: 53 significant bits, ties to even.  (The
    quotients met here lie far inside the normal range.) *)
Definition round53 (num den : Z) : float :=
  if num =? 0 then mkFloat 0 0
  else
    let scaled (e : Z) :=
      if 0 <=? e then (num, den * 2 ^ e) else (num * 2 ^ (- e), den) in
    let e0 := Z.log2 num - Z.log2 den - 53 in
    let e := if fst (scaled e0) / snd (scaled e0) <? 2 ^ 53 then e0 else e0 + 1 in
    let m := round_half_even (fst (scaled e)) (snd (scaled e)) in
    if 0 <=? e then mkFloat (m * 2 ^ e) 0 else mkFloat m (- e).

(** [a / b] for two non-negative [int]s: true division, correctly
    rounded. *)
Definition truediv (a b : Z) : result float :=
  if b =? 0 then Raise ZeroDivisionError else Ok (round53 a b).

(** [x * 100] for a float [x >= 0]. *)
Definition fmul100 (x : float) : float :=
  round53 (100 * f_num x) (2 ^ f_shift x).

(** [s.lower()], on the letters of ASCII; the bytes of other characters
    stay as they are. *)
Definition lower_char (c : ascii) : ascii :=
  let n := nat_of_ascii c in
  if ((65 <=? n) && (n <=? 90))%nat then ascii_of_nat (n + 32) else c.

Fixpoint lower (s : string) : string :=
  match s with
  | "" => ""
  | String c s' => String (lower_char c) (lower s')
  end.

(** A [Counter] or a [defaultdict(int)]: the keys in the order they were
    first inserted, each with its number.  [d[k] += v] is [add_to]; reading
    a key that is not there gives 0. *)
Section Counting.

Context {K : Type} (eqb : K -> K -> bool).

Fixpoint add_to (k : K) (v : Z) (d : list (K * Z)) : list (K * Z) :=
  match d with
  | [] => [(k, v)]
  | (k', v') :: d' =>
      if eqb k' k then (k', v' + v) :: d' else (k', v') :: add_to k v d'
  end.

Fixpoint get (k : K) (d : list (K * Z)) : Z :=
  match d with
  | [] => 0
  | (k', v') :: d' => if eqb k' k then v' else get k d'
  end.

End Counting.

(** [sum(l)] *)
Definition sum (l : list Z) : Z := fold_left Z.add l 0.

(** [min(l)] and [max(l)]; both raise [ValueError] on an empty sequence. *)
Definition min (l : list Z) : result Z :=
  match l with
  | [] => Raise ValueError
  | x :: l' => Ok (fold_left Z.min l' x)
  end.

Definition max (l : list Z) : result Z :=
  match l with
  | [] => Raise ValueError
  | x :: l' => Ok (fold_left Z.max l' x)
  end.

(** [sorted(l, key=key, reverse=reverse)] and [l.sort(...)]: the stable
    sort.  An element is put in front of the first one that may not
    precede it, so elements with equal keys keep the order they had; with
    [reverse=True] the order of the keys is turned round and that of equal
    elements is not. *)
Section Sorting.

Context {A : Type} (key : A -> Z).

Definition precedes (reverse : bool) (x y : A) : bool :=
  if reverse then key y <=? key x else key x <=? key y.

Fixpoint insert (reverse : bool) (x : A) (l : list A) : list A :=
  match l with
  | [] => [x]
  | y :: l' =>
      if precedes reverse x y then x :: y :: l' else y :: insert reverse x l'
  end.

Definition sorted (reverse : bool) (l : list A) : list A :=
  fold_right (insert reverse) [] l.

End Sorting.

(** What the specification asks of a top-[n] list: [out] is the first [n]
    of a ranking of [input] that holds the same records, runs by
    descending key, and keeps records of equal key in the order [input]
    has them. *)
Definition top_by {A : Type} (key : A -> Z) (n : nat) (input out : list A)
  : Prop :=
  exists ranked,
    out = firstn n ranked /\
    Permutation ranked input /\
    StronglySorted (fun x y => key y <= key x) ranked /\
    forall k, filter (fun x => key x =? k) ranked
              = filter (fun x => key x =? k) input.

(** What a run can observe of and do to its surroundings: the system clock
    (seconds since the epoch), the text written to the two output streams,
    whether a path can be opened for writing, and the files the run has
    written. *)
Record out_file : Type := mk_out_file { content : string; closed : bool }.

Record world : Type := mkWorld {
  clock : Z;
  stdout : list string;
  stderr : list string;
  can_open : string -> result unit;
  disk : list (string * out_file)
}.

(** A computation that may read the clock, write, and raise. *)
Definition IO (A : Type) : Type := world -> result A * world.

Definition ret {A : Type} (a : A) : IO A := fun w => (Ok a, w).

Definition raise {A : Type} (e : exn) : IO A := fun w => (Raise e, w).

Definition lift {A : Type} (r : result A) : IO A := fun w => (r, w).

Definition io_bind {A B : Type} (m : IO A) (k : A -> IO B) : IO B :=
  fun w =>
    match m w with
    | (Ok a, w') => k a w'
    | (Raise e, w') => (Raise e, w')
    end.

Notation "x <~ m ;; k" := (io_bind m (fun x => k))
  (at level 61, m at next level, right associativity).
Notation "' p <~ m ;; k" := (io_bind m (fun x => match x with p => k end))
  (at level 61, p pattern, m at next level, right associativity).
Notation "m ;;; k" := (io_bind m (fun _ => k))
  (at level 61, right associativity).

(** [try: m  except <classes>: handler]: [handler e] is [None] when no
    [except] clause matches [e], which then goes on up. *)
Definition try_except {A : Type} (m : IO A) (handler : exn -> option (IO A))
  : IO A :=
  fun w =>
    match m w with
    | (Ok a, w') => (Ok a, w')
    | (Raise e, w') =>
        match handler e with
        | Some h => h w'
        | None => (Raise e, w')
        end
    end.

(** [sys.exit(code)] *)
Definition sys_exit {A : Type} (code : Z) : IO A := raise (SystemExit code).

(** The exit status of a process whose main program ended with [r]: 0 at
    a normal end, the code of a [SystemExit], 130 after an interrupt that
    nothing caught and 1 after any other exception that nothing caught. *)
Definition exit_status {A : Type} (r : result A) : Z :=
  match r with
  | Ok _ => 0
  | Raise (SystemExit code) => code
  | Raise KeyboardInterrupt => 130
  | Raise _ => 1
  end.

(** [datetime.now().timestamp()] *)
Definition now_timestamp : IO Z := fun w => (Ok (clock w), w).

(** The line feed, the carriage return and the double quote. *)
Definition LF : ascii := ascii_of_nat 10.
Definition CR : ascii := ascii_of_nat 13.
Definition DQUOTE : ascii := ascii_of_nat 34.
Definition nl : string := String LF "".

(** [print(text, end=e)]; [print(text)] ends the line; and the same on
    [sys.stderr]. *)
Definition print_end (text e : string) : IO unit :=
  fun w => (Ok tt, mkWorld (clock w) (stdout w ++ [text ++ e]) (stderr w)
                     (can_open w) (disk w)).

Definition print (text : string) : IO unit := print_end text nl.

Definition eprint (text : string) : IO unit :=
  fun w => (Ok tt, mkWorld (clock w) (stdout w) (stderr w ++ [text ++ nl])
                     (can_open w) (disk w)).

(** The files written: [set_file] puts a file under its path, [get_file]
    reads it back. *)
Fixpoint set_file (path : string) (f : out_file)
    (d : list (string * out_file)) : list (string * out_file) :=
  match d with
  | [] => [(path, f)]
  | (p, g) :: d' =>
      if String.eqb p path then (p, f) :: d' else (p, g) :: set_file path f d'
  end.

Fixpoint get_file (path : string) (d : list (string * out_file))
  : option out_file :=
  match d with
  | [] => None
  | (p, g) :: d' => if String.eqb p path then Some g else get_file path d'
  end.

Definition update_disk (w : world) (d : list (string * out_file)) : world :=
  mkWorld (clock w) (stdout w) (stderr w) (can_open w) d.

(** [open(path, 'w')]: the file is created empty, or truncated. *)
Definition open_w (path : string) : IO unit :=
  fun w =>
    match can_open w path with
    | Ok _ => (Ok tt, update_disk w (set_file path (mk_out_file "" false) (disk w)))
    | Raise e => (Raise e, w)
    end.

(** [f.write(text)] on the file opened under [path]. *)
Definition write (path text : string) : IO unit :=
  fun w =>
    match get_file path (disk w) with
    | Some f =>
        (Ok tt,
         update_disk w
           (set_file path (mk_out_file (content f ++ text) (closed f)) (disk w)))
    | None => (Raise ValueError, w)
    end.

(** [f.close()] *)
Definition close (path : string) (w : world) : world :=
  match get_file path (disk w) with
  | Some f => update_disk w (set_file path (mk_out_file (content f) true) (disk w))
  | None => w
  end.

(** [with open(path, 'w') as f: body]: the file is closed when the body
    ends, by an exception too. *)
Definition with_open_w {A : Type} (path : string) (body : IO A) : IO A :=
  fun w =>
    match open_w path w with
    | (Raise e, w') => (Raise e, w')
    | (Ok _, w1) => let '(r, w2) := body w1 in (r, close path w2)
    end.

(** The file under [path] holds [text] and is open, or closed. *)
Definition file_is (w : world) (path text : string) (is_closed : bool)
  : Prop :=
  get_file path (disk w) = Some (mk_out_file text is_closed).

(** [for x in xs: body(x)] *)
Fixpoint for_ {A : Type} (xs : list A) (body : A -> IO unit) : IO unit :=
  match xs with
  | [] => ret tt
  | x :: xs' => body x ;;; for_ xs' body
  end.

(** [s.replace(c, t)] for a character [c]. *)
Fixpoint replace (c : ascii) (t : string) (s : string) : string :=
  match s with
  | "" => ""
  | String d s' =>
      (if Ascii.eqb d c then t else String d "") ++ replace c t s'
  end.

(** [f"{n:,}"]: the digits in groups of three. *)
Fixpoint group3 (i : nat) (reversed_digits : list ascii) : list ascii :=
  match reversed_digits with
  | [] => []
  | c :: l' =>
      if (i =? 3)%nat then c :: ","%char :: group3 1 l'
      else c :: group3 (S i) l'
  end.

Definition format_thousands (n : Z) : string :=
  let digits := list_ascii_of_string (str (Z.abs n)) in
  (if n <? 0 then "-" else "")
  ++ string_of_list_ascii (rev (group3 0 (rev digits))).

(** [urllib.parse.quote(s, safe='/:')]: letters, digits and [_.-~/:] stay,
    every other byte is written [%XX]. *)
Definition hex_digit (n : nat) : ascii :=
  if (n <? 10)%nat then ascii_of_nat (48 + n) else ascii_of_nat (55 + n).

Definition unreserved (c : ascii) : bool :=
  let n := nat_of_ascii c in
  (((65 <=? n) && (n <=? 90)) || ((97 <=? n) && (n <=? 122))
   || ((48 <=? n) && (n <=? 57)))%nat
  || contains c "_.-~/:".

Fixpoint quote (s : string) : string :=
  match s with
  | "" => ""
  | String c s' =>
      (if unreserved c then String c ""
       else
         let n := nat_of_ascii c in
         String "%" (String (hex_digit (n / 16)) (String (hex_digit (n mod 16)) "")))
      ++ quote s'
  end.

(** A [datetime] value, by its fields. *)
Record datetime : Type := mkDatetime {
  year : Z; month : Z; day : Z; hour : Z; minute : Z; second : Z
}.

(** A number printed with at least [width] digits, zero-padded, as the
    [%Y], [%m], [%d], [%H], [%M] and [%S] of [strftime] print theirs. *)
Fixpoint zeros (n : nat) : string :=
  match n with
  | O => ""
  | S n' => String "0" (zeros n')
  end.

Definition pad (width : nat) (n : Z) : string :=
  zeros (width - String.length (str n)) ++ str n.

(** [dt.strftime('%Y-%m-%d %H:%M')] *)
Definition strftime_minutes (dt : datetime) : string :=
  pad 4 (year dt) ++ "-" ++ pad 2 (month dt) ++ "-" ++ pad 2 (day dt)
  ++ " " ++ pad 2 (hour dt) ++ ":" ++ pad 2 (minute dt).

(** [dt.strftime('%Y%m%d_%H%M%S')] *)
Definition strftime_compact (dt : datetime) : string :=
  pad 4 (year dt) ++ pad 2 (month dt) ++ pad 2 (day dt)
  ++ "_" ++ pad 2 (hour dt) ++ pad 2 (minute dt) ++ pad 2 (second dt).

(** [dt.strftime('%Y-%m-%d %H:%M:%S')] *)
Definition strftime_seconds (dt : datetime) : string :=
  strftime_minutes dt ++ ":" ++ pad 2 (second dt).

(** A generator that has been called: what it will do when it is driven
    to the end.  [Yield] hands a value to the consumer and waits to be
    resumed; [Say] writes to the standard output from inside the
    generator; [Return] ends it and [Throw] ends it with an exception
    raised in the consumer at its [next].  Nothing of it runs before the
    consumer asks for the first value. *)
Inductive gen (A : Type) : Type :=
| Yield (a : A) (rest : gen A)
| Say (text : string) (rest : gen A)
| Return
| Throw (e : exn).
Arguments Yield {A} a rest.
Arguments Say {A} text rest.
Arguments Return {A}.
Arguments Throw {A} e.

(** The values a generator yields before it ends, and how it ends. *)
Fixpoint gen_values {A : Type} (g : gen A) : list A :=
  match g with
  | Yield a rest => a :: gen_values rest
  | Say _ rest => gen_values rest
  | Return | Throw _ => []
  end.

Fixpoint gen_end {A : Type} (g : gen A) : result unit :=
  match g with
  | Yield _ rest | Say _ rest => gen_end rest
  | Return => Ok tt
  | Throw e => Raise e
  end.

(** *** [int(text)] *)

Definition is_space (c : ascii) : bool :=
  let n := nat_of_ascii c in
  ((n =? 32) || ((9 <=? n) && (n <=? 13)))%nat.

Fixpoint lstrip (l : list ascii) : list ascii :=
  match l with
  | c :: l' => if is_space c then lstrip l' else l
  | [] => []
  end.

Definition strip (l : list ascii) : list ascii :=
  rev (lstrip (rev (lstrip l))).

(** Single underscores may stand between digits; they are taken out. *)
Fixpoint drop_underscores (after_digit : bool) (l : list ascii)
  : option (list ascii) :=
  match l with
  | [] => if after_digit then Some [] else None
  | c :: l' =>
      if Ascii.eqb c "_" then
        if after_digit then drop_underscores false l' else None
      else
        match drop_underscores true l' with
        | Some r => Some (c :: r)
        | None => None
        end
  end.

(** [int(text)]: blanks around the number, a sign, decimal digits. *)
Definition int (text : string) : result Z :=
  let body := strip (list_ascii_of_string text) in
  let negative :=
    match body with
    | c :: _ => Ascii.eqb c "-"
    | [] => false
    end in
  let digits :=
    match body with
    | c :: r => if Ascii.eqb c "-" || Ascii.eqb c "+" then r else body
    | [] => []
    end in
  match drop_underscores false digits with
  | Some r =>
      match NilEmpty.uint_of_string (string_of_list_ascii r) with
      | Some u =>
          let n := Z.of_N (N.of_uint u) in
          Ok (if negative then - n else n)
      | None => Raise ValueError
      end
  | None => Raise ValueError
  end.

(** *** [datetime.strptime(text, '%Y-%m-%d %H:%M:%S')] *)

Definition digit (c : ascii) : option Z :=
  let n := nat_of_ascii c in
  if ((48 <=? n) && (n <=? 57))%nat then Some (Z.of_nat (n - 48)) else None.

(** A numeric directive offers the ways it can match at the head of the
    text, in the order of the alternatives of its pattern: two digits that
    [two] admits, then one digit that [one] admits. *)
Definition directive (two : Z -> Z -> bool) (one : Z -> bool)
    (text : list ascii) : list (Z * list ascii) :=
  (match text with
   | c1 :: c2 :: rest =>
       match digit c1, digit c2 with
       | Some d1, Some d2 =>
           if two d1 d2 then [(10 * d1 + d2, rest)] else []
       | _, _ => []
       end
   | _ => []
   end
   ++
   match text with
   | c1 :: rest =>
       match digit c1 with
       | Some d1 => if one d1 then [(d1, rest)] else []
       | None => []
       end
   | _ => []
   end)%list.

Definition directive_m : list ascii -> list (Z * list ascii) :=
  directive (fun d1 d2 => ((d1 =? 1) && (d2 <=? 2)) || ((d1 =? 0) && (1 <=? d2)))
            (fun d => 1 <=? d).

(** [%d] also admits a blank before a single digit. *)
Definition directive_d (text : list ascii) : list (Z * list ascii) :=
  (directive (fun d1 d2 => ((d1 =? 3) && (d2 <=? 1))
                           || ((1 <=? d1) && (d1 <=? 2))
                           || ((d1 =? 0) && (1 <=? d2)))
             (fun d => 1 <=? d) text
   ++
   match text with
   | blank :: c :: rest =>
       if Ascii.eqb blank " " then
         match digit c with
         | Some d => if 1 <=? d then [(d, rest)] else []
         | None => []
         end
       else []
   | _ => []
   end)%list.

Definition directive_H : list ascii -> list (Z * list ascii) :=
  directive (fun d1 d2 => ((d1 =? 2) && (d2 <=? 3)) || (d1 <=? 1))
            (fun _ => true).

Definition directive_M : list ascii -> list (Z * list ascii) :=
  directive (fun d1 _ => d1 <=? 5) (fun _ => true).

Definition directive_S : list ascii -> list (Z * list ascii) :=
  directive (fun d1 d2 => ((d1 =? 6) && (d2 <=? 1)) || (d1 <=? 5))
            (fun _ => true).

(** [%Y]: four digits. *)
Definition directive_Y (text : list ascii) : list (Z * list ascii) :=
  match text with
  | c1 :: c2 :: c3 :: c4 :: rest =>
      match digit c1, digit c2, digit c3, digit c4 with
      | Some d1, Some d2, Some d3, Some d4 =>
          [(1000 * d1 + 100 * d2 + 10 * d3 + d4, rest)]
      | _, _, _, _ => []
      end
  | _ => []
  end.

(** A character of the format that stands for itself. *)
Definition literal (c : ascii) (text : list ascii) : list (list ascii) :=
  match text with
  | d :: rest => if Ascii.eqb d c then [rest] else []
  | [] => []
  end.

(** The blank of the format: one blank or more. *)
Definition blanks (text : list ascii) : list (list ascii) :=
  match text with
  | c :: rest => if is_space c then [lstrip rest] else []
  | [] => []
  end.

Definition is_leap (y : Z) : bool :=
  ((y mod 4 =? 0) && negb (y mod 100 =? 0)) || (y mod 400 =? 0).

Definition days_in_month (y m : Z) : Z :=
  if m =? 2 then (if is_leap y then 29 else 28)
  else if (m =? 4) || (m =? 6) || (m =? 9) || (m =? 11) then 30
  else 31.

(** [datetime(year, month, day, hour, minute, second)] *)
Definition make_datetime (y m d hh mm ss : Z) : result datetime :=
  if (1 <=? y) && (y <=? 9999) && (1 <=? m) && (m <=? 12)
     && (1 <=? d) && (d <=? days_in_month y m)
     && (0 <=? hh) && (hh <=? 23) && (0 <=? mm) && (mm <=? 59)
     && (0 <=? ss) && (ss <=? 59)
  then Ok (mkDatetime y m d hh mm ss)
  else Raise ValueError.

(** The matches of the whole format, first the one the pattern prefers,
    each with the text it leaves over. *)
Definition strptime_matches (text : list ascii)
  : list (Z * Z * Z * Z * Z * Z * list ascii) :=
  flat_map (fun '(y, t1) =>
  flat_map (fun t2 =>
  flat_map (fun '(m, t3) =>
  flat_map (fun t4 =>
  flat_map (fun '(d, t5) =>
  flat_map (fun t6 =>
  flat_map (fun '(hh, t7) =>
  flat_map (fun t8 =>
  flat_map (fun '(mm, t9) =>
  flat_map (fun t10 =>
  map (fun '(ss, t11) => (y, m, d, hh, mm, ss, t11))
    (directive_S t10))
    (literal ":" t9))
    (directive_M t8))
    (literal ":" t7))
    (directive_H t6))
    (blanks t5))
    (directive_d t4))
    (literal "-" t3))
    (directive_m t2))
    (literal "-" t1))
    (directive_Y text).

(** [datetime.strptime(text, '%Y-%m-%d %H:%M:%S')]: [ValueError] when the
    text does not match, when text is left over, and when the numbers are
    no date. *)
Definition strptime (text : string) : result datetime :=
  match strptime_matches (list_ascii_of_string text) with
  | (y, m, d, hh, mm, ss, []) :: _ => make_datetime y m d hh mm ss
  | _ => Raise ValueError
  end.

End Py.
Import Py.

(** ** The directory tree a scan walks *)

Module FS.

(** What [stat()] returns, as far as the scripts read it. *)
Record stat_result : Type := mk_stat {
  st_size : Z;
  st_mtime : Z;
  st_ctime : Z
}.

(** What stands at a path.  The kind of a node is what [is_file()] and
    [is_dir()] answer; [st] is what a later [stat()] on it gives, [None]
    when that call raises an [OSError] (the file went or was locked in
    between: the scripts catch it); [listing] is [None] when reading the
    directory is denied ([PermissionError]). *)
#[warnings="-register-all"]
Inductive node : Type :=
| File (name : string) (st : option stat_result)
| Dir (name : string) (st : option stat_result) (listing : option (list node))
| Other (name : string).

Definition name (n : node) : string :=
  match n with
  | File name _ | Dir name _ _ | Other name => name
  end.

Definition is_file (n : node) : bool :=
  match n with
  | File _ _ => true
  | _ => false
  end.

Definition is_dir (n : node) : bool :=
  match n with
  | Dir _ _ _ => true
  | _ => false
  end.

Definition stat (n : node) : result stat_result :=
  match n with
  | File _ (Some st) | Dir _ (Some st) _ => Ok st
  | _ => Raise (OSError "stat")
  end.

Definition stat_ok (n : node) : bool :=
  match stat n with
  | Ok _ => true
  | Raise _ => false
  end.

(** An entry met by a traversal: its names from the scan root down, and
    the node. *)
Definition entry : Type := list string * node.

(** [root.rglob('*')]: the entries of a directory, then those below each
    of its subdirectories in turn.  A directory that may not be read
    contributes nothing and raises nothing. *)
Fixpoint rglob_from (rel : list string) (n : node) : list entry :=
  match n with
  | Dir _ _ (Some children) =>
      (map (fun c => (rel ++ [name c], c)) children
       ++ flat_map (fun c => rglob_from (rel ++ [name c]) c) children)%list
  | _ => []
  end.

Definition rglob (root : node) : list entry := rglob_from [] root.


(** [root.iterdir()] *)
Definition iterdir (root : node) : result (list node) :=
  match root with
  | Dir _ _ (Some children) => Ok children
  | Dir _ _ None => Raise (PermissionError "Permission denied")
  | _ => Raise (NotADirectoryError "Not a directory")
  end.

(** [str(path)] of an entry under [folder_path], and of the entry
    relative to it. *)
Definition relative (rel : list string) : string := String.concat "/" rel.

Definition full (folder_path : string) (rel : list string) : string :=
  folder_path ++ "/" ++ relative rel.

(** [path.suffix]: from the last dot on, when that dot is neither the
    first nor the last character of the name. *)
Definition suffix (name : string) : string :=
  match rsplit1 "." name with
  | Some (stem, ext) =>
      if String.eqb stem "" || String.eqb ext "" then "" else "." ++ ext
  | None => ""
  end.

End FS.

(** ** The [csv] module, in the default dialect ([excel]) *)

Module Csv.

(** *** Writing *)

(** A field is put between quotes when it holds the delimiter, the quote
    character or a character of the line terminator. *)
Definition needs_quotes (field : string) : bool :=
  contains "," field || contains DQUOTE field
  || contains CR field || contains LF field.

(** Between quotes, each quote character is written twice. *)
Definition write_field (field : string) : string :=
  if needs_quotes field then
    String DQUOTE
      (replace DQUOTE (String DQUOTE (String DQUOTE "")) field
       ++ String DQUOTE "")
  else field.

Definition lineterminator : string := String CR (String LF "").

(** [writer.writerow(fields)]: the text written.  A row of one empty
    field is written as a pair of quotes. *)
Definition writerow (fields : list string) : string :=
  match fields with
  | [""] => String DQUOTE (String DQUOTE "")
  | _ => String.concat "," (map write_field fields)
  end ++ lineterminator.

(** *** Reading *)

(** A text file opened for reading without [newline='']: universal
    newlines, every [\r\n] and every lone [\r] is handed on as [\n]. *)
Fixpoint universal_newlines (text : string) : string :=
  match text with
  | "" => ""
  | String c rest =>
      if Ascii.eqb c CR then
        match rest with
        | String d rest' =>
            if Ascii.eqb d LF then String LF (universal_newlines rest')
            else String LF (universal_newlines rest)
        | "" => String LF ""
        end
      else String c (universal_newlines rest)
  end.

(** The lines of a text, each with its line feed. *)
Fixpoint lines_from (current : string) (text : string) : list string :=
  match text with
  | "" => if String.eqb current "" then [] else [current]
  | String c rest =>
      if Ascii.eqb c LF then (current ++ String c "") :: lines_from "" rest
      else lines_from (current ++ String c "") rest
  end.

Definition readlines (text : string) : list string := lines_from "" text.

(** The states of the parser of [_csv.c] that the default dialect can
    reach (it has no escape character). *)
Inductive state : Type :=
| START_RECORD
| START_FIELD
| IN_FIELD
| IN_QUOTED_FIELD
| QUOTE_IN_QUOTED_FIELD
| EAT_CRNL.

(** The parser: its state, the field being read and the fields read. *)
Record parser : Type := mk_parser {
  p_state : state;
  p_field : string;
  p_fields : list string
}.

Definition reset : parser := mk_parser START_RECORD "" [].

Definition add_char (c : ascii) (st : state) (p : parser) : parser :=
  mk_parser st (p_field p ++ String c "") (p_fields p).

Definition save_field (st : state) (p : parser) : parser :=
  mk_parser st "" (p_fields p ++ [p_field p])%list.

Definition set_state (st : state) (p : parser) : parser :=
  mk_parser st (p_field p) (p_fields p).

Definition is_newline (c : ascii) : bool := Ascii.eqb c LF || Ascii.eqb c CR.

(** [parse_process_char] at a character of the line. *)
Definition process_char (p : parser) (c : ascii) : result parser :=
  let start_field (p : parser) :=
    if is_newline c then Ok (save_field EAT_CRNL p)
    else if Ascii.eqb c DQUOTE then Ok (set_state IN_QUOTED_FIELD p)
    else if Ascii.eqb c "," then Ok (save_field START_FIELD p)
    else Ok (add_char c IN_FIELD p) in
  match p_state p with
  | START_RECORD =>
      if is_newline c then Ok (set_state EAT_CRNL p) else start_field p
  | START_FIELD => start_field p
  | IN_FIELD =>
      if is_newline c then Ok (save_field EAT_CRNL p)
      else if Ascii.eqb c "," then Ok (save_field START_FIELD p)
      else Ok (add_char c IN_FIELD p)
  | IN_QUOTED_FIELD =>
      if Ascii.eqb c DQUOTE then Ok (set_state QUOTE_IN_QUOTED_FIELD p)
      else Ok (add_char c IN_QUOTED_FIELD p)
  | QUOTE_IN_QUOTED_FIELD =>
      if Ascii.eqb c DQUOTE then Ok (add_char c IN_QUOTED_FIELD p)
      else if Ascii.eqb c "," then Ok (save_field START_FIELD p)
      else if is_newline c then Ok (save_field EAT_CRNL p)
      else Ok (add_char c IN_FIELD p)
  | EAT_CRNL =>
      if is_newline c then Ok p
      else Raise ValueError
  end.

(** [parse_process_char] at the end of a line. *)
Definition process_eol (p : parser) : parser :=
  match p_state p with
  | START_RECORD => p
  | START_FIELD | IN_FIELD | QUOTE_IN_QUOTED_FIELD => save_field START_RECORD p
  | IN_QUOTED_FIELD => p
  | EAT_CRNL => set_state START_RECORD p
  end.

Fixpoint process_chars (p : parser) (line : string) : result parser :=
  match line with
  | "" => Ok p
  | String c rest => p' <- process_char p c ;; process_chars p' rest
  end.

Definition process_line (p : parser) (line : string) : result parser :=
  p' <- process_chars p line ;; Ok (process_eol p').

(** The rows a [csv.reader] gives for the lines of a file: a record ends
    with the line that leaves the parser at the start of a record; at the
    end of the file a record still open is given as it stands. *)
Fixpoint read_records (p : parser) (lines : list string)
  : result (list (list string)) :=
  match lines with
  | [] =>
      match p_state p, p_field p with
      | IN_QUOTED_FIELD, _ => Ok [(p_fields p ++ [p_field p])%list]
      | _, String _ _ => Ok [(p_fields p ++ [p_field p])%list]
      | _, _ => Ok []
      end
  | line :: rest =>
      p' <- process_line p line ;;
      match p_state p' with
      | START_RECORD =>
          rows <- read_records reset rest ;; Ok (p_fields p' :: rows)
      | _ => read_records p' rest
      end
  end.

Definition reader (lines : list string) : result (list (list string)) :=
  read_records reset lines.

(** A row of a [DictReader]: the value under each field name, [None]
    under a name for which the row has no field. *)
Definition row : Type := list (string * option string).

Fixpoint zip_row (fieldnames fields : list string) : row :=
  match fieldnames, fields with
  | [], _ => []
  | k :: ks, [] => (k, None) :: zip_row ks []
  | k :: ks, v :: vs => (k, Some v) :: zip_row ks vs
  end.

(** [csv.DictReader(f)]: the first row names the fields; empty rows are
    passed over. *)
Definition DictReader (lines : list string) : result (list row) :=
  rows <- reader lines ;;
  match rows with
  | [] => Ok []
  | fieldnames :: rest =>
      Ok (map (zip_row fieldnames)
            (filter (fun r => match r with [] => false | _ => true end) rest))
  end.

(** [row[key]]: the last field of that name counts, as in a dict. *)
Fixpoint lookup (key : string) (r : row) : result (option string) :=
  match r with
  | [] => Raise (KeyError key)
  | (k, v) :: r' =>
      match lookup key r' with
      | Ok v' => Ok v'
      | Raise _ => if String.eqb k key then Ok v else Raise (KeyError key)
      end
  end.

End Csv.

(** ** [format_file_size], the same text in the three scripts *)

Definition size_names : list string := ["B"; "KB"; "MB"; "GB"; "TB"].

(** The [while] loop of [format_file_size].  [larger] is the number of
    units left above [size_names[i]], that is [len(size_names) - 1 - i]:
    the loop test [i < len(size_names) - 1] is [larger > 0], and each turn
    uses one up, which is why the loop ends. *)
Fixpoint scale_loop (larger : nat) (size_bytes : number) (i : nat)
  : result (number * nat) :=
  match larger with
  | O => Ok (size_bytes, i)
  | S larger' =>
      if ge1024 size_bytes then
        size_bytes' <- div1024 size_bytes ;;
        scale_loop larger' size_bytes' (S i)
      else Ok (size_bytes, i)
  end.

Definition format_size (size_bytes : number) : result string :=
  if is_zero size_bytes then Ok "0 B"
  else
    '(v, i) <- scale_loop (List.length size_names - 1) size_bytes 0 ;;
    digits <- fmt_1f v ;;
    Ok (digits ++ " " ++ nth i size_names "").

(** [format_file_size(size_bytes)] at an [int] argument. *)
Definition format_file_size (size_bytes : Z) : result string :=
  format_size (Int size_bytes).

(** [f"{progress:.1f}"] where [progress = (count / total) * 100]. *)
Definition percent_1f (count total : Z) : result string :=
  ratio <- truediv count total ;;
  Ok (format_1f (fmul100 ratio)).

(** Byte counts the aggregation can format: none is negative (the
    invariant of a file record) and their total is below the least integer
    that [float] cannot hold. *)
Definition sizes_ok (sizes : list Z) : Prop :=
  Forall (fun n => 0 <= n) sizes /\ sum sizes < 2 ^ 1024 - 2 ^ 970.

(** ** [file_census.py] *)

Module Census.

(** Where a user interrupt ([KeyboardInterrupt]) reaches the run, if one
    does: in the counting pass at its [k]-th entry; in the body of
    [scan_folder] during the second pass, while it is at its [k]-th entry
    (or finds, at [k], that there is none left); or in the loop body of
    [create_csv_report], while the generator waits at its [yield]: before
    the row of the [j]-th record is written, or after it. *)
Inductive point : Type :=
| InCount (k : nat)
| InScan (k : nat)
| BeforeRow (j : nat)
| AfterRow (j : nat).

Definition point_eqb (p q : point) : bool :=
  match p, q with
  | InCount a, InCount b | InScan a, InScan b
  | BeforeRow a, BeforeRow b | AfterRow a, AfterRow b => Nat.eqb a b
  | _, _ => false
  end.

Definition arrives (interrupt : option point) (here : point) : bool :=
  match interrupt with
  | Some p => point_eqb p here
  | None => false
  end.

(** The dict [scan_folder] yields for a file. *)
Record file_info : Type := mk_file_info {
  filename : string;
  full_path : string;
  size_bytes : Z;
  size_formatted : string;
  modified_date : string;
  extension : string
}.

Definition fieldnames : list string :=
  ["filename"; "full_path"; "size_bytes"; "size_formatted"; "modified_date";
   "extension"].

(** The values of a dict in the order of [fieldnames], as [DictWriter]
    hands them to the writer, which prints the [int] with [str]. *)
Definition values (file_info : file_info) : list string :=
  [filename file_info; full_path file_info; str (size_bytes file_info);
   size_formatted file_info; modified_date file_info; extension file_info].

Section Machine.

Variable fromtimestamp : Z -> datetime.
Variable home : string.

(** [get_downloads_folder()] *)
Definition get_downloads_folder : string := home ++ "/Downloads".

(** The dict of a file, from its place in the tree and its [stat()]. *)
Definition file_record (folder_path : string) (rel : list string)
    (file_path : FS.node) (stat_info : FS.stat_result) (formatted : string)
  : file_info :=
  {| filename := FS.name file_path;
     full_path := FS.full folder_path rel;
     size_bytes := FS.st_size stat_info;
     size_formatted := formatted;
     modified_date := strftime_seconds (fromtimestamp (FS.st_mtime stat_info));
     extension := lower (FS.suffix (FS.name file_path)) |}.

(** The records of a run of entries: one for each regular file whose
    [stat()] succeeds, in the order of the traversal. *)
Fixpoint scanned (folder_path : string) (entries : list FS.entry)
  : list file_info :=
  match entries with
  | [] => []
  | (rel, file_path) :: rest =>
      if FS.is_file file_path then
        match FS.stat file_path with
        | Ok stat_info =>
            match format_file_size (FS.st_size stat_info) with
            | Ok formatted =>
                file_record folder_path rel file_path stat_info formatted
                :: scanned folder_path rest
            | Raise _ => []
            end
        | Raise _ => scanned folder_path rest
        end
      else scanned folder_path rest
  end.

(** The sizes of the files of a traversal are byte counts that can be
    formatted. *)
Definition entries_fit (entries : list FS.entry) : Prop :=
  Forall (fun e : FS.entry =>
            forall st, FS.is_file (snd e) = true -> FS.stat (snd e) = Ok st ->
                       0 <= FS.st_size st < 2 ^ 1024 - 2 ^ 970)
         entries.

(** The text of the rows of some records. *)
Definition rows_text (records : list file_info) : string :=
  String.concat "" (map (fun r => Csv.writerow (values r)) records).

(** The second pass of [scan_folder], from its [k]-th entry on. *)
Fixpoint second_pass (folder_path : string) (show_progress : bool)
    (interrupt : option point) (file_count : Z)
    (entries : list FS.entry) (k : nat) (processed_count : Z)
  : gen file_info :=
  if arrives interrupt (InScan k) then
    Say (nl ++ "Interrupted. Processed " ++ str processed_count ++ " files." ++ nl)
      Return
  else
    match entries with
    | [] =>
        if show_progress then
          Say (nl ++ "Completed scanning " ++ str processed_count ++ " files." ++ nl)
            Return
        else Return
    | (rel, file_path) :: rest =>
        if FS.is_file file_path then
          match FS.stat file_path with
          | Ok stat_info =>
              match format_file_size (FS.st_size stat_info) with
              | Ok formatted =>
                  let file_info :=
                    file_record folder_path rel file_path stat_info formatted in
                  let processed_count := processed_count + 1 in
                  let resume :=
                    Yield file_info
                      (second_pass folder_path show_progress interrupt
                         file_count rest (S k) processed_count) in
                  if show_progress && (0 <? file_count)
                     && (processed_count mod 100 =? 0) then
                    match percent_1f processed_count file_count with
                    | Ok progress =>
                        Say (String CR "" ++ "Processing files... "
                             ++ str processed_count ++ "/" ++ str file_count
                             ++ " (" ++ progress ++ "%)")
                          resume
                    | Raise e => Throw e
                    end
                  else resume
              | Raise e => Throw e
              end
          | Raise e =>
              let next :=
                second_pass folder_path show_progress interrupt file_count
                  rest (S k) processed_count in
              if show_progress then
                Say (nl ++ "Skipping " ++ FS.full folder_path rel ++ ": "
                     ++ exn_text e ++ nl)
                  next
              else next
          end
        else
          second_pass folder_path show_progress interrupt file_count
            rest (S k) processed_count
    end.

(** The counting pass: the first interrupt among its entries, if any. *)
Definition interrupted_counting (interrupt : option point)
    (entries : list FS.entry) : bool :=
  match interrupt with
  | Some (InCount k) => (k <=? List.length entries)%nat
  | _ => false
  end.

(** [scan_folder(folder_path, show_progress)]; [root] is what stands at
    [folder_path]. *)
Definition scan_folder (folder_path : string) (root : option FS.node)
    (show_progress : bool) (interrupt : option point) : gen file_info :=
  match root with
  | None => Throw (FileNotFoundError ("Folder not found: " ++ folder_path))
  | Some folder =>
      if negb (FS.is_dir folder) then
        Throw (NotADirectoryError ("Path is not a directory: " ++ folder_path))
      else
        let entries := FS.rglob folder in
        if show_progress then
          let file_count :=
            Z.of_nat (List.length (filter (fun e => FS.is_file (snd e)) entries)) in
          Say "Counting files..."
            (if interrupted_counting interrupt entries then
               Throw KeyboardInterrupt
             else
               Say (" Found " ++ str file_count ++ " files" ++ nl)
                 (second_pass folder_path show_progress interrupt file_count
                    entries 0 0))
        else
          second_pass folder_path show_progress interrupt 0 entries 0 0
  end.

(** The [for] loop of [create_csv_report] over the generator: a row per
    value; the number of rows written. *)
Fixpoint write_rows (output_path : string) (interrupt : option point)
    (files : gen file_info) (files_written : nat) : IO nat :=
  match files with
  | Yield file_info rest =>
      if arrives interrupt (BeforeRow files_written) then
        raise KeyboardInterrupt
      else
        write output_path (Csv.writerow (values file_info)) ;;;
        if arrives interrupt (AfterRow files_written) then
          raise KeyboardInterrupt
        else write_rows output_path interrupt rest (S files_written)
  | Say text rest =>
      print_end text "" ;;; write_rows output_path interrupt rest files_written
  | Return => ret files_written
  | Throw e => raise e
  end.

(** [create_csv_report(folder_path, output_file, show_progress)] *)
Definition create_csv_report (folder_path : string) (root : option FS.node)
    (output_file : option string) (show_progress : bool)
    (interrupt : option point) : IO unit :=
  now <~ now_timestamp ;;
  let output_path :=
    match output_file with
    | Some o => o
    | None => "file_census_" ++ strftime_compact (fromtimestamp now) ++ ".csv"
    end in
  try_except
    (with_open_w output_path
       (write output_path (Csv.writerow fieldnames) ;;;
        files_written <~
          write_rows output_path interrupt
            (scan_folder folder_path root show_progress interrupt) 0 ;;
        if show_progress then
          print ("CSV report created: " ++ output_path) ;;;
          print ("Total files processed: " ++ str (Z.of_nat files_written))
        else ret tt))
    (fun e =>
       match e with
       | PermissionError _ =>
           Some (print ("Error: Permission denied writing to " ++ output_path) ;;;
                 sys_exit 1)
       | _ =>
           if is_Exception e then
             Some (print ("Error creating CSV report: " ++ exn_text e) ;;;
                   sys_exit 1)
           else None
       end).

(** [main()]: [folder], [output] and [quiet] are the arguments, [fs] says
    what stands at a path. *)
Definition main (folder output : option string) (quiet : bool)
    (fs : string -> option FS.node) (interrupt : option point) : IO unit :=
  let scan_folder_path :=
    match folder with
    | Some f => if String.eqb f "" then get_downloads_folder else f
    | None => get_downloads_folder
    end in
  let show_progress := negb quiet in
  (if show_progress then print ("Scanning folder: " ++ scan_folder_path)
   else ret tt) ;;;
  try_except
    (create_csv_report scan_folder_path (fs scan_folder_path) output
       show_progress interrupt)
    (fun e =>
       match e with
       | FileNotFoundError _ | NotADirectoryError _ =>
           Some (print ("Error: " ++ exn_text e) ;;; sys_exit 1)
       | KeyboardInterrupt =>
           Some (print (nl ++ "Operation cancelled by user.") ;;; sys_exit 1)
       | _ => None
       end).

End Machine.

End Census.

(** ** [downloads_weekly_review.py] *)

Module Weekly.

(** [truncate_filename(filename, max_length=40)] *)
Definition truncate_filename (filename : string) (max_length : Z) : string :=
  if len filename <=? max_length then filename
  else
    let fallback := slice_to (max_length - 3) filename ++ "..." in
    if contains "." filename then
      match rsplit1 "." filename with
      | Some (name, ext) =>
          if len ext <? max_length - 3 then
            let available_length := max_length - len ext - 4 in
            if 0 <? available_length then
              slice_to available_length name ++ "..." ++ ext
            else fallback
          else fallback
      | None => fallback
      end
    else fallback.

(** One entry of [files_data]: the dict built per file by the scan. *)
Record file_info : Type := mk_file_info {
  name : string;
  size_bytes : Z;
  size_formatted : string;
  modified_time : Z;
  modified_formatted : string;
  path : string;
  relative_path : string
}.

(** One entry of [subfolders_data]; the keys are those of the dict, with
    [sub_] put before them. *)
Record subfolder_info : Type := mk_subfolder_info {
  sub_name : string;
  sub_file_count : Z;
  sub_total_size : Z;
  sub_total_size_formatted : string;
  sub_created_time : Z;
  sub_created_formatted : string;
  sub_path : string
}.

(** The dict [analyze_files] returns.  The two [_formatted] sizes are
    [None] when the dict has no such key (the early return leaves them
    out); the two dates are [None] when the value is Python's [None]. *)
Record analysis : Type := mk_analysis {
  total_files : Z;
  total_size : Z;
  total_size_formatted : option string;
  average_size : number;
  average_size_formatted : option string;
  oldest_date : option string;
  newest_date : option string;
  largest_files : list file_info;
  recent_files : list file_info;
  oldest_files : list file_info;
  subfolders : list subfolder_info
}.

Section Machine.

(** [datetime.fromtimestamp]: the local calendar time of a timestamp; it
    depends on the time zone of the machine and stays a parameter, as does
    the home directory of the user, [Path.home()]. *)
Variable fromtimestamp : Z -> datetime.
Variable home : string.

(** [format_date(timestamp)] *)
Definition format_date (timestamp : Z) : string :=
  strftime_minutes (fromtimestamp timestamp).

(** [analyze_files(files_data, subfolders_data)] *)
Definition analyze_files (files_data : list file_info)
    (subfolders_data : list subfolder_info) : IO analysis :=
  match files_data with
  | [] =>
      ret {| total_files := 0;
             total_size := 0;
             total_size_formatted := None;
             average_size := Int 0;
             average_size_formatted := None;
             oldest_date := None;
             newest_date := None;
             largest_files := [];
             recent_files := [];
             oldest_files := [];
             subfolders := [] |}
  | _ :: _ =>
      let total_files := Z.of_nat (List.length files_data) in
      let total_size := sum (map size_bytes files_data) in
      average_size <~
        (if 0 <? total_files
         then lift (x <- truediv total_size total_files ;; Ok (Float x))
         else ret (Int 0)) ;;
      oldest_date <~ lift (min (map modified_time files_data)) ;;
      newest_date <~ lift (max (map modified_time files_data)) ;;
      let largest_files := firstn 15 (sorted size_bytes true files_data) in
      now <~ now_timestamp ;;
      let seven_days_ago := now - 7 * 24 * 60 * 60 in
      let recent_files :=
        filter (fun f => seven_days_ago <=? modified_time f) files_data in
      let recent_files := sorted modified_time true recent_files in
      let oldest_files := firstn 15 (sorted modified_time false files_data) in
      let sorted_subfolders := sorted sub_total_size true subfolders_data in
      total_size_formatted <~ lift (format_file_size total_size) ;;
      average_size_formatted <~ lift (format_size average_size) ;;
      ret {| total_files := total_files;
             total_size := total_size;
             total_size_formatted := Some total_size_formatted;
             average_size := average_size;
             average_size_formatted := Some average_size_formatted;
             oldest_date := Some (format_date oldest_date);
             newest_date := Some (format_date newest_date);
             largest_files := largest_files;
             recent_files := recent_files;
             oldest_files := oldest_files;
             subfolders := sorted_subfolders |}
  end.

(** [get_downloads_folder()]: the same path on every system. *)
Definition get_downloads_folder : string := home ++ "/Downloads".

(** The first loop of [scan_downloads_folder]: a dict for every regular
    file of the traversal; a file whose [stat()] raises is passed over. *)
Fixpoint scan_files (folder_path : string) (entries : list FS.entry)
  : result (list file_info) :=
  match entries with
  | [] => Ok []
  | (rel, file_path) :: rest =>
      if FS.is_file file_path then
        match FS.stat file_path with
        | Ok stat_info =>
            formatted <- format_file_size (FS.st_size stat_info) ;;
            let file_info :=
              {| name := FS.name file_path;
                 size_bytes := FS.st_size stat_info;
                 size_formatted := formatted;
                 modified_time := FS.st_mtime stat_info;
                 modified_formatted := format_date (FS.st_mtime stat_info);
                 path := FS.full folder_path rel;
                 relative_path := FS.relative rel |} in
            files_data <- scan_files folder_path rest ;;
            Ok (file_info :: files_data)
        | Raise e =>
            if is_OSError e then scan_files folder_path rest else Raise e
        end
      else scan_files folder_path rest
  end.

(** The inner loop over one subfolder: [(file_count, total_size)]. *)
Fixpoint count_files (entries : list FS.entry) : Z * Z :=
  match entries with
  | [] => (0, 0)
  | (_, file_path) :: rest =>
      let '(file_count, total_size) := count_files rest in
      if FS.is_file file_path then
        match FS.stat file_path with
        | Ok stat_info => (file_count + 1, total_size + FS.st_size stat_info)
        | Raise _ => (file_count, total_size)
        end
      else (file_count, total_size)
  end.

(** The body of the [try] for one subfolder: its dict when it holds a
    file, [None] when it holds none. *)
Definition subfolder_record (folder_path : string) (subfolder_path : FS.node)
  : result (option subfolder_info) :=
  let '(file_count, total_size) := count_files (FS.rglob subfolder_path) in
  if 0 <? file_count then
    folder_stat <- FS.stat subfolder_path ;;
    formatted <- format_file_size total_size ;;
    Ok (Some {| sub_name := FS.name subfolder_path;
                sub_file_count := file_count;
                sub_total_size := total_size;
                sub_total_size_formatted := formatted;
                sub_created_time := FS.st_ctime folder_stat;
                sub_created_formatted := format_date (FS.st_ctime folder_stat);
                sub_path := FS.full folder_path [FS.name subfolder_path] |})
  else Ok None.

(** The second loop: the direct subdirectories; one whose [try] raises an
    [OSError] is passed over. *)
Fixpoint scan_subfolders (folder_path : string) (children : list FS.node)
  : result (list subfolder_info) :=
  match children with
  | [] => Ok []
  | subfolder_path :: rest =>
      if FS.is_dir subfolder_path then
        match subfolder_record folder_path subfolder_path with
        | Ok (Some subfolder_info) =>
            subfolders_data <- scan_subfolders folder_path rest ;;
            Ok (subfolder_info :: subfolders_data)
        | Ok None => scan_subfolders folder_path rest
        | Raise e =>
            if is_OSError e then scan_subfolders folder_path rest else Raise e
        end
      else scan_subfolders folder_path rest
  end.

(** [scan_downloads_folder(folder_path)]; [root] is what stands at
    [folder_path], [None] when nothing does. *)
Definition scan_downloads_folder (folder_path : string)
    (root : option FS.node) : IO (list file_info * list subfolder_info) :=
  match root with
  | None =>
      eprint ("Error: Downloads folder not found: " ++ folder_path) ;;;
      sys_exit 1
  | Some folder =>
      if negb (FS.is_dir folder) then
        eprint ("Error: Path is not a directory: " ++ folder_path) ;;;
        sys_exit 1
      else
        try_except
          (lift (files_data <- scan_files folder_path (FS.rglob folder) ;;
                 children <- FS.iterdir folder ;;
                 subfolders_data <- scan_subfolders folder_path children ;;
                 Ok (files_data, subfolders_data)))
          (fun e =>
             if is_PermissionError e then
               Some (eprint ("Error: Permission denied accessing folder: "
                             ++ folder_path) ;;;
                     sys_exit 1)
             else None)
  end.

(** [analysis[key]] for a key the early return of [analyze_files] leaves
    out. *)
Definition item (key : string) (value : option string) : IO string :=
  match value with
  | Some v => ret v
  | None => raise (KeyError key)
  end.

(** [f"{value}"] for a date that may be [None]. *)
Definition show_date (value : option string) : string :=
  match value with
  | Some v => v
  | None => "None"
  end.

(** The pictographs of the headings, byte for byte as the script has
    them. *)
Definition glyph_folder : string := "üìÅ".
Definition glyph_largest : string := "üî•".
Definition glyph_delete : string := "üóëÔ∏è".
Definition glyph_week : string := "üìÖ".
Definition glyph_oldest : string := "üï∞Ô∏è".

(** A row of the tables of files: the name cut to 40 characters, with its
    bars escaped. *)
Definition shown_name (file_info : file_info) : string :=
  replace "|" "\|" (truncate_filename (name file_info) 40).

Definition file_row (file_info : file_info) : string :=
  "| " ++ shown_name file_info ++ " | " ++ size_formatted file_info
  ++ " | " ++ modified_formatted file_info ++ " |".

(** [generate_markdown_report(analysis)] *)
Definition generate_markdown_report (analysis : analysis) : IO unit :=
  print "# Downloads Weekly Review" ;;;
  print "" ;;;
  print "## Summary" ;;;
  print "" ;;;
  print ("- **Total files:** " ++ format_thousands (total_files analysis)) ;;;
  print ("- **Date range:** " ++ show_date (oldest_date analysis) ++ " to "
         ++ show_date (newest_date analysis)) ;;;
  size <~ item "total_size_formatted" (total_size_formatted analysis) ;;
  print ("- **Total size:** " ++ size) ;;;
  average <~ item "average_size_formatted" (average_size_formatted analysis) ;;
  print ("- **Average file size:** " ++ average) ;;;
  print "" ;;;
  print "```button" ;;;
  print ("name Open Downloads Folder " ++ glyph_folder) ;;;
  print "type link" ;;;
  print ("action file:///" ++ get_downloads_folder) ;;;
  print "```" ;;;
  print "" ;;;
  print ("## " ++ glyph_largest ++ " Top 15 Largest Files") ;;;
  print "" ;;;
  (match largest_files analysis with
   | [] => print "*No files found*"
   | _ :: _ =>
       print "| File | Size | Date | Delete |" ;;;
       print "|------|------|------|--------|" ;;;
       for_ (largest_files analysis)
         (fun file_info =>
            let file_path_clean := replace "\" "/" (path file_info) in
            let file_path_encoded := quote file_path_clean in
            let delete_link :=
              "[" ++ glyph_delete
              ++ "](obsidian://shell-commands/?execute=19bemkchg3&_file_path="
              ++ file_path_encoded ++ ")" in
            print (file_row file_info ++ " " ++ delete_link ++ " |"))
   end) ;;;
  print "" ;;;
  print ("## " ++ glyph_week ++ " Files from Last Week") ;;;
  print "" ;;;
  (match recent_files analysis with
   | [] => print "*No files modified in the last 7 days*"
   | _ :: _ =>
       print ("*" ++ str (Z.of_nat (List.length (recent_files analysis)))
              ++ " files modified in the last 7 days*") ;;;
       print "" ;;;
       print "| File | Size | Date |" ;;;
       print "|------|------|------|" ;;;
       for_ (recent_files analysis) (fun file_info => print (file_row file_info))
   end) ;;;
  print "" ;;;
  print ("## " ++ glyph_folder ++ " Subfolders") ;;;
  print "" ;;;
  (match subfolders analysis with
   | [] => print "*No subfolders found*"
   | _ :: _ =>
       print "| Folder | Files | Total Size | Created |" ;;;
       print "|--------|-------|------------|---------|" ;;;
       for_ (subfolders analysis)
         (fun folder_info =>
            print ("| " ++ replace "|" "\|" (sub_name folder_info) ++ " | "
                   ++ format_thousands (sub_file_count folder_info) ++ " | "
                   ++ sub_total_size_formatted folder_info ++ " | "
                   ++ sub_created_formatted folder_info ++ " |"))
   end) ;;;
  print "" ;;;
  print ("## " ++ glyph_oldest ++ " 15 Oldest Files") ;;;
  print "" ;;;
  (match oldest_files analysis with
   | [] => print "*No files found*"
   | _ :: _ =>
       print "| File | Size | Date |" ;;;
       print "|------|------|------|" ;;;
       for_ (oldest_files analysis) (fun file_info => print (file_row file_info))
   end) ;;;
  print "".

(** [main()]: [folder] is the [--folder] argument, [fs] says what stands at
    a path. *)
Definition main (folder : option string) (fs : string -> option FS.node)
  : IO unit :=
  let downloads_folder :=
    match folder with
    | Some f => if String.eqb f "" then get_downloads_folder else f
    | None => get_downloads_folder
    end in
  try_except
    ('(files_data, subfolders_data) <~
       scan_downloads_folder downloads_folder (fs downloads_folder) ;;
     analysis <~ analyze_files files_data subfolders_data ;;
     generate_markdown_report analysis)
    (fun e =>
       match e with
       | KeyboardInterrupt =>
           Some (eprint (nl ++ "Operation cancelled by user.") ;;; sys_exit 1)
       | _ =>
           if is_Exception e then
             Some (eprint ("Unexpected error: " ++ exn_text e) ;;; sys_exit 1)
           else None
       end).

End Machine.

End Weekly.

(** ** [summary_report.py]: the aggregation *)

Module Summary.

(** One row of the census, as [read_csv_data] hands it on: the six columns
    of the CSV, [size_bytes] turned into an [int], and the parsed date under
    the added key [modified_datetime]. *)
Record file_info : Type := mk_file_info {
  filename : string;
  full_path : string;
  size_bytes : Z;
  size_formatted : string;
  modified_date : string;
  extension : string;
  modified_datetime : datetime
}.

(** An entry of [analysis['file_types']]; the keys are those of the dict
    with [type_] put before them. *)
Record type_info : Type := mk_type_info {
  type_extension : string;
  type_count : Z;
  type_total_size : Z;
  type_total_size_formatted : string
}.

(** An entry of [analysis['files_by_year']], keys with [yr_] before them. *)
Record year_info : Type := mk_year_info {
  yr_year : Z;
  yr_count : Z;
  yr_total_size : Z;
  yr_total_size_formatted : string
}.

(** The dict [analyze_data] returns. *)
Record analysis : Type := mk_analysis {
  total_files : Z;
  total_size : Z;
  total_size_formatted : string;
  largest_files : list file_info;
  file_types : list type_info;
  files_by_year : list year_info
}.

(** The key under which a file is counted in the breakdown by type. *)
Definition type_key (file_info : file_info) : string :=
  let ext := lower (extension file_info) in
  if String.eqb ext "" then "(no extension)" else ext.

(** The first loop of [analyze_data]: both counters after all files. *)
Definition count_types (files_data : list file_info)
  : list (string * Z) * list (string * Z) :=
  fold_left
    (fun '(extension_counts, extension_sizes) file_info =>
       let ext := type_key file_info in
       (add_to String.eqb ext 1 extension_counts,
        add_to String.eqb ext (size_bytes file_info) extension_sizes))
    files_data ([], []).

(** The second loop: the counters by year. *)
Definition count_years (files_data : list file_info)
  : list (Z * Z) * list (Z * Z) :=
  fold_left
    (fun '(year_counts, year_sizes) file_info =>
       let y := year (modified_datetime file_info) in
       (add_to Z.eqb y 1 year_counts,
        add_to Z.eqb y (size_bytes file_info) year_sizes))
    files_data ([], []).

(** [for x in xs: out.append(f(x))] where [f] may raise. *)
Fixpoint for_each {A B : Type} (f : A -> result B) (xs : list A)
  : result (list B) :=
  match xs with
  | [] => Ok []
  | x :: xs' => y <- f x ;; ys <- for_each f xs' ;; Ok (y :: ys)
  end.

(** [analyze_data(files_data)] *)
Definition analyze_data (files_data : list file_info) : result analysis :=
  let total_size := sum (map size_bytes files_data) in
  total_size_formatted <- format_file_size total_size ;;
  let largest_files := firstn 10 (sorted size_bytes true files_data) in
  let '(extension_counts, extension_sizes) := count_types files_data in
  file_types <-
    for_each
      (fun '(ext, count) =>
         formatted <- format_file_size (get String.eqb ext extension_sizes) ;;
         Ok {| type_extension := ext;
               type_count := count;
               type_total_size := get String.eqb ext extension_sizes;
               type_total_size_formatted := formatted |})
      (sorted snd true extension_counts) ;;
  let '(year_counts, year_sizes) := count_years files_data in
  files_by_year <-
    for_each
      (fun y =>
         formatted <- format_file_size (get Z.eqb y year_sizes) ;;
         Ok {| yr_year := y;
               yr_count := get Z.eqb y year_counts;
               yr_total_size := get Z.eqb y year_sizes;
               yr_total_size_formatted := formatted |})
      (sorted (fun y => y) true (map fst year_counts)) ;;
  Ok {| total_files := Z.of_nat (List.length files_data);
        total_size := total_size;
        total_size_formatted := total_size_formatted;
        largest_files := largest_files;
        file_types := file_types;
        files_by_year := files_by_year |}.

(** [read_csv_data(csv_file)]: [opened] is what opening and reading the
    file gives, its text or the exception raised.  The file is opened
    without [newline=''], so the text goes through the universal newlines.
    Each row is turned into a record at once: a column the file does not
    have raises its [KeyError] here, where Python raises it at the first
    later use of the row; the process ends with status 1 in both cases. *)
Definition field (key : string) (r : Csv.row) : result string :=
  v <- Csv.lookup key r ;;
  match v with
  | Some text => Ok text
  | None => Raise ValueError
  end.

Definition convert_row (r : Csv.row) : result file_info :=
  size_text <- field "size_bytes" r ;;
  size <- int size_text ;;
  date_text <- field "modified_date" r ;;
  date <- strptime date_text ;;
  name <- field "filename" r ;;
  full <- field "full_path" r ;;
  formatted <- field "size_formatted" r ;;
  ext <- field "extension" r ;;
  Ok {| filename := name;
        full_path := full;
        size_bytes := size;
        size_formatted := formatted;
        modified_date := date_text;
        extension := ext;
        modified_datetime := date |}.

Definition parse_csv (text : string) : result (list file_info) :=
  rows <- Csv.DictReader (Csv.readlines (Csv.universal_newlines text)) ;;
  for_each convert_row rows.

Definition read_csv_data (csv_file : string) (opened : result string)
  : IO (list file_info) :=
  try_except
    (text <~ lift opened ;; lift (parse_csv text))
    (fun e =>
       match e with
       | FileNotFoundError _ =>
           Some (print ("Error: CSV file not found: " ++ csv_file) ;;;
                 sys_exit 1)
       | _ =>
           if is_Exception e then
             Some (print ("Error reading CSV file: " ++ exn_text e) ;;;
                   sys_exit 1)
           else None
       end).

Section Machine.

Variable fromtimestamp : Z -> datetime.

(** [f"{percentage:.1f}%"] where [percentage = (count / total) * 100]. *)
Definition percentage_text (count total : Z) : result string :=
  progress <- percent_1f count total ;;
  Ok (progress ++ "%").

Fixpoint enumerate_from {A : Type} (i : Z) (l : list A) : list (Z * A) :=
  match l with
  | [] => []
  | x :: l' => (i, x) :: enumerate_from (i + 1) l'
  end.

(** The text of the report. *)
Definition markdown_content (analysis : analysis) (timestamp : string)
  : result string :=
  let head :=
    "# File Census Summary Report" ++ nl ++ nl
    ++ "Generated on: " ++ timestamp ++ nl ++ nl
    ++ "## Overview" ++ nl ++ nl
    ++ "- **Total Files**: " ++ format_thousands (total_files analysis) ++ nl
    ++ "- **Total Size**: " ++ total_size_formatted analysis ++ " ("
    ++ format_thousands (total_size analysis) ++ " bytes)" ++ nl ++ nl
    ++ "## Top 10 Largest Files" ++ nl ++ nl
    ++ "| Rank | Filename | Size | Modified Date |" ++ nl
    ++ "|------|----------|------|---------------|" ++ nl in
  let largest :=
    String.concat ""
      (map (fun '(i, file_info) =>
              "| " ++ str i ++ " | `"
              ++ replace "|" "\|" (filename file_info) ++ "` | "
              ++ size_formatted file_info ++ " | "
              ++ modified_date file_info ++ " |" ++ nl)
         (enumerate_from 1 (largest_files analysis))) in
  types <-
    for_each
      (fun type_info =>
         percentage <-
           percentage_text (type_count type_info) (total_files analysis) ;;
         let ext_display :=
           if String.eqb (type_extension type_info) "(no extension)"
           then "*no extension*" else type_extension type_info in
         Ok ("| `" ++ ext_display ++ "` | "
             ++ format_thousands (type_count type_info) ++ " | "
             ++ type_total_size_formatted type_info ++ " | "
             ++ percentage ++ " |" ++ nl))
      (firstn 20 (file_types analysis)) ;;
  let more :=
    if 20 <? Z.of_nat (List.length (file_types analysis)) then
      "| *...and "
      ++ str (Z.of_nat (List.length (file_types analysis)) - 20)
      ++ " more* | | | |" ++ nl
    else "" in
  years <-
    for_each
      (fun year_info =>
         percentage <-
           percentage_text (yr_count year_info) (total_files analysis) ;;
         Ok ("| " ++ str (yr_year year_info) ++ " | "
             ++ format_thousands (yr_count year_info) ++ " | "
             ++ yr_total_size_formatted year_info ++ " | "
             ++ percentage ++ " |" ++ nl))
      (files_by_year analysis) ;;
  let tags :=
    String.concat ""
      (map (fun type_info =>
              let ext :=
                match type_extension type_info with
                | String "." _ => replace "." "" (type_extension type_info)
                | other => other
                end in
              if String.eqb ext "(no extension)" then "" else "#" ++ ext ++ " ")
         (firstn 10 (file_types analysis))) in
  Ok (head ++ largest
      ++ nl ++ "## File Type Breakdown" ++ nl ++ nl
      ++ "| Extension | Count | Total Size | Percentage |" ++ nl
      ++ "|-----------|-------|------------|------------|" ++ nl
      ++ String.concat "" types ++ more
      ++ nl ++ "## Files by Year" ++ nl ++ nl
      ++ "| Year | Count | Total Size | Percentage |" ++ nl
      ++ "|------|-------|------------|------------|" ++ nl
      ++ String.concat "" years
      ++ nl ++ "## File Extensions Summary" ++ nl ++ nl
      ++ tags
      ++ nl ++ nl ++ "---" ++ nl ++ nl
      ++ "*Report generated by File Census Tool*" ++ nl).

(** [generate_markdown_report(analysis, output_file)] *)
Definition generate_markdown_report (analysis : analysis)
    (output_file : string) : IO unit :=
  now <~ now_timestamp ;;
  let timestamp := strftime_seconds (fromtimestamp now) in
  markdown_content <~ lift (markdown_content analysis timestamp) ;;
  try_except
    (with_open_w output_file (write output_file markdown_content) ;;;
     print ("Summary report created: " ++ output_file))
    (fun e =>
       if is_Exception e then
         Some (print ("Error writing markdown file: " ++ exn_text e) ;;;
               sys_exit 1)
       else None).

(** [main()]: [csv_file] and [output] are the arguments, [opened] is what
    reading [csv_file] gives. *)
Definition main (csv_file : string) (output : option string)
    (opened : result string) : IO unit :=
  now <~ now_timestamp ;;
  let output_file :=
    match output with
    | Some o => if String.eqb o "" then None else Some o
    | None => None
    end in
  let output_file :=
    match output_file with
    | Some o => o
    | None =>
        "file_census_summary_" ++ strftime_compact (fromtimestamp now) ++ ".md"
    end in
  print ("Reading data from: " ++ csv_file) ;;;
  files_data <~ read_csv_data csv_file opened ;;
  print "Analyzing data..." ;;;
  analysis <~ lift (analyze_data files_data) ;;
  print "Generating markdown report..." ;;;
  generate_markdown_report analysis output_file.

End Machine.

End Summary.

(** * Vocabulary of the statements and sample inputs *)

(** Three records of the weekly review, two of them of one size, and the
    first modified after the clock time used below. *)
Definition sample_files : list Weekly.file_info :=
  [ Weekly.mk_file_info "a.iso" 700 "700.0 B" 1700000001 "2023-11-14 22:13"
      "/d/a.iso" "a.iso";
    Weekly.mk_file_info "b.zip" 9000 "8.8 KB" 1699999000 "2023-11-14 21:56"
      "/d/b.zip" "b.zip";
    Weekly.mk_file_info "c.txt" 700 "700.0 B" 1600000000 "2020-09-13 12:26"
      "/d/c.txt" "c.txt" ].

Definition sample_rows : list Summary.file_info :=
  [ Summary.mk_file_info "a.iso" "/d/a.iso" 700 "700.0 B"
      "2023-11-14 22:13:21" ".iso" (mkDatetime 2023 11 14 22 13 21);
    Summary.mk_file_info "b.zip" "/d/b.zip" 9000 "8.8 KB"
      "2023-11-14 21:56:40" ".zip" (mkDatetime 2023 11 14 21 56 40);
    Summary.mk_file_info "c.txt" "/d/c.txt" 700 "700.0 B"
      "2020-09-13 12:26:40" ".txt" (mkDatetime 2020 9 13 12 26 40) ].

Definition sample_world : world := mkWorld 1700000000 [] [] (fun _ => Ok tt) [].

Definition sample_zone (timestamp : Z) : datetime :=
  mkDatetime 2023 11 14 22 13 20.

(** What the handlers of [create_csv_report] and [main] make of the end
    [r] of the loop: a normal end stays one; an interrupt and every
    [Exception] become [sys.exit(1)]. *)
Definition handled (r : result nat) : result unit :=
  match r with
  | Ok _ => Ok tt
  | Raise (SystemExit code) => Raise (SystemExit code)
  | Raise _ => Raise (SystemExit 1)
  end.

(** The first line of the report, as [writer.writeheader()] writes it. *)
Definition header : string := Csv.writerow Census.fieldnames.

(** A downloads folder with one file, one subfolder holding one file, and
    one file whose [stat()] fails. *)
Definition sample_tree : FS.node :=
  FS.Dir "Downloads" (Some (FS.mk_stat 4096 1700000000 1690000000))
    (Some [ FS.File "a.txt" (Some (FS.mk_stat 2048 1700000000 1700000000));
            FS.Dir "sub" (Some (FS.mk_stat 4096 1699000000 1699000000))
              (Some [ FS.File "b.bin"
                        (Some (FS.mk_stat 10 1699000000 1699000000)) ]);
            FS.File "locked.dat" None ]).

Definition sample_fs (path : string) : option FS.node :=
  if String.eqb path "/home/u/Downloads" then Some sample_tree else None.



(** What the two aggregations give for no records. *)
Definition empty_weekly : Weekly.analysis :=
  {| Weekly.total_files := 0;
     Weekly.total_size := 0;
     Weekly.total_size_formatted := None;
     Weekly.average_size := Int 0;
     Weekly.average_size_formatted := None;
     Weekly.oldest_date := None;
     Weekly.newest_date := None;
     Weekly.largest_files := [];
     Weekly.recent_files := [];
     Weekly.oldest_files := [];
     Weekly.subfolders := [] |}.

Definition empty_summary : Summary.analysis :=
  {| Summary.total_files := 0;
     Summary.total_size := 0;
     Summary.total_size_formatted := "0 B";
     Summary.largest_files := [];
     Summary.file_types := [];
     Summary.files_by_year := [] |}.

(** A downloads folder with one file whose name holds a carriage return
    (any byte but [/] and NUL may stand in a file name on Linux). *)
Definition cr_name : string := "a" ++ String CR "b.txt".

Definition cr_tree : FS.node :=
  FS.Dir "Downloads" (Some (FS.mk_stat 4096 1700000000 1690000000))
    (Some [ FS.File cr_name (Some (FS.mk_stat 5 1700000000 1700000000)) ]).

Definition cr_fs (path : string) : option FS.node :=
  if String.eqb path "/home/u/Downloads" then Some cr_tree else None.

Section Paths.

Variable fromtimestamp : Z -> datetime.
Variable home : string.

(** The file [main] of the census writes: [args.output], or the name
    made of the time of the run. *)
Definition report_path (output : option string) (w : world) : string :=
  match output with
  | Some o => o
  | None => "file_census_" ++ strftime_compact (fromtimestamp (clock w)) ++ ".csv"
  end.

(** The folder [main] of the census scans: [args.folder], or the
    downloads folder when it is not given or empty. *)
Definition scan_path (folder : option string) : string :=
  match folder with
  | Some f => if String.eqb f "" then Census.get_downloads_folder home else f
  | None => Census.get_downloads_folder home
  end.

End Paths.

(** ** The written census read back *)

(** The parser fed character by character: the end of a line is met
    after each line feed. *)
Fixpoint stream (e : Csv.parser) (text : string)
  : result (list (list string)) :=
  match text with
  | "" => Csv.read_records e []
  | String c text' =>
      match Csv.process_char e c with
      | Ok e' =>
          if Ascii.eqb c LF then
            match Csv.p_state (Csv.process_eol e') with
            | Csv.START_RECORD =>
                bind (stream Csv.reset text')
                  (fun rows => Ok (Csv.p_fields (Csv.process_eol e') :: rows))
            | _ => stream (Csv.process_eol e') text'
            end
          else stream e' text'
      | Raise err => Raise err
      end
  end.

(** A text whose last line is ended by a line feed. *)
Fixpoint ends_with_newline (text : string) : bool :=
  match text with
  | "" => true
  | String c "" => Ascii.eqb c LF
  | String _ text' => ends_with_newline text'
  end.

(** A piece of text inside one record: no record ends in it. *)
Fixpoint advance (e : Csv.parser) (chunk : string) : result Csv.parser :=
  match chunk with
  | "" => Ok e
  | String c rest =>
      match Csv.process_char e c with
      | Ok e' =>
          if Ascii.eqb c LF then
            match Csv.p_state (Csv.process_eol e') with
            | Csv.START_RECORD => Raise ValueError
            | _ => advance (Csv.process_eol e') rest
            end
          else advance e' rest
      | Raise err => Raise err
      end
  end.

(** A field with its quotes doubled, as the writer puts it between
    quotes. *)
Definition escape (f : string) : string :=
  replace DQUOTE (String DQUOTE (String DQUOTE "")) f.

Arguments escape : simpl never.

(** The parser after a written field: the field is collected, and the
    parser stands after a closing quote, in an unquoted field, or (for the
    empty field) where it stood. *)
Definition after_field (st : Csv.state) (f : string) (fs : list string)
    (e : Csv.parser) : Prop :=
  e = Csv.mk_parser Csv.QUOTE_IN_QUOTED_FIELD f fs \/
  e = Csv.mk_parser Csv.IN_FIELD f fs \/
  (e = Csv.mk_parser st "" fs /\ f = "").

(** The text of a row as the reader sees it: the written fields between
    commas, then a line feed. *)
Definition row_line (fields : list string) : string :=
  String.concat "," (map Csv.write_field fields) ++ String LF "".

(** A row of two fields or more (the writer quotes the lone empty field
    of a row of one). *)
Definition wide (fields : list string) : Prop :=
  (2 <= List.length fields)%nat.

(** A row without a carriage return in any field. *)
Definition cr_free (fields : list string) : Prop :=
  Forall (fun f => contains CR f = false) fields.

(** A decimal digit, and the digit of a number below ten. *)
Definition isdigit (c : ascii) : bool :=
  match digit c with
  | Some _ => true
  | None => false
  end.

Definition dc (k : Z) : ascii := ascii_of_nat (48 + Z.to_nat k).

(** The fields of a [datetime] object: Python builds no other. *)
Definition valid (dt : datetime) : Prop :=
  make_datetime (year dt) (month dt) (day dt) (hour dt) (minute dt)
    (second dt) = Ok dt.

(** What [read_csv_data] is expected to hand on for a record of the
    census whose date prints [dt]. *)
Definition read_back (r : Census.file_info) (dt : datetime)
  : Summary.file_info :=
  {| Summary.filename := Census.filename r;
     Summary.full_path := Census.full_path r;
     Summary.size_bytes := Census.size_bytes r;
     Summary.size_formatted := Census.size_formatted r;
     Summary.modified_date := Census.modified_date r;
     Summary.extension := Census.extension r;
     Summary.modified_datetime := dt |}.

(** A record without a carriage return in its texts, with a size that is
    a byte count and the date of the [datetime] [dt], whose year has four
    digits (below 1000 the C library decides how [%Y] prints). *)
Definition plain (r : Census.file_info) (dt : datetime) : Prop :=
  contains CR (Census.filename r) = false /\
  contains CR (Census.full_path r) = false /\
  contains CR (Census.size_formatted r) = false /\
  contains CR (Census.extension r) = false /\
  0 <= Census.size_bytes r /\
  valid dt /\
  1000 <= year dt /\
  Census.modified_date r = strftime_seconds dt.

(** Two records of a census, the second with a name the writer puts
    between quotes, each with the [datetime] of its date. *)
Definition sample_stamped : list (Census.file_info * datetime) :=
  [ (Census.mk_file_info "a.txt" "/home/u/Downloads/a.txt" 2048 "2.0 KB"
       "2023-11-14 22:13:20" ".txt",
     mkDatetime 2023 11 14 22 13 20);
    (Census.mk_file_info "b,c.ZIP" "/home/u/Downloads/b,c.ZIP" 0 "0 B"
       "2020-02-29 00:00:09" ".zip",
     mkDatetime 2020 2 29 0 0 9) ].

(** ** The lines of the runs and more sample inputs *)

(** A character that [quote] lets stand or writes: safe in a link. *)
Definition link_safe (c : ascii) : bool := unreserved c || Ascii.eqb c "%".

(** What a generator prints while it is driven to its end. *)
Fixpoint gen_said {A : Type} (g : gen A) : list string :=
  match g with
  | Yield _ rest => gen_said rest
  | Say text rest => text :: gen_said rest
  | Return | Throw _ => []
  end.

(** A step that leaves the clock, the two streams and the rights to open
    files as they were. *)
Definition same_streams (w w' : world) : Prop :=
  stdout w' = stdout w /\ stderr w' = stderr w /\
  clock w' = clock w /\ can_open w' = can_open w.

(** The first line [main] of the census prints, unless it is quiet. *)
Definition scanning_line (path : string) (quiet : bool) : list string :=
  if quiet then [] else [("Scanning folder: " ++ path) ++ nl].

(** The last lines of a run of the census whose loop ended with [r]: the
    two lines of a finished report, or the line of the handler that
    catches the exception. *)
Definition last_lines (out : string) (quiet : bool) (r : result nat)
  : list string :=
  match r with
  | Ok n =>
      if quiet then []
      else [("CSV report created: " ++ out) ++ nl;
            ("Total files processed: " ++ str (Z.of_nat n)) ++ nl]
  | Raise (PermissionError _) =>
      [("Error: Permission denied writing to " ++ out) ++ nl]
  | Raise KeyboardInterrupt => [(nl ++ "Operation cancelled by user.") ++ nl]
  | Raise (SystemExit _) => []
  | Raise e => [("Error creating CSV report: " ++ exn_text e) ++ nl]
  end.




Definition cancelled_line : string :=
  (nl ++ "Operation cancelled by user.") ++ nl.

Definition failed_line (message : string) : string :=
  ("Error creating CSV report: " ++ message) ++ nl.


(** The line of the handler that catches [e], raised when the output
    file is opened. *)
Definition refused_line (out : string) (e : exn) : string :=
  match e with
  | PermissionError _ => ("Error: Permission denied writing to " ++ out) ++ nl
  | _ => ("Error creating CSV report: " ++ exn_text e) ++ nl
  end.

(** A world in which no file may be opened for writing. *)
Definition locked_world : world :=
  mkWorld 1700000000 [] []
    (fun _ => Raise (PermissionError "Permission denied")) [].

(** A readable regular file. *)
Definition readable (n : FS.node) : bool := FS.is_file n && FS.stat_ok n.



(** The messages of [scan_downloads_folder] on the standard error. *)
Definition scan_error_line (message folder_path : string) : string :=
  (message ++ folder_path) ++ nl.

(** The rows counted under a key, and the bytes they add up to. *)
Definition rows_of {K : Type} (eqb : K -> K -> bool)
    (key_of : Summary.file_info -> K) (k : K)
    (rows : list Summary.file_info) : list Summary.file_info :=
  filter (fun r => eqb (key_of r) k) rows.

Definition year_of (r : Summary.file_info) : Z :=
  year (Summary.modified_datetime r).

Section SummaryPaths.

Variable fromtimestamp : Z -> datetime.

(** The file [main] of the summary writes: [args.output], or the name made
    of the time of the run. *)
Definition summary_path (output : option string) (w : world) : string :=
  match
    match output with
    | Some o => if String.eqb o "" then None else Some o
    | None => None
    end
  with
  | Some o => o
  | None =>
      "file_census_summary_" ++ strftime_compact (fromtimestamp (clock w))
      ++ ".md"
  end.

End SummaryPaths.




(** The line the generator prints when an interrupt reaches it. *)
Definition interrupted_line (processed_count : Z) : string :=
  nl ++ "Interrupted. Processed " ++ str processed_count ++ " files." ++ nl.

(** Every bar of a text stands after a backslash; [escaped] says whether
    the character before the text is one. *)
Fixpoint bars_escaped (escaped : bool) (s : string) : bool :=
  match s with
  | "" => true
  | String c s' =>
      (if Ascii.eqb c "|" then escaped else true)
      && bars_escaped (Ascii.eqb c "\") s'
  end.



(** The stem of a name of 54 characters. *)
Definition long_stem : string :=
  "a_very_long_name_of_a_downloaded_archive_file_2023".



(** A census of one file, as the summary reads it. *)
Definition sample_text : string :=
  "filename,full_path,size_bytes,size_formatted,modified_date,extension"
  ++ nl ++ "a.iso,/d/a.iso,700,700.0 B,2023-11-14 22:13:21,.iso" ++ nl.

Definition sample_parsed : list Summary.file_info :=
  [ Summary.mk_file_info "a.iso" "/d/a.iso" 700 "700.0 B"
      "2023-11-14 22:13:21" ".iso" (mkDatetime 2023 11 14 22 13 21) ].

(** * Theorems *)

(** ** The byte-size format *)

Section FormatFileSize.

Lemma round_half_even_near (a b : Z) :
  0 < b -> Z.abs (2 * a - 2 * round_half_even a b * b) <= b.
Proof.
  intros Hb. unfold round_half_even.
  pose proof (Z.div_mod a b ltac:(lia)) as Hdm.
  pose proof (Z.mod_pos_bound a b Hb) as Hr.
  destruct (Z.ltb_spec (2 * (a mod b)) b);
    [| destruct (Z.ltb_spec b (2 * (a mod b)));
       [| destruct (Z.even (a / b))]]; nia.
Qed.

Lemma round_half_even_range (a b : Z) :
  0 < b -> a / b <= round_half_even a b <= a / b + 1.
Proof.
  intros Hb. unfold round_half_even.
  destruct (2 * (a mod b) <? b); [lia|].
  destruct (b <? 2 * (a mod b)); [lia|].
  destruct (Z.even (a / b)); lia.
Qed.

Lemma round_half_even_up (a b : Z) :
  0 < b -> round_half_even a b = a / b + 1 -> b <= 2 * (a mod b).
Proof.
  intros Hb. unfold round_half_even.
  destruct (Z.ltb_spec (2 * (a mod b)) b); [lia|]. lia.
Qed.

Lemma float_of_int_exact (n : Z) :
  0 <= n < 2 ^ 53 -> float_of_int n = Ok (mkFloat n 0).
Proof.
  intros Hn. unfold float_of_int.
  rewrite Z.abs_eq by lia.
  destruct (Z.ltb_spec n (2 ^ 53)); [reflexivity | lia].
Qed.

(** Above [2^53] the conversion rounds, stays at or above [2^53], moves by
    at most half a unit in the last place, and does not overflow below
    [2^1024 - 2^970]. *)
Lemma float_of_int_rounded (n : Z) :
  2 ^ 53 <= n < 2 ^ 1024 - 2 ^ 970 ->
  exists m, float_of_int n = Ok (mkFloat m 0) /\ 2 ^ 53 <= m /\
            Z.abs (2 * (n - m)) <= 2 ^ (Z.log2 n - 52).
Proof.
  intros [Hlo Hhi]. unfold float_of_int.
  assert (Hpos : 0 < n) by (assert (0 < 2 ^ 53) by (apply Z.pow_pos_nonneg; lia); lia).
  rewrite Z.abs_eq by lia.
  destruct (Z.ltb_spec n (2 ^ 53)) as [Hlt | _]; [lia |].
  destruct (Z.log2_spec n Hpos) as [Hl1 Hl2].
  assert (H53 : 53 <= Z.log2 n).
  { rewrite <- (Z.log2_pow2 53) by lia. apply Z.log2_le_mono; lia. }
  assert (H1024 : Z.log2 n < 1024).
  { apply Z.log2_lt_pow2; [lia |].
    assert (0 < 2 ^ 970) by (apply Z.pow_pos_nonneg; lia). lia. }
  set (e := Z.log2 n - 52) in *.
  assert (HE : 0 < 2 ^ e) by (apply Z.pow_pos_nonneg; lia).
  assert (HE2 : 2 <= 2 ^ e).
  { change 2 with (2 ^ 1) at 1. apply Z.pow_le_mono_r; lia. }
  assert (HEmax : 2 ^ e <= 2 ^ 971) by (apply Z.pow_le_mono_r; lia).
  assert (Hsplit : 2 ^ Z.log2 n = 2 ^ 52 * 2 ^ e).
  { rewrite <- Z.pow_add_r by lia. f_equal. lia. }
  assert (Hq : 2 ^ 52 <= n / 2 ^ e).
  { apply Z.div_le_lower_bound; lia. }
  pose proof (round_half_even_range n (2 ^ e) HE) as Hrange.
  pose proof (round_half_even_near n (2 ^ e) HE) as Hnear.
  pose proof (Z.div_mod n (2 ^ e) ltac:(lia)) as Hdm.
  pose proof (Z.mod_pos_bound n (2 ^ e) HE) as Hr.
  assert (Hup : round_half_even n (2 ^ e) = n / 2 ^ e + 1 ->
                2 ^ e <= 2 * (n mod 2 ^ e))
    by (apply round_half_even_up; exact HE).
  set (m := round_half_even n (2 ^ e)) in *.
  set (E := 2 ^ e) in *.
  assert (H971 : 2 ^ 971 = 2 * 2 ^ 970) by (rewrite <- Z.pow_succ_r by lia; reflexivity).
  assert (HA : 2 ^ 1024 = 2 ^ 54 * 2 ^ 970) by (rewrite <- Z.pow_add_r by lia; reflexivity).
  assert (H52 : 2 ^ 53 = 2 * 2 ^ 52) by reflexivity.
  assert (H54 : 2 ^ 54 = 4 * 2 ^ 52) by reflexivity.
  assert (H52pos : 0 < 2 ^ 52) by reflexivity.
  set (A := 2 ^ 970) in *. set (B := 2 ^ 52) in *.
  assert (Hbound : m * E < 2 ^ 1024).
  { assert (m = n / E \/ m = n / E + 1) as [Hm | Hm] by lia.
    - rewrite Hm. nia.
    - specialize (Hup Hm). rewrite Hm. nia. }
  destruct (Z.leb_spec (2 ^ 1024) (m * E)) as [Hov | _]; [lia |].
  exists (Z.sgn n * (m * E)). rewrite Z.sgn_pos by lia.
  split; [reflexivity |]. split; [nia |].
  replace (2 * (n - 1 * (m * E))) with (2 * n - 2 * m * E) by ring.
  exact Hnear.
Qed.

Lemma format_1f_nonneg (m s : Z) :
  0 <= m ->
  format_1f (mkFloat m s) =
  let q := round_half_even (10 * m) (2 ^ s) in
  str (q / 10) ++ "." ++ str (q mod 10).
Proof.
  intros Hm. unfold format_1f. cbn [f_num f_shift].
  rewrite Z.abs_eq by lia.
  destruct (Z.ltb_spec m 0); [lia | reflexivity].
Qed.

(** The loop on a value [m / 2^s] that is an image of a float: it divides
    while the value is at least 1024 and a larger unit is left. *)
Lemma scale_loop_float (larger : nat) (m s : Z) (i : nat) :
  0 <= s ->
  exists k : nat,
    scale_loop larger (Float (mkFloat m s)) i
    = Ok (Float (mkFloat m (s + 10 * Z.of_nat k)), (i + k)%nat) /\
    (k <= larger)%nat /\
    (k = 0%nat \/ 1024 ^ Z.of_nat k * 2 ^ s <= m) /\
    (k = larger \/ m < 1024 ^ (Z.of_nat k + 1) * 2 ^ s).
Proof.
  revert m s i. induction larger as [| larger IH]; intros m s i Hs.
  - exists 0%nat. cbn. rewrite Z.add_0_r, Nat.add_0_r. repeat split; auto.
  - cbn [scale_loop ge1024]. unfold fge1024. cbn [f_num f_shift].
    destruct (Z.leb_spec (1024 * 2 ^ s) m) as [Hge | Hlt].
    + cbn [div1024 bind]. unfold fdiv1024. cbn [f_num f_shift].
      destruct (IH m (s + 10) (S i) ltac:(lia)) as (k & Hk & Hle & Hlo & Hhi).
      exists (S k). rewrite Hk.
      assert (Hp : forall j, 0 <= j -> 1024 ^ j * 2 ^ (s + 10) = 1024 ^ (j + 1) * 2 ^ s).
      { intros j Hj. rewrite !Z.pow_add_r by lia.
        change (2 ^ 10) with 1024. change (1024 ^ 1) with 1024. ring. }
      rewrite Hp in Hlo by lia. rewrite Hp in Hhi by lia.
      replace (Z.of_nat (S k)) with (Z.of_nat k + 1) by lia.
      replace (s + 10 + 10 * Z.of_nat k) with (s + 10 * (Z.of_nat k + 1)) by lia.
      replace (S i + k)%nat with (i + S k)%nat by lia.
      split; [reflexivity |].
      split; [lia |]. split.
      * right. destruct Hlo as [-> | Hlo]; [| exact Hlo].
        change (Z.of_nat 0 + 1) with 1. rewrite Z.pow_1_r. lia.
      * destruct Hhi as [-> | Hhi]; [left; reflexivity | right; exact Hhi].
    + exists 0%nat. rewrite Z.add_0_r, Nat.add_0_r.
      split; [reflexivity |]. split; [lia |]. split; [left; reflexivity |].
      right. change (Z.of_nat 0 + 1) with 1. rewrite Z.pow_1_r. lia.
Qed.

Lemma str_digit_length (d : Z) :
  0 <= d < 10 -> String.length (str d) = 1%nat.
Proof.
  intros Hd.
  assert (d = 0 \/ d = 1 \/ d = 2 \/ d = 3 \/ d = 4 \/
          d = 5 \/ d = 6 \/ d = 7 \/ d = 8 \/ d = 9) as Hcases by lia.
  repeat (destruct Hcases as [-> | Hcases]; [reflexivity |]).
  subst d. reflexivity.
Qed.

(** A positive byte count that [float] can hold: the unit index [i] is the
    number of divisions made, and the text shows the tenths [q] nearest to
    [float(n) / 1024^i]. *)
Lemma format_file_size_positive :
  forall n : Z, 0 < n < 2 ^ 1024 - 2 ^ 970 ->
    exists (i : nat) (q m : Z),
      format_file_size n
      = Ok ((str (q / 10) ++ "." ++ str (q mod 10)) ++ " " ++ nth i size_names "") /\
      (i <= 4)%nat /\
      (i = 0%nat \/ 1024 ^ Z.of_nat i <= n) /\
      (i = 4%nat \/ n < 1024 ^ (Z.of_nat i + 1)) /\
      float_of_int n = Ok (mkFloat m 0) /\
      (n < 2 ^ 53 -> m = n) /\
      0 <= q /\
      String.length (str (q mod 10)) = 1%nat /\
      Z.abs (2 * (10 * m) - 2 * q * 1024 ^ Z.of_nat i) <= 1024 ^ Z.of_nat i.
Proof.
  intros n [Hpos Hhi].
  assert (Hconv : exists m, float_of_int n = Ok (mkFloat m 0) /\
                            (n < 2 ^ 53 -> m = n) /\ (2 ^ 53 <= n -> 2 ^ 53 <= m) /\ 0 < m).
  { destruct (Z.lt_ge_cases n (2 ^ 53)) as [Hs | Hb].
    - exists n. rewrite float_of_int_exact by lia. repeat split; auto; lia.
    - destruct (float_of_int_rounded n ltac:(lia)) as (m & Hm & Hge & _).
      exists m. assert (0 < 2 ^ 53) by reflexivity.
      repeat split; auto; lia. }
  destruct Hconv as (m & Hm & Hsmall & Hbig & Hmpos).
  assert (Hshape : forall (i : nat) (s : Z),
             0 <= s -> 2 ^ s = 1024 ^ Z.of_nat i ->
             let q := round_half_even (10 * m) (2 ^ s) in
             format_1f (mkFloat m s) = str (q / 10) ++ "." ++ str (q mod 10) /\
             0 <= q /\ String.length (str (q mod 10)) = 1%nat /\
             Z.abs (2 * (10 * m) - 2 * q * 1024 ^ Z.of_nat i) <= 1024 ^ Z.of_nat i).
  { intros i s Hs Hpow q.
    assert (Hp : 0 < 2 ^ s) by (apply Z.pow_pos_nonneg; lia).
    split; [apply format_1f_nonneg; lia |].
    pose proof (round_half_even_range (10 * m) (2 ^ s) Hp) as Hr.
    assert (0 <= 10 * m / 2 ^ s) by (apply Z.div_pos; lia).
    split; [subst q; lia |].
    split; [apply str_digit_length; apply Z.mod_pos_bound; lia |].
    rewrite <- Hpow. apply round_half_even_near; exact Hp. }
  unfold format_file_size, format_size. cbn [is_zero].
  destruct (Z.eqb_spec n 0) as [-> | _]; [lia |].
  change (scale_loop (List.length size_names - 1) (Int n) 0)
    with (if ge1024 (Int n)
          then size_bytes' <- div1024 (Int n) ;; scale_loop 3 size_bytes' 1
          else Ok (Int n, 0%nat)).
  cbn [ge1024].
  destruct (Z.leb_spec 1024 n) as [Hge | Hlt].
  - cbn [div1024]. rewrite Hm. cbn [bind]. unfold fdiv1024. cbn [f_num f_shift].
    destruct (scale_loop_float 3 m (0 + 10) 1 ltac:(lia))
      as (k & Hk & Hle & Hlo & Hup).
    rewrite Hk. cbn [bind fmt_1f]. change (0 + 10) with 10 in *.
    assert (Hpow : 2 ^ (10 + 10 * Z.of_nat k) = 1024 ^ Z.of_nat (1 + k)).
    { replace (10 + 10 * Z.of_nat k) with (10 * Z.of_nat (1 + k)) by lia.
      rewrite Z.pow_mul_r by lia. reflexivity. }
    destruct (Hshape (1 + k)%nat (10 + 10 * Z.of_nat k) ltac:(lia) Hpow)
      as (Hfmt & Hq0 & Hlen & Hnear).
    rewrite Hfmt.
    exists (1 + k)%nat, (round_half_even (10 * m) (2 ^ (10 + 10 * Z.of_nat k))), m.
    split; [reflexivity |]. split; [lia |].
    assert (H10 : forall j, 0 <= j -> 1024 ^ j * 2 ^ 10 = 1024 ^ (j + 1)).
    { intros j Hj. rewrite Z.pow_add_r by lia. reflexivity. }
    rewrite H10 in Hlo by lia. rewrite H10 in Hup by lia.
    replace (Z.of_nat (1 + k)) with (Z.of_nat k + 1) in * by lia.
    assert (H40 : 1024 ^ 4 <= 2 ^ 53) by (vm_compute; discriminate).
    assert (Hmono : forall j, 0 <= j <= 3 -> 1024 ^ (j + 1) <= 1024 ^ 4)
      by (intros j Hj; apply Z.pow_le_mono_r; lia).
    assert (Hk3 : 2 ^ 53 <= n -> k = 3%nat).
    { intros Hn. specialize (Hbig Hn).
      destruct Hup as [-> | Hup]; [reflexivity |].
      specialize (Hmono (Z.of_nat k + 1)). 
      assert (k = 3 \/ k < 3)%nat as [-> | Hk3] by lia; [reflexivity |].
      specialize (Hmono ltac:(lia)). lia. }
    destruct (Z.lt_ge_cases n (2 ^ 53)) as [Hs | Hb].
    + specialize (Hsmall Hs). subst m.
      split; [right; destruct Hlo as [-> | Hlo]; [cbn; lia | exact Hlo] |].
      split; [destruct Hup as [-> | Hup]; [left; reflexivity | right; exact Hup] |].
      repeat split; auto.
    + specialize (Hk3 Hb). subst k.
      split; [right; change (Z.of_nat 3 + 1) with 4; lia |].
      split; [left; reflexivity |].
      repeat split; auto.
  - cbn [bind fmt_1f]. rewrite Hm. cbn [bind].
    destruct (Hshape 0%nat 0 ltac:(lia) eq_refl) as (Hfmt & Hq0 & Hlen & Hnear).
    rewrite Hfmt.
    exists 0%nat, (round_half_even (10 * m) (2 ^ 0)), m.
    split; [reflexivity |]. split; [lia |]. split; [left; reflexivity |].
    split; [right; cbn; lia |].
    repeat split; auto.
Qed.

Lemma format_file_size_ok (n : Z) :
  0 <= n < 2 ^ 1024 - 2 ^ 970 -> exists s, format_file_size n = Ok s.
Proof.
  intros Hn. destruct (Z.eq_dec n 0) as [-> | Hne].
  - exists "0 B". reflexivity.
  - destruct (format_file_size_positive n ltac:(lia)) as (i & q & m & H & _).
    eexists. exact H.
Qed.




Lemma format_size_float_ok (x : float) :
  0 <= f_shift x -> exists s, format_size (Float x) = Ok s.
Proof.
  intros Hs. destruct x as [m sh]. cbn [f_shift] in Hs.
  unfold format_size. destruct (is_zero (Float (mkFloat m sh))).
  - eexists. reflexivity.
  - destruct (scale_loop_float (List.length size_names - 1) m sh 0 Hs)
      as (k & Hk & _).
    rewrite Hk. cbn [bind fmt_1f]. eexists. reflexivity.
Qed.

(** C4.  [format_file_size] meets the shared formatting contract: the five
    values of the specification, and for every positive byte count [n] that
    [float] can hold: the unit index [i] is the number of divisions by 1024
    made while the value was at least 1024 and a larger unit was left, and
    the text is the tenths [q] nearest to [float(n) / 1024^i], printed as
    an integer part, a point and exactly one digit, then the unit. *)
Theorem format_file_size_contract :
  format_file_size 0 = Ok "0 B" /\
  format_file_size 1023 = Ok "1023.0 B" /\
  format_file_size 1024 = Ok "1.0 KB" /\
  format_file_size 1536 = Ok "1.5 KB" /\
  format_file_size (1024 ^ 4) = Ok "1.0 TB" /\
  forall n : Z, 0 < n < 2 ^ 1024 - 2 ^ 970 ->
    exists (i : nat) (q m : Z),
      format_file_size n
      = Ok ((str (q / 10) ++ "." ++ str (q mod 10)) ++ " " ++ nth i size_names "") /\
      (i <= 4)%nat /\
      (i = 0%nat \/ 1024 ^ Z.of_nat i <= n) /\
      (i = 4%nat \/ n < 1024 ^ (Z.of_nat i + 1)) /\
      float_of_int n = Ok (mkFloat m 0) /\
      (n < 2 ^ 53 -> m = n) /\
      0 <= q /\
      String.length (str (q mod 10)) = 1%nat /\
      Z.abs (2 * (10 * m) - 2 * q * 1024 ^ Z.of_nat i) <= 1024 ^ Z.of_nat i.
Proof.
  do 5 (split; [vm_compute; reflexivity |]).
  exact format_file_size_positive.
Qed.

(** The contract at 1536 bytes: one division, [1.5 KB]. *)
Lemma format_file_size_contract_witness :
  0 < 1536 < 2 ^ 1024 - 2 ^ 970 /\
  exists (i : nat) (q m : Z),
    format_file_size 1536
    = Ok ((str (q / 10) ++ "." ++ str (q mod 10)) ++ " " ++ nth i size_names "") /\
    (i <= 4)%nat /\
    (i = 0%nat \/ 1024 ^ Z.of_nat i <= 1536) /\
    (i = 4%nat \/ 1536 < 1024 ^ (Z.of_nat i + 1)) /\
    float_of_int 1536 = Ok (mkFloat m 0) /\
    (1536 < 2 ^ 53 -> m = 1536) /\
    0 <= q /\
    String.length (str (q mod 10)) = 1%nat /\
    Z.abs (2 * (10 * m) - 2 * q * 1024 ^ Z.of_nat i) <= 1024 ^ Z.of_nat i.
Proof.
  assert (H : 0 < 1536 < 2 ^ 1024 - 2 ^ 970) by (vm_compute; split; reflexivity).
  split; [exact H |].
  exact (proj2 (proj2 (proj2 (proj2 (proj2 format_file_size_contract)))) 1536 H).
Defined.

End FormatFileSize.
(** ** Filename truncation *)

Section TruncateFilename.

Import Weekly.

Lemma length_append (a b : string) :
  String.length (a ++ b) = (String.length a + String.length b)%nat.
Proof. induction a as [| c a IH]; cbn; [reflexivity | now rewrite IH]. Qed.

Lemma append_assoc (a b c : string) : (a ++ b) ++ c = a ++ (b ++ c).
Proof. induction a as [| d a IH]; cbn; [reflexivity | now rewrite IH]. Qed.

Lemma length_take (n : nat) (s : string) :
  String.length (take n s) = Nat.min n (String.length s).
Proof.
  revert s. induction n as [| n IH]; intros [| c s]; cbn; try reflexivity.
  now rewrite IH.
Qed.

Lemma contains_append (c : ascii) (a b : string) :
  contains c (a ++ b) = contains c a || contains c b.
Proof.
  induction a as [| d a IH]; cbn; [reflexivity |].
  rewrite IH. now rewrite orb_assoc.
Qed.

Lemma rsplit1_none (c : ascii) (s : string) :
  contains c s = false -> rsplit1 c s = None.
Proof.
  induction s as [| d s IH]; cbn; [reflexivity |].
  intros H. apply orb_false_iff in H as [Hd Hs].
  now rewrite (IH Hs), Hd.
Qed.

(** [rsplit] cuts at the last separator: the one no separator follows. *)
Lemma rsplit1_last (c : ascii) (name ext : string) :
  contains c ext = false ->
  rsplit1 c (name ++ String c ext) = Some (name, ext).
Proof.
  intros Hext. induction name as [| d name IH]; cbn.
  - rewrite (rsplit1_none c ext Hext). now rewrite Ascii.eqb_refl.
  - now rewrite IH.
Qed.

Lemma slice_to_nonneg (k : Z) (s : string) :
  0 <= k -> slice_to k s = take (Z.to_nat k) s.
Proof.
  intros Hk. unfold slice_to.
  destruct (Z.ltb_spec k 0); [lia | reflexivity].
Qed.



End TruncateFilename.

(** ** The stable sort *)

Section SortingFacts.

Context {A : Type} (key : A -> Z).

Lemma insert_Permutation (reverse : bool) (x : A) (l : list A) :
  Permutation (insert key reverse x l) (x :: l).
Proof.
  induction l as [| y l IH]; cbn; [reflexivity |].
  destruct (precedes key reverse x y); [reflexivity |].
  rewrite IH. apply perm_swap.
Qed.

Lemma sorted_Permutation (reverse : bool) (l : list A) :
  Permutation (sorted key reverse l) l.
Proof.
  induction l as [| x l IH]; cbn; [reflexivity |].
  rewrite insert_Permutation. now apply perm_skip.
Qed.

(** Inserting leaves the elements of any one key in place, and puts the
    new element in front of those of its own key. *)
Lemma insert_filter (reverse : bool) (x : A) (l : list A) (k : Z) :
  filter (fun y => key y =? k) (insert key reverse x l)
  = filter (fun y => key y =? k) (x :: l).
Proof.
  induction l as [| y l IH]; [reflexivity |].
  cbn [insert]. destruct (precedes key reverse x y) eqn:Hp; [reflexivity |].
  cbn [filter] in *. rewrite IH.
  destruct (Z.eqb_spec (key x) k) as [Hx | Hx];
    destruct (Z.eqb_spec (key y) k) as [Hy | Hy]; try reflexivity.
  exfalso. unfold precedes in Hp.
  destruct reverse; apply Z.leb_gt in Hp; lia.
Qed.

Lemma sorted_stable (reverse : bool) (l : list A) (k : Z) :
  filter (fun y => key y =? k) (sorted key reverse l)
  = filter (fun y => key y =? k) l.
Proof.
  induction l as [| x l IH]; [reflexivity |].
  cbn [sorted fold_right]. rewrite insert_filter.
  cbn [filter]. fold (sorted key reverse l). now rewrite IH.
Qed.

Lemma insert_descending (x : A) (l : list A) :
  StronglySorted (fun a b => key b <= key a) l ->
  StronglySorted (fun a b => key b <= key a) (insert key true x l).
Proof.
  induction 1 as [| y l Hs IH Hall]; cbn.
  - constructor; constructor.
  - destruct (Z.leb_spec (key y) (key x)) as [Hle | Hgt].
    + constructor; [constructor; assumption |].
      constructor; [exact Hle |].
      eapply Forall_impl; [| exact Hall]. cbn. intros; lia.
    + constructor; [exact IH |].
      eapply Permutation_Forall;
        [symmetry; apply insert_Permutation |].
      constructor; [lia | exact Hall].
Qed.

Lemma sorted_descending (l : list A) :
  StronglySorted (fun a b => key b <= key a) (sorted key true l).
Proof.
  induction l as [| x l IH]; cbn; [constructor |].
  now apply insert_descending.
Qed.

Lemma insert_ascending (x : A) (l : list A) :
  StronglySorted (fun a b => key a <= key b) l ->
  StronglySorted (fun a b => key a <= key b) (insert key false x l).
Proof.
  induction 1 as [| y l Hs IH Hall]; cbn.
  - constructor; constructor.
  - destruct (Z.leb_spec (key x) (key y)) as [Hle | Hgt].
    + constructor; [constructor; assumption |].
      constructor; [exact Hle |].
      eapply Forall_impl; [| exact Hall]. cbn. intros; lia.
    + constructor; [exact IH |].
      eapply Permutation_Forall;
        [symmetry; apply insert_Permutation |].
      constructor; [lia | exact Hall].
Qed.

Lemma sorted_ascending (l : list A) :
  StronglySorted (fun a b => key a <= key b) (sorted key false l).
Proof.
  induction l as [| x l IH]; cbn; [constructor |].
  now apply insert_ascending.
Qed.

(** The first [n] of a descending stable sort are a top-[n] list. *)
Lemma top_by_sorted (n : nat) (l : list A) :
  top_by key n l (firstn n (sorted key true l)).
Proof.
  exists (sorted key true l).
  split; [reflexivity |].
  split; [apply sorted_Permutation |].
  split; [apply sorted_descending |].
  intros k. apply sorted_stable.
Qed.

End SortingFacts.

(** ** The aggregation of the weekly review *)

Section WeeklyAnalysis.

Variable fromtimestamp : Z -> datetime.

Lemma sum_shift (l : list Z) (a : Z) : fold_left Z.add l a = a + sum l.
Proof.
  unfold sum. revert a. induction l as [| x l IH]; intros a; cbn; [lia |].
  rewrite (IH (a + x)), (IH x). lia.
Qed.

Lemma sum_cons (x : Z) (l : list Z) : sum (x :: l) = x + sum l.
Proof. unfold sum at 1. cbn. apply sum_shift. Qed.

Lemma sum_nonneg (l : list Z) : Forall (fun n => 0 <= n) l -> 0 <= sum l.
Proof.
  induction 1 as [| x l Hx _ IH]; [reflexivity |].
  rewrite sum_cons. lia.
Qed.

Lemma round53_shift (num den : Z) : 0 <= f_shift (round53 num den).
Proof.
  unfold round53. destruct (num =? 0); [cbn; lia |].
  cbv zeta.
  match goal with
  | |- context [if 0 <=? ?e then _ else _] =>
      destruct (Z.leb_spec 0 e); cbn [f_shift]; lia
  end.
Qed.

(** What the lists of the result are, whenever there is a result. *)
Lemma analyze_files_lists (files : list Weekly.file_info)
    (subs : list Weekly.subfolder_info) (w : world) (a : Weekly.analysis) :
  fst (Weekly.analyze_files fromtimestamp files subs w) = Ok a ->
  Weekly.largest_files a = firstn 15 (sorted Weekly.size_bytes true files) /\
  Weekly.recent_files a
  = sorted Weekly.modified_time true
      (filter (fun f => clock w - 7 * 24 * 60 * 60 <=? Weekly.modified_time f)
         files) /\
  Weekly.oldest_files a
  = firstn 15 (sorted Weekly.modified_time false files).
Proof.
  destruct files as [| f files].
  - cbn. intros H. injection H as <-. cbn. auto.
  - unfold Weekly.analyze_files, io_bind, lift, ret, now_timestamp.
    repeat match goal with
           | |- context [match ?r with Ok _ => _ | Raise _ => _ end] =>
               destruct r; cbn [fst snd]
           | |- context [if ?b then _ else _] => destruct b; cbn [fst snd bind]
           | |- context [let (_, _) := ?p in _] => destruct p
           | |- Raise _ = Ok _ -> _ => discriminate
           end;
      try (intros H; injection H as <-; cbn; auto).
Qed.

(** The aggregation returns a result on byte counts it can format, and
    leaves the world as it found it. *)
Lemma analyze_files_returns (files : list Weekly.file_info)
    (subs : list Weekly.subfolder_info) (w : world) :
  sizes_ok (map Weekly.size_bytes files) ->
  exists a, Weekly.analyze_files fromtimestamp files subs w = (Ok a, w).
Proof.
  intros [Hnn Hsum]. destruct files as [| f files].
  - eexists. reflexivity.
  - unfold Weekly.analyze_files.
    set (n := Z.of_nat (List.length (f :: files))).
    assert (Hn : 0 < n) by (subst n; cbn [List.length]; lia).
    set (total := sum (map Weekly.size_bytes (f :: files))) in *.
    pose proof (sum_nonneg _ Hnn) as Htotal. fold total in Htotal.
    destruct (format_file_size_ok total ltac:(lia)) as [ts Hts].
    destruct (format_size_float_ok (round53 total n) (round53_shift _ _))
      as [avs Havs].
    unfold io_bind, lift, ret, now_timestamp, truediv.
    destruct (Z.ltb_spec 0 n) as [_ | ?]; [| lia].
    destruct (Z.eqb_spec n 0) as [? | _]; [lia |].
    cbn [bind Py.min Py.max map]. rewrite Hts, Havs.
    eexists. reflexivity.
Qed.


End WeeklyAnalysis.

(** ** The aggregation of the summary report *)

Section SummaryAnalysis.

Lemma get_add_to {K : Type} (eqb : K -> K -> bool)
    (eqb_spec : forall x y, reflect (x = y) (eqb x y))
    (k k' : K) (v : Z) (d : list (K * Z)) :
  get eqb k (add_to eqb k' v d) = (if eqb k' k then v else 0) + get eqb k d.
Proof.
  induction d as [| [k0 v0] d IH]; cbn [add_to get].
  - destruct (eqb k' k); lia.
  - destruct (eqb_spec k0 k') as [-> | Hne]; cbn [get].
    + destruct (eqb k' k); lia.
    + rewrite IH. destruct (eqb_spec k0 k) as [-> | Hne'].
      * destruct (eqb_spec k' k) as [-> | _]; [congruence | lia].
      * reflexivity.
Qed.

Lemma for_each_ok {A B : Type} (f : A -> result B) (xs : list A) :
  (forall x, exists y, f x = Ok y) ->
  exists ys, Summary.for_each f xs = Ok ys.
Proof.
  intros Hf. induction xs as [| x xs [ys IH]]; cbn.
  - eexists. reflexivity.
  - destruct (Hf x) as [y ->]. rewrite IH. eexists. reflexivity.
Qed.

(** Every entry of the size counter lies between 0 and the sum of the
    sizes counted so far. *)
Lemma counter_bound {K : Type} (eqb : K -> K -> bool)
    (eqb_spec : forall x y, reflect (x = y) (eqb x y))
    (key_of : Summary.file_info -> K)
    (files : list Summary.file_info) (counts sizes : list (K * Z)) (T : Z) :
  Forall (fun n => 0 <= n) (map Summary.size_bytes files) ->
  (forall k, 0 <= get eqb k sizes <= T) ->
  forall k,
    0 <= get eqb k
           (snd (fold_left
                   (fun '(cs, ss) file_info =>
                      (add_to eqb (key_of file_info) 1 cs,
                       add_to eqb (key_of file_info)
                         (Summary.size_bytes file_info) ss))
                   files (counts, sizes)))
      <= T + sum (map Summary.size_bytes files).
Proof.
  revert counts sizes T.
  induction files as [| f files IH]; intros counts sizes T Hnn Hinv k.
  - cbn. specialize (Hinv k). unfold sum. cbn. lia.
  - cbn [fold_left map]. rewrite sum_cons.
    inversion Hnn as [| ? ? Hf Hrest]; subst.
    replace (T + (Summary.size_bytes f + sum (map Summary.size_bytes files)))
      with ((T + Summary.size_bytes f) + sum (map Summary.size_bytes files))
      by lia.
    apply IH; [exact Hrest |].
    intros k'. rewrite (get_add_to eqb eqb_spec).
    specialize (Hinv k'). destruct (eqb (key_of f) k'); lia.
Qed.

Lemma analyze_data_returns (rows : list Summary.file_info) :
  sizes_ok (map Summary.size_bytes rows) ->
  exists a, Summary.analyze_data rows = Ok a.
Proof.
  intros [Hnn Hsum]. unfold Summary.analyze_data.
  pose proof (sum_nonneg _ Hnn) as Htotal.
  destruct (format_file_size_ok _ (conj Htotal Hsum)) as [ts ->].
  cbn [bind].
  pose proof (counter_bound String.eqb String.eqb_spec Summary.type_key
                rows [] [] 0 Hnn ltac:(intros; cbn; lia)) as Htypes.
  pose proof (counter_bound Z.eqb Z.eqb_spec
                (fun f => year (Summary.modified_datetime f))
                rows [] [] 0 Hnn ltac:(intros; cbn; lia)) as Hyears.
  unfold Summary.count_types, Summary.count_years.
  destruct (fold_left _ rows ([], [])) as [extension_counts extension_sizes].
  destruct (fold_left _ rows ([], [])) as [year_counts year_sizes].
  cbn [snd] in Htypes, Hyears.
  match goal with
  | |- context [Summary.for_each ?f (sorted snd true extension_counts)] =>
      destruct (for_each_ok f (sorted snd true extension_counts)) as [ft ->]
  end.
  { intros [ext count].
    destruct (format_file_size_ok (get String.eqb ext extension_sizes))
      as [t ->]; [specialize (Htypes ext); lia |].
    eexists. reflexivity. }
  cbn [bind].
  match goal with
  | |- context [Summary.for_each ?f ?l] =>
      destruct (for_each_ok f l) as [fy ->]
  end.
  { intros y.
    destruct (format_file_size_ok (get Z.eqb y year_sizes))
      as [t ->]; [specialize (Hyears y); lia |].
    eexists. reflexivity. }
  eexists. reflexivity.
Qed.

Lemma analyze_data_fields (rows : list Summary.file_info)
    (a : Summary.analysis) :
  Summary.analyze_data rows = Ok a ->
  Summary.total_files a = Z.of_nat (List.length rows) /\
  Summary.total_size a = sum (map Summary.size_bytes rows) /\
  Summary.largest_files a = firstn 10 (sorted Summary.size_bytes true rows).
Proof.
  unfold Summary.analyze_data.
  repeat match goal with
         | |- context [bind ?r _] => destruct r; cbn [bind]
         | |- context [let (_, _) := ?p in _] => destruct p
         | |- Raise _ = Ok _ -> _ => discriminate
         end;
    try (intros H; injection H as <-; cbn; auto).
Qed.

End SummaryAnalysis.

(** ** The claims on the aggregation *)

Section AggregationClaims.

Lemma sample_files_ok : sizes_ok (map Weekly.size_bytes sample_files).
Proof.
  split; [| vm_compute; reflexivity].
  cbn. repeat (apply Forall_cons; [lia |]). apply Forall_nil.
Defined.

Lemma sample_rows_ok : sizes_ok (map Summary.size_bytes sample_rows).
Proof.
  split; [| vm_compute; reflexivity].
  cbn. repeat (apply Forall_cons; [lia |]). apply Forall_nil.
Defined.

(** C6.  [largest_files] is a top-15 list of the input by [size_bytes] in
    the weekly review and a top-10 list in the summary: the first 15 (10)
    of a ranking that holds the input records, runs by descending size and
    keeps records of equal size in input order.  Both aggregations return
    a result on byte counts they can format. *)
Theorem largest_files_top_n (fromtimestamp : Z -> datetime) :
  (forall files subs w a,
      fst (Weekly.analyze_files fromtimestamp files subs w) = Ok a ->
      top_by Weekly.size_bytes 15 files (Weekly.largest_files a)) /\
  (forall files subs w,
      sizes_ok (map Weekly.size_bytes files) ->
      exists a, fst (Weekly.analyze_files fromtimestamp files subs w) = Ok a) /\
  (forall rows a,
      Summary.analyze_data rows = Ok a ->
      top_by Summary.size_bytes 10 rows (Summary.largest_files a)) /\
  (forall rows,
      sizes_ok (map Summary.size_bytes rows) ->
      exists a, Summary.analyze_data rows = Ok a).
Proof.
  repeat split.
  - intros files subs w a Ha.
    destruct (analyze_files_lists fromtimestamp files subs w a Ha) as (-> & _).
    apply top_by_sorted.
  - intros files subs w Hok.
    destruct (analyze_files_returns fromtimestamp files subs w Hok) as [a Ha].
    exists a. now rewrite Ha.
  - intros rows a Ha.
    destruct (analyze_data_fields rows a Ha) as (_ & _ & ->).
    apply top_by_sorted.
  - apply analyze_data_returns.
Qed.

(** On the sample: both aggregations return, with top lists. *)
Lemma largest_files_top_n_witness :
  (exists a,
      fst (Weekly.analyze_files sample_zone sample_files [] sample_world) = Ok a /\
      top_by Weekly.size_bytes 15 sample_files (Weekly.largest_files a)) /\
  (exists a,
      Summary.analyze_data sample_rows = Ok a /\
      top_by Summary.size_bytes 10 sample_rows (Summary.largest_files a)).
Proof.
  destruct (largest_files_top_n sample_zone) as (H1 & H2 & H3 & H4).
  split.
  - destruct (H2 sample_files [] sample_world sample_files_ok) as [a Ha].
    exists a. split; [exact Ha | exact (H1 _ _ _ _ Ha)].
  - destruct (H4 sample_rows sample_rows_ok) as [a Ha].
    exists a. split; [exact Ha | exact (H3 _ _ Ha)].
Defined.

(** C7 as stated fails: a record modified after the clock time is listed
    among the recent files, the filter having no upper bound. *)
Lemma recent_files_admit_the_future :
  ~ (forall fromtimestamp files subs w a f,
        fst (Weekly.analyze_files fromtimestamp files subs w) = Ok a ->
        (In f (Weekly.recent_files a) <->
         In f files /\
         clock w - 604800 <= Weekly.modified_time f <= clock w)).
Proof.
  intros H.
  destruct (analyze_files_returns sample_zone sample_files [] sample_world
              sample_files_ok) as [a Ha].
  assert (Ha' : fst (Weekly.analyze_files sample_zone sample_files []
                       sample_world) = Ok a) by now rewrite Ha.
  pose proof (analyze_files_lists sample_zone _ _ _ _ Ha') as (_ & Hrecent & _).
  specialize (H sample_zone sample_files [] sample_world a
                (nth 0 sample_files (Weekly.mk_file_info "" 0 "" 0 "" "" ""))
                Ha').
  rewrite Hrecent in H. destruct H as [H _].
  assert (Hin : In (nth 0 sample_files (Weekly.mk_file_info "" 0 "" 0 "" "" ""))
                  (sorted Weekly.modified_time true
                     (filter
                        (fun f => clock sample_world - 7 * 24 * 60 * 60
                                  <=? Weekly.modified_time f)
                        sample_files)))
    by (vm_compute; auto).
  destruct (H Hin) as [_ [_ Hle]]. vm_compute in Hle. apply Hle. reflexivity.
Qed.

(** C7, amended.  [recent_files] holds exactly the records modified no
    earlier than 604800 seconds before the clock time read by the
    aggregation (later records, those of the future too, are in), each as
    often as the input has it, by descending [modified_time]. *)
Theorem recent_files_window (fromtimestamp : Z -> datetime) :
  forall files subs w a,
    fst (Weekly.analyze_files fromtimestamp files subs w) = Ok a ->
    (forall f, In f (Weekly.recent_files a) <->
               In f files /\ clock w - 604800 <= Weekly.modified_time f) /\
    Permutation (Weekly.recent_files a)
      (filter (fun f => clock w - 604800 <=? Weekly.modified_time f) files) /\
    StronglySorted
      (fun x y => Weekly.modified_time y <= Weekly.modified_time x)
      (Weekly.recent_files a).
Proof.
  intros files subs w a Ha.
  destruct (analyze_files_lists fromtimestamp files subs w a Ha)
    as (_ & Hrecent & _).
  change (7 * 24 * 60 * 60) with 604800 in Hrecent. rewrite Hrecent.
  split; [| split].
  - intros f. split.
    + intros Hin.
      apply (Permutation_in _ (sorted_Permutation _ _ _)) in Hin.
      apply filter_In in Hin as [Hin Hle]. apply Z.leb_le in Hle. auto.
    + intros [Hin Hle].
      apply (Permutation_in _ (Permutation_sym (sorted_Permutation _ _ _))).
      apply filter_In. split; [exact Hin | now apply Z.leb_le].
  - apply sorted_Permutation.
  - apply sorted_descending.
Qed.

(** On the sample, with the clock at 1700000000: there is a result, and
    its recent files are those of the last seven days and later. *)
Lemma recent_files_window_witness :
  exists a,
    fst (Weekly.analyze_files sample_zone sample_files [] sample_world) = Ok a /\
    (forall f, In f (Weekly.recent_files a) <->
               In f sample_files /\
               clock sample_world - 604800 <= Weekly.modified_time f) /\
    Permutation (Weekly.recent_files a)
      (filter (fun f => clock sample_world - 604800 <=? Weekly.modified_time f)
         sample_files) /\
    StronglySorted
      (fun x y => Weekly.modified_time y <= Weekly.modified_time x)
      (Weekly.recent_files a).
Proof.
  destruct (analyze_files_returns sample_zone sample_files [] sample_world
              sample_files_ok) as [a Ha].
  assert (Ha' : fst (Weekly.analyze_files sample_zone sample_files []
                       sample_world) = Ok a) by now rewrite Ha.
  exists a. split; [exact Ha' |].
  exact (recent_files_window sample_zone sample_files [] sample_world a Ha').
Defined.




End AggregationClaims.

(** ** The census pipeline *)

Section CensusRuns.

Variable fromtimestamp : Z -> datetime.
Variable home : string.

Lemma get_set_file (path : string) (f : out_file)
    (d : list (string * out_file)) :
  get_file path (set_file path f d) = Some f.
Proof.
  induction d as [| [p g] d IH]; cbn.
  - now rewrite String.eqb_refl.
  - destruct (String.eqb p path) eqn:E; cbn; rewrite E; auto.
Qed.

Lemma print_end_file (text e : string) (w : world) (path c : string)
    (b : bool) :
  file_is w path c b ->
  exists w', print_end text e w = (Ok tt, w') /\ file_is w' path c b /\
             can_open w' = can_open w.
Proof. intros H. eexists. split; [reflexivity |]. split; [exact H | reflexivity]. Qed.

Lemma write_file (path text : string) (w : world) (c : string) (b : bool) :
  file_is w path c b ->
  exists w', write path text w = (Ok tt, w') /\ file_is w' path (c ++ text) b.
Proof.
  unfold file_is, write. intros ->. eexists. split; [reflexivity |].
  cbn. apply get_set_file.
Qed.

Lemma close_file (path : string) (w : world) (c : string) (b : bool) :
  file_is w path c b -> file_is (close path w) path c true.
Proof.
  unfold file_is, close. intros ->. cbn. apply get_set_file.
Qed.

Lemma open_w_file (path : string) (w : world) :
  can_open w path = Ok tt ->
  exists w', open_w path w = (Ok tt, w') /\ file_is w' path "" false.
Proof.
  intros H. unfold open_w. rewrite H. eexists. split; [reflexivity |].
  unfold file_is. cbn. apply get_set_file.
Qed.

Lemma append_empty_r (a : string) : a ++ "" = a.
Proof. induction a as [| c a IH]; cbn; [reflexivity | now rewrite IH]. Qed.

Lemma rows_text_cons (r : Census.file_info) (rs : list Census.file_info) :
  Census.rows_text (r :: rs)
  = Csv.writerow (Census.values r) ++ Census.rows_text rs.
Proof.
  unfold Census.rows_text. cbn [map].
  destruct (map _ rs) as [| x xs]; cbn.
  - now rewrite append_empty_r.
  - reflexivity.
Qed.

Lemma percent_1f_ok (count total : Z) :
  total <> 0 -> exists s, percent_1f count total = Ok s.
Proof.
  intros H. unfold percent_1f, truediv.
  destruct (Z.eqb_spec total 0); [contradiction |].
  eexists. reflexivity.
Qed.


(** One turn of the second pass at a regular file whose [stat()] and
    size format succeed: it yields the record, after the progress line
    when one is due. *)
Lemma progress_then_yield (show : bool) (fc pc : Z) (r : Census.file_info)
    (rest : gen Census.file_info) :
  let g :=
    if show && (0 <? fc) && (pc mod 100 =? 0) then
      match percent_1f pc fc with
      | Ok progress =>
          Say (String CR "" ++ "Processing files... "
               ++ str pc ++ "/" ++ str fc ++ " (" ++ progress ++ "%)")
            (Yield r rest)
      | Raise e => Throw e
      end
    else Yield r rest in
  gen_values g = r :: gen_values rest /\ gen_end g = gen_end rest.
Proof.
  cbv zeta.
  destruct (show && (0 <? fc) && (pc mod 100 =? 0)) eqn:E; [| now split].
  apply andb_prop in E as [E _]. apply andb_prop in E as [_ E].
  apply Z.ltb_lt in E.
  destruct (percent_1f_ok pc fc ltac:(lia)) as [t ->]. now split.
Qed.


(** The second pass that an interrupt reaches at its [k']-th entry yields
    the records of the entries before that one and returns. *)
Lemma second_pass_interrupted (folder_path : string) (show : bool) (fc : Z)
    (k' : nat) (entries : list FS.entry) :
  Census.entries_fit entries ->
  forall (k : nat) (pc : Z),
    (k <= k' <= k + List.length entries)%nat ->
    gen_values (Census.second_pass fromtimestamp folder_path show
                  (Some (Census.InScan k')) fc entries k pc)
    = Census.scanned fromtimestamp folder_path (firstn (k' - k) entries) /\
    gen_end (Census.second_pass fromtimestamp folder_path show
               (Some (Census.InScan k')) fc entries k pc) = Ok tt.
Proof.
  induction 1 as [| [rel n] entries Hfit _ IH]; intros k pc Hk.
  - cbn [List.length] in Hk. assert (k' = k) as -> by lia.
    cbn [Census.second_pass Census.arrives Census.point_eqb].
    rewrite Nat.eqb_refl. rewrite Nat.sub_diag. now split.
  - cbn [Census.second_pass Census.arrives Census.point_eqb].
    destruct (Nat.eqb_spec k' k) as [-> | Hne].
    + rewrite Nat.sub_diag. now split.
    + cbn [List.length] in Hk.
      replace (k' - k)%nat with (S (k' - S k)) by lia.
      cbn [firstn Census.scanned].
      destruct (FS.is_file n) eqn:Hfile; [| apply IH; lia].
      destruct (FS.stat n) as [st | e] eqn:Hstat.
      * destruct (format_file_size_ok (FS.st_size st)
                    (Hfit st Hfile Hstat)) as [formatted ->].
        cbv zeta.
        match goal with
        | |- context [if ?c then match percent_1f ?a ?b with _ => _ end else Yield ?r ?rest] =>
            destruct (progress_then_yield show b a r rest) as [-> ->]
        end.
        destruct (IH (S k) (pc + 1) ltac:(lia)) as [-> ->]. now split.
      * destruct show; cbn [gen_values gen_end]; apply IH; lia.
Qed.

Lemma arrives_before_other (interrupt : option Census.point) (n : nat) :
  (forall j, interrupt = Some (Census.BeforeRow j) -> j <> n) ->
  Census.arrives interrupt (Census.BeforeRow n) = false.
Proof.
  intros H. destruct interrupt as [[a | a | a | a] |]; cbn; try reflexivity.
  apply Nat.eqb_neq. now apply H.
Qed.

Lemma arrives_after_other (interrupt : option Census.point) (n : nat) :
  (forall j, interrupt = Some (Census.AfterRow j) -> j <> n) ->
  Census.arrives interrupt (Census.AfterRow n) = false.
Proof.
  intros H. destruct interrupt as [[a | a | a | a] |]; cbn; try reflexivity.
  apply Nat.eqb_neq. now apply H.
Qed.




Lemma print_file (text : string) (w : world) (path c : string) (b : bool) :
  file_is w path c b ->
  exists w', print text w = (Ok tt, w') /\ file_is w' path c b.
Proof.
  intros H. destruct (print_end_file text nl w path c b H) as (w' & Hp & Hf & _).
  exists w'. now split.
Qed.

(** A run of [create_csv_report] whose output file can be opened: the
    header is written first, then the loop runs; whatever its end [r], the
    file is closed with what the loop left in it. *)
Lemma create_csv_report_run (folder_path : string) (root : option FS.node)
    (output : option string) (show : bool)
    (interrupt : option Census.point) (w : world)
    (r : result nat) (c : string) :
  can_open w (report_path fromtimestamp output w) = Ok tt ->
  (forall w0, file_is w0 (report_path fromtimestamp output w) header false ->
     exists w1,
       Census.write_rows (report_path fromtimestamp output w) interrupt
         (Census.scan_folder fromtimestamp folder_path root show interrupt)
         0 w0 = (r, w1) /\
       file_is w1 (report_path fromtimestamp output w) c false) ->
  exists w',
    Census.create_csv_report fromtimestamp folder_path root output show
      interrupt w
    = (match r with
       | Ok _ => Ok tt
       | Raise e =>
           if is_Exception e then Raise (SystemExit 1) else Raise e
       end, w') /\
    file_is w' (report_path fromtimestamp output w) c true.
Proof.
  intros Hopen Hloop.
  unfold Census.create_csv_report.
  unfold io_bind at 1. unfold now_timestamp. cbv iota beta.
  fold (report_path fromtimestamp output w). set (out := report_path fromtimestamp output w) in *.
  unfold try_except, with_open_w.
  destruct (open_w_file out w Hopen) as (w1 & -> & Hf1).
  unfold io_bind at 1.
  destruct (write_file out (Csv.writerow Census.fieldnames) w1 "" false Hf1)
    as (w2 & -> & Hf2).
  cbn [append] in Hf2.
  destruct (Hloop w2 Hf2) as (w3 & Hrun & Hf3).
  unfold io_bind at 1. rewrite Hrun.
  destruct r as [n | e].
  - destruct show.
    + unfold io_bind.
      destruct (print_file ("CSV report created: " ++ out) w3 out c false Hf3)
        as (w4 & -> & Hf4).
      destruct (print_file ("Total files processed: " ++ str (Z.of_nat n))
                  w4 out c false Hf4) as (w5 & -> & Hf5).
      exists (close out w5). split; [reflexivity |].
      eapply close_file; exact Hf5.
    + exists (close out w3). split; [reflexivity |].
      eapply close_file; exact Hf3.
  - pose proof (close_file out w3 c false Hf3) as Hf4.
    destruct e; cbn [is_Exception];
      try (unfold io_bind, sys_exit, raise;
           match goal with
           | |- context [print ?t (close out w3)] =>
               destruct (print_file t (close out w3) out c true Hf4)
                 as (w5 & -> & Hf5)
           end;
           exists w5; split; [reflexivity | exact Hf5]);
      (exists (close out w3); split; [reflexivity | exact Hf4]).
Qed.

(** A run of [main] whose output file can be opened. *)
Lemma main_run (folder output : option string) (quiet : bool)
    (fs : string -> option FS.node) (interrupt : option Census.point)
    (w : world) (r : result nat) (c : string) :
  can_open w (report_path fromtimestamp output w) = Ok tt ->
  (forall w0, file_is w0 (report_path fromtimestamp output w) header false ->
     exists w1,
       Census.write_rows (report_path fromtimestamp output w) interrupt
         (Census.scan_folder fromtimestamp (scan_path home folder)
            (fs (scan_path home folder)) (negb quiet) interrupt)
         0 w0 = (r, w1) /\
       file_is w1 (report_path fromtimestamp output w) c false) ->
  exists w',
    Census.main fromtimestamp home folder output quiet fs interrupt w
    = (handled r, w') /\
    file_is w' (report_path fromtimestamp output w) c true.
Proof.
  intros Hopen Hloop.
  unfold Census.main. fold (scan_path home folder).
  set (path := scan_path home folder) in *.
  assert (Hrun : forall w0,
             clock w0 = clock w -> can_open w0 = can_open w ->
             exists w',
               try_except
                 (Census.create_csv_report fromtimestamp path (fs path) output
                    (negb quiet) interrupt)
                 (fun e =>
                    match e with
                    | FileNotFoundError _ | NotADirectoryError _ =>
                        Some (print ("Error: " ++ exn_text e) ;;; sys_exit 1)
                    | KeyboardInterrupt =>
                        Some (print (nl ++ "Operation cancelled by user.") ;;;
                              sys_exit 1)
                    | _ => None
                    end) w0
               = (handled r, w') /\
               file_is w' (report_path fromtimestamp output w) c true).
  { intros w0 Hclock Hcan.
    assert (Hpath : report_path fromtimestamp output w0 = report_path fromtimestamp output w)
      by (unfold report_path; now rewrite Hclock).
    destruct (create_csv_report_run path (fs path) output (negb quiet)
                interrupt w0 r c) as (w1 & Hrep & Hf1).
    { rewrite Hpath, Hcan. exact Hopen. }
    { rewrite Hpath. exact Hloop. }
    rewrite Hpath in Hf1.
    unfold try_except. rewrite Hrep.
    destruct r as [n | e]; [exists w1; now split |].
    destruct e; cbn [is_Exception handled];
      try (exists w1; split; [reflexivity | exact Hf1]).
    unfold io_bind, sys_exit, raise.
    destruct (print_file (nl ++ "Operation cancelled by user.") w1 _ c true Hf1)
      as (w2 & -> & Hf2).
    exists w2. now split. }
  destruct quiet; cbn [negb] in *.
  - unfold io_bind at 1, ret. apply Hrun; reflexivity.
  - unfold io_bind at 1, print, print_end. apply Hrun; reflexivity.
Qed.

(** Outside the counting pass, the generator of a directory is its
    second pass, after what the counting pass prints. *)
Lemma scan_folder_second_pass (folder_path : string) (root : FS.node)
    (show : bool) (interrupt : option Census.point) :
  FS.is_dir root = true ->
  (forall k, interrupt <> Some (Census.InCount k)) ->
  exists fc,
    gen_values (Census.scan_folder fromtimestamp folder_path (Some root) show
                  interrupt)
    = gen_values (Census.second_pass fromtimestamp folder_path show interrupt
                    fc (FS.rglob root) 0 0) /\
    gen_end (Census.scan_folder fromtimestamp folder_path (Some root) show
               interrupt)
    = gen_end (Census.second_pass fromtimestamp folder_path show interrupt
                 fc (FS.rglob root) 0 0).
Proof.
  intros Hdir Hint. unfold Census.scan_folder. rewrite Hdir. cbn [negb].
  destruct show.
  - assert (Census.interrupted_counting interrupt (FS.rglob root) = false)
      as ->.
    { destruct interrupt as [[k | k | j | j] |]; try reflexivity.
      now destruct (Hint k). }
    eexists. split; reflexivity.
  - eexists. split; reflexivity.
Qed.

(** C10.  When nothing stands at the scan root, or something that is no
    directory, and the output file can be opened, [main] ends with exit
    status 1 and leaves the output file closed, holding the header row and
    nothing else: the file is opened and the header written before the
    generator [scan_folder] runs its checks, at the first [next]. *)
Theorem missing_root_leaves_header (folder output : option string)
    (quiet : bool) (fs : string -> option FS.node) (w : world) :
  fs (scan_path home folder) = None \/
  (exists n, fs (scan_path home folder) = Some n /\ FS.is_dir n = false) ->
  can_open w (report_path fromtimestamp output w) = Ok tt ->
  header
  = "filename,full_path,size_bytes,size_formatted,modified_date,extension"
    ++ String CR (String LF "") /\
  (exists e,
      Census.scan_folder fromtimestamp (scan_path home folder)
        (fs (scan_path home folder)) (negb quiet) None = Throw e) /\
  exit_status
    (fst (Census.main fromtimestamp home folder output quiet fs None w)) = 1 /\
  file_is (snd (Census.main fromtimestamp home folder output quiet fs None w))
    (report_path fromtimestamp output w) header true.
Proof.
  intros Hroot Hopen.
  split; [reflexivity |].
  assert (Hthrow : exists e,
             Census.scan_folder fromtimestamp (scan_path home folder)
               (fs (scan_path home folder)) (negb quiet) None = Throw e /\
             is_Exception e = true).
  { unfold Census.scan_folder.
    destruct Hroot as [-> | (n & -> & ->)]; eexists; split; reflexivity. }
  destruct Hthrow as (e & Hscan & Hexc).
  split; [exists e; exact Hscan |].
  destruct (main_run folder output quiet fs None w (Raise e) header Hopen)
    as (w' & Hrun & Hfile).
  { intros w0 Hf0. rewrite Hscan. exists w0. now split. }
  rewrite Hrun. cbn [fst snd]. split; [| exact Hfile].
  destruct e; try discriminate Hexc; reflexivity.
Qed.


End CensusRuns.

(** *** The census on a small tree *)

Section CensusSample.

Lemma sample_tree_fits : Census.entries_fit (FS.rglob sample_tree).
Proof.
  unfold Census.entries_fit. set (bound := 2 ^ 1024 - 2 ^ 970). cbn.
  repeat (apply Forall_cons;
          [intros st Hfile Hstat; cbn in Hfile, Hstat;
           first [ discriminate Hfile
                 | discriminate Hstat
                 | injection Hstat as <-; cbn; split;
                   [lia | subst bound; vm_compute; reflexivity] ]
          |]).
  apply Forall_nil.
Defined.



(** A run on a path where nothing stands. *)
Lemma missing_root_leaves_header_witness :
  header
  = "filename,full_path,size_bytes,size_formatted,modified_date,extension"
    ++ String CR (String LF "") /\
  (exists e,
      Census.scan_folder sample_zone (scan_path "/home/u" (Some "/nowhere"))
        (sample_fs (scan_path "/home/u" (Some "/nowhere"))) (negb false) None
      = Throw e) /\
  exit_status
    (fst (Census.main sample_zone "/home/u" (Some "/nowhere")
            (Some "census.csv") false sample_fs None sample_world)) = 1 /\
  file_is
    (snd (Census.main sample_zone "/home/u" (Some "/nowhere")
            (Some "census.csv") false sample_fs None sample_world))
    (report_path sample_zone (Some "census.csv") sample_world) header true.
Proof.
  exact (missing_root_leaves_header sample_zone "/home/u" (Some "/nowhere")
           (Some "census.csv") false sample_fs sample_world
           (or_introl eq_refl) eq_refl).
Defined.

End CensusSample.


(** ** The subfolders of the weekly review *)

Section Subfolders.

Variable fromtimestamp : Z -> datetime.







End Subfolders.

Section SubfoldersSample.



End SubfoldersSample.

(** ** The empty collection *)

Section EmptyInput.

Variable fromtimestamp : Z -> datetime.
Variable home : string.

(** C3.  For no records the weekly aggregation gives zero files, zero
    bytes, an average of zero and empty lists (the subfolders too), that
    of the summary gives zero files, zero bytes and empty lists; neither
    raises.  Composing the summary report from that result raises nothing
    and writing it never ends in a [ZeroDivisionError]: the percentages
    are computed per row, and there is no row.  The weekly report divides
    nowhere; on that result it stops at the total size, a key the early
    return leaves out, with a [KeyError]. *)
Theorem empty_input_aggregates (subs : list Weekly.subfolder_info)
    (w : world) (output timestamp : string) :
  Weekly.analyze_files fromtimestamp [] subs w = (Ok empty_weekly, w) /\
  Summary.analyze_data [] = Ok empty_summary /\
  (exists text, Summary.markdown_content empty_summary timestamp = Ok text) /\
  fst (Summary.generate_markdown_report fromtimestamp empty_summary output w)
  <> Raise ZeroDivisionError /\
  fst (Weekly.generate_markdown_report home empty_weekly w)
  = Raise (KeyError "total_size_formatted").
Proof.
  split; [reflexivity |].
  split; [reflexivity |].
  split; [eexists; reflexivity |].
  split.
  - unfold Summary.generate_markdown_report.
    unfold io_bind at 1. unfold now_timestamp. cbv iota beta.
    unfold io_bind at 1. unfold lift.
    destruct (Summary.markdown_content empty_summary
                (strftime_seconds (fromtimestamp (clock w))))
      as [text | e] eqn:Htext; [| discriminate Htext].
    unfold try_except, with_open_w, io_bind. cbv beta.
    destruct (can_open w output) as [[] | e] eqn:Hopen.
    + destruct (open_w_file output w Hopen) as (w1 & -> & Hf1).
      destruct (write_file output text w1 "" false Hf1) as (w2 & -> & Hf2).
      cbn. discriminate.
    + unfold open_w. rewrite Hopen.
      destruct e; cbn; discriminate.
  - reflexivity.
Qed.

End EmptyInput.

(** ** The CSV file between the census and the summary *)

Section CsvRoundTrip.

Lemma process_chars_app (p : Csv.parser) (a b : string) :
  Csv.process_chars p (a ++ b)
  = bind (Csv.process_chars p a) (fun p' => Csv.process_chars p' b).
Proof.
  revert p. induction a as [| c a IH]; intros p; cbn; [reflexivity |].
  destruct (Csv.process_char p c); cbn; [apply IH | reflexivity].
Qed.

Lemma lines_from_stream (text : string) :
  forall (p0 : Csv.parser) (cur : string) (e : Csv.parser)
         (rows : list (list string)),
    Csv.process_chars p0 cur = Ok e ->
    (text = "" -> cur = "") ->
    ends_with_newline text = true ->
    stream e text = Ok rows ->
    Csv.read_records p0 (Csv.lines_from cur text) = Ok rows.
Proof.
  induction text as [| c text IH]; intros p0 cur e rows Hcur Hempty Hend Hs.
  - rewrite (Hempty eq_refl) in *. cbn in Hcur. injection Hcur as <-.
    exact Hs.
  - cbn [stream] in Hs. cbn [Csv.lines_from].
    destruct (Csv.process_char e c) as [e' |] eqn:Hc; [| discriminate Hs].
    assert (Hline : Csv.process_chars p0 (cur ++ String c "") = Ok e').
    { rewrite process_chars_app, Hcur. cbn. now rewrite Hc. }
    assert (Hend' : ends_with_newline text = true).
    { cbn [ends_with_newline] in Hend. destruct text; [reflexivity | exact Hend]. }
    destruct (Ascii.eqb c LF) eqn:Hlf.
    + cbn [Csv.read_records]. unfold Csv.process_line. rewrite Hline.
      cbn [bind].
      destruct (Csv.p_state (Csv.process_eol e')) eqn:Hst;
        try (eapply IH; eauto; reflexivity).
      destruct (stream Csv.reset text) as [rows' |] eqn:Hrest;
        [| discriminate Hs].
      cbn [bind] in Hs. injection Hs as <-.
      unfold Csv.readlines.
      rewrite (IH Csv.reset "" Csv.reset rows' eq_refl (fun _ => eq_refl)
                 Hend' Hrest).
      reflexivity.
    + eapply IH; eauto.
      intros ->. cbn [ends_with_newline] in Hend. congruence.
Qed.

Lemma stream_advance (chunk : string) :
  forall e e' rest,
    advance e chunk = Ok e' -> stream e (chunk ++ rest) = stream e' rest.
Proof.
  induction chunk as [| c chunk IH]; intros e e' rest H.
  - injection H as <-. reflexivity.
  - cbn [advance] in H. cbn [append stream].
    destruct (Csv.process_char e c) as [e1 |]; [| discriminate H].
    destruct (Ascii.eqb c LF).
    + destruct (Csv.p_state (Csv.process_eol e1)); try discriminate H;
        now apply IH.
    + now apply IH.
Qed.

Lemma advance_app (a b : string) :
  forall e e1, advance e a = Ok e1 -> advance e (a ++ b) = advance e1 b.
Proof.
  induction a as [| c a IH]; intros e e1 H.
  - injection H as <-. reflexivity.
  - cbn [advance] in H. cbn [append advance].
    destruct (Csv.process_char e c) as [e2 |]; [| discriminate H].
    destruct (Ascii.eqb c LF).
    + destruct (Csv.p_state (Csv.process_eol e2)); try discriminate H;
        now apply IH.
    + now apply IH.
Qed.

Lemma escape_cons (c : ascii) (f : string) :
  escape (String c f)
  = if Ascii.eqb c DQUOTE then String DQUOTE (String DQUOTE (escape f))
    else String c (escape f).
Proof. unfold escape. cbn [replace]. now destruct (Ascii.eqb c DQUOTE). Qed.

Lemma append_cons_assoc (g : string) (c : ascii) (f : string) :
  (g ++ String c "") ++ f = g ++ String c f.
Proof. induction g as [| d g IH]; cbn; [reflexivity | now rewrite IH]. Qed.

(** Between the quotes, the parser collects the field as it was before
    its quotes were doubled. *)
Lemma advance_quoted (f : string) :
  forall g fs,
    advance (Csv.mk_parser Csv.IN_QUOTED_FIELD g fs) (escape f)
    = Ok (Csv.mk_parser Csv.IN_QUOTED_FIELD (g ++ f) fs).
Proof.
  induction f as [| c f IH]; intros g fs.
  - cbn. now rewrite append_empty_r.
  - rewrite escape_cons.
    destruct (Ascii.eqb_spec c DQUOTE) as [-> | Hq].
    + cbn. unfold Csv.add_char, Csv.set_state. cbn.
      rewrite IH. now rewrite append_cons_assoc.
    + cbn [advance]. unfold Csv.process_char. cbn [Csv.p_state].
      apply Ascii.eqb_neq in Hq. rewrite Hq.
      unfold Csv.add_char. cbn [Csv.p_field Csv.p_fields].
      destruct (Ascii.eqb c LF); cbn; rewrite IH;
        now rewrite append_cons_assoc.
Qed.

(** Outside quotes, the characters of a field that needs none are
    collected one by one. *)
Lemma advance_plain (f : string) :
  Csv.needs_quotes f = false ->
  forall g fs,
    advance (Csv.mk_parser Csv.IN_FIELD g fs) f
    = Ok (Csv.mk_parser Csv.IN_FIELD (g ++ f) fs).
Proof.
  induction f as [| c f IH]; intros Hq g fs.
  - cbn. now rewrite append_empty_r.
  - unfold Csv.needs_quotes in Hq. cbn [contains] in Hq.
    repeat (apply orb_false_iff in Hq as [Hq ?]).
    repeat match goal with
           | H : _ || _ = false |- _ => apply orb_false_iff in H as [? ?]
           end.
    cbn [advance]. unfold Csv.process_char, Csv.is_newline. cbn [Csv.p_state].
    repeat match goal with
           | H : Ascii.eqb c ?x = false |- _ => rewrite H
           end.
    cbn [orb]. unfold Csv.add_char. cbn [Csv.p_field Csv.p_fields].
    rewrite IH; [now rewrite append_cons_assoc |].
    unfold Csv.needs_quotes.
    repeat match goal with
           | H : contains ?x f = false |- _ => rewrite H
           end.
    reflexivity.
Qed.

Lemma written_field (st : Csv.state) (f : string) (fs : list string) :
  st = Csv.START_RECORD \/ st = Csv.START_FIELD ->
  exists e,
    advance (Csv.mk_parser st "" fs) (Csv.write_field f) = Ok e /\
    after_field st f fs e.
Proof.
  intros Hst. unfold Csv.write_field.
  destruct (Csv.needs_quotes f) eqn:Hq.
  - fold (escape f).
    exists (Csv.mk_parser Csv.QUOTE_IN_QUOTED_FIELD f fs).
    split; [| now left].
    cbn [advance].
    assert (Hopen : Csv.process_char (Csv.mk_parser st "" fs) DQUOTE
                    = Ok (Csv.mk_parser Csv.IN_QUOTED_FIELD "" fs))
      by (destruct Hst as [-> | ->]; reflexivity).
    rewrite Hopen. change (Ascii.eqb DQUOTE LF) with false. cbv iota.
    rewrite (advance_app _ _ _ _ (advance_quoted f "" fs)).
    reflexivity.
  - destruct f as [| c f].
    + exists (Csv.mk_parser st "" fs). split; [reflexivity |].
      right. right. now split.
    + exists (Csv.mk_parser Csv.IN_FIELD (String c f) fs).
      split; [| right; now left].
      pose proof Hq as Hq'.
      unfold Csv.needs_quotes in Hq. cbn [contains] in Hq.
      repeat (apply orb_false_iff in Hq as [Hq ?]).
      repeat match goal with
             | H : _ || _ = false |- _ => apply orb_false_iff in H as [? ?]
             end.
      assert (Hrest : Csv.needs_quotes f = false).
      { unfold Csv.needs_quotes.
        repeat match goal with
               | H : contains ?x f = false |- _ => rewrite H
               end.
        reflexivity. }
      cbn [advance].
      assert (Hfirst : Csv.process_char (Csv.mk_parser st "" fs) c
                       = Ok (Csv.mk_parser Csv.IN_FIELD (String c "") fs)).
      { unfold Csv.process_char, Csv.is_newline. cbn [Csv.p_state].
        repeat match goal with
               | H : Ascii.eqb c ?x = false |- _ => rewrite H
               end.
        destruct Hst as [-> | ->]; reflexivity. }
      rewrite Hfirst.
      match goal with
      | H : Ascii.eqb c LF = false |- _ => rewrite H
      end.
      rewrite (advance_plain f Hrest). reflexivity.
Qed.

Lemma comma_after_field (st : Csv.state) (f : string) (fs : list string)
    (e : Csv.parser) :
  st = Csv.START_RECORD \/ st = Csv.START_FIELD ->
  after_field st f fs e ->
  Csv.process_char e "," = Ok (Csv.mk_parser Csv.START_FIELD "" (fs ++ [f])%list).
Proof.
  intros Hst [-> | [-> | [-> ->]]]; try reflexivity.
  destruct Hst as [-> | ->]; reflexivity.
Qed.

Lemma newline_after_field (f : string) (fs : list string) (e : Csv.parser) :
  after_field Csv.START_FIELD f fs e ->
  Csv.process_char e LF = Ok (Csv.mk_parser Csv.EAT_CRNL "" (fs ++ [f])%list).
Proof. intros [-> | [-> | [-> ->]]]; reflexivity. Qed.

Lemma field_then_comma (st : Csv.state) (f : string) (fs : list string)
    (rest : string) :
  st = Csv.START_RECORD \/ st = Csv.START_FIELD ->
  stream (Csv.mk_parser st "" fs) (Csv.write_field f ++ String "," rest)
  = stream (Csv.mk_parser Csv.START_FIELD "" (fs ++ [f])%list) rest.
Proof.
  intros Hst. destruct (written_field st f fs Hst) as (e & Hadv & Hafter).
  rewrite (stream_advance _ _ _ _ Hadv). cbn [stream].
  rewrite (comma_after_field st f fs e Hst Hafter). reflexivity.
Qed.

Lemma field_then_newline (f : string) (fs : list string) (rest : string) :
  stream (Csv.mk_parser Csv.START_FIELD "" fs)
    (Csv.write_field f ++ String LF rest)
  = bind (stream Csv.reset rest) (fun rows => Ok ((fs ++ [f])%list :: rows)).
Proof.
  destruct (written_field Csv.START_FIELD f fs (or_intror eq_refl))
    as (e & Hadv & Hafter).
  rewrite (stream_advance _ _ _ _ Hadv). cbn [stream].
  rewrite (newline_after_field f fs e Hafter). reflexivity.
Qed.

Lemma concat_cons2 (sep x y : string) (l : list string) :
  String.concat sep (x :: y :: l) = x ++ sep ++ String.concat sep (y :: l).
Proof. reflexivity. Qed.

Lemma row_from_start_field (fields : list string) :
  fields <> [] ->
  forall fs rest,
    stream (Csv.mk_parser Csv.START_FIELD "" fs) (row_line fields ++ rest)
    = bind (stream Csv.reset rest)
        (fun rows => Ok ((fs ++ fields)%list :: rows)).
Proof.
  induction fields as [| f fields IH]; intros Hne fs rest; [congruence |].
  destruct fields as [| g fields].
  - unfold row_line. cbn [map String.concat].
    rewrite append_assoc. cbn [append]. apply field_then_newline.
  - unfold row_line. cbn [map]. rewrite concat_cons2.
    rewrite !append_assoc. cbn [append].
    rewrite field_then_comma by (now right).
    specialize (IH ltac:(discriminate) (fs ++ [f])%list rest).
    unfold row_line in IH. cbn [map] in IH.
    rewrite !append_assoc in IH. cbn [append] in IH. rewrite IH.
    now rewrite <- app_assoc.
Qed.

(** A row of two fields or more is read back as it was written. *)
Lemma row_read_back (f g : string) (fields : list string) (rest : string) :
  stream Csv.reset (row_line (f :: g :: fields) ++ rest)
  = bind (stream Csv.reset rest)
      (fun rows => Ok ((f :: g :: fields) :: rows)).
Proof.
  unfold row_line. cbn [map]. rewrite concat_cons2.
  rewrite !append_assoc. cbn [append].
  unfold Csv.reset. rewrite field_then_comma by (now left).
  pose proof (row_from_start_field (g :: fields) ltac:(discriminate)
                ([] ++ [f])%list rest) as H.
  unfold row_line in H. cbn [map] in H.
  rewrite !append_assoc in H. cbn [append] in H. exact H.
Qed.

Lemma rows_read_back (rows : list (list string)) :
  Forall wide rows ->
  stream Csv.reset (String.concat "" (map row_line rows)) = Ok rows.
Proof.
  induction 1 as [| r rows Hr _ IH]; [reflexivity |].
  destruct r as [| f [| g fields]]; try (unfold wide in Hr; cbn in Hr; lia).
  assert (Hcat : String.concat "" (map row_line ((f :: g :: fields) :: rows))
                 = row_line (f :: g :: fields)
                   ++ String.concat "" (map row_line rows)).
  { cbn [map]. destruct (map row_line rows); cbn;
      [now rewrite append_empty_r | reflexivity]. }
  rewrite Hcat, row_read_back, IH. reflexivity.
Qed.

Lemma universal_newlines_line (a rest : string) :
  contains CR a = false ->
  Csv.universal_newlines (a ++ String CR (String LF rest))
  = a ++ String LF (Csv.universal_newlines rest).
Proof.
  induction a as [| c a IH]; intros H.
  - cbn. reflexivity.
  - cbn [contains] in H. apply orb_false_iff in H as [Hc Ha].
    cbn [append Csv.universal_newlines]. rewrite Hc. now rewrite IH.
Qed.

Lemma contains_escape (c : ascii) (f : string) :
  Ascii.eqb DQUOTE c = false -> contains c (escape f) = contains c f.
Proof.
  intros Hc. induction f as [| d f IH]; [reflexivity |].
  rewrite escape_cons. destruct (Ascii.eqb_spec d DQUOTE) as [-> | Hd].
  - cbn [contains]. now rewrite Hc, IH.
  - cbn [contains]. now rewrite IH.
Qed.

Lemma contains_write_field (f : string) :
  contains CR (Csv.write_field f) = contains CR f.
Proof.
  unfold Csv.write_field. destruct (Csv.needs_quotes f); [| reflexivity].
  fold (escape f). cbn [contains]. rewrite contains_append.
  rewrite contains_escape by reflexivity. cbn. now rewrite orb_false_r.
Qed.

Lemma contains_joined (fields : list string) :
  cr_free fields ->
  contains CR (String.concat "," (map Csv.write_field fields)) = false.
Proof.
  induction 1 as [| f fields Hf _ IH]; [reflexivity |].
  destruct fields as [| g fields].
  - cbn. now rewrite contains_write_field.
  - cbn [map]. rewrite concat_cons2. rewrite !contains_append.
    rewrite contains_write_field, Hf. cbn [map] in IH. rewrite IH.
    reflexivity.
Qed.

Lemma writerow_wide (fields : list string) :
  wide fields ->
  Csv.writerow fields
  = String.concat "," (map Csv.write_field fields)
    ++ String CR (String LF "").
Proof.
  unfold wide. destruct fields as [| f [| g fields]]; cbn [List.length];
    try lia.
  intros _. unfold Csv.writerow. now destruct f.
Qed.

Lemma concat_empty_cons (x : string) (l : list string) :
  String.concat "" (x :: l) = x ++ String.concat "" l.
Proof. destruct l; cbn; [now rewrite append_empty_r | reflexivity]. Qed.

(** What the reader is handed of the text the writer wrote. *)
Lemma universal_newlines_rows (rows : list (list string)) :
  Forall wide rows -> Forall cr_free rows ->
  Csv.universal_newlines (String.concat "" (map Csv.writerow rows))
  = String.concat "" (map row_line rows).
Proof.
  induction 1 as [| r rows Hr _ IH]; intros Hfree; [reflexivity |].
  inversion Hfree as [| ? ? Hf Hrest]; subst.
  cbn [map]. rewrite !concat_empty_cons.
  rewrite (writerow_wide r Hr). rewrite append_assoc. cbn [append].
  rewrite universal_newlines_line by (now apply contains_joined).
  rewrite (IH Hrest). unfold row_line. rewrite append_assoc. reflexivity.
Qed.

Lemma ends_with_newline_app (a : string) (c : ascii) (b : string) :
  ends_with_newline (a ++ String c b) = ends_with_newline (String c b).
Proof.
  induction a as [| d a IH]; [reflexivity |].
  cbn [append]. rewrite <- IH.
  destruct a; reflexivity.
Qed.

Lemma ends_with_newline_rows (rows : list (list string)) :
  ends_with_newline (String.concat "" (map row_line rows)) = true.
Proof.
  induction rows as [| r rows IH]; [reflexivity |].
  cbn [map]. rewrite concat_empty_cons.
  destruct (String.concat "" (map row_line rows)) as [| c rest] eqn:E.
  - rewrite append_empty_r. unfold row_line.
    rewrite ends_with_newline_app. reflexivity.
  - rewrite ends_with_newline_app. exact IH.
Qed.

(** The reader gives back the rows the writer was given, when each has
    two fields or more and none holds a carriage return. *)
Lemma reader_writer (rows : list (list string)) :
  Forall wide rows -> Forall cr_free rows ->
  Csv.reader
    (Csv.readlines
       (Csv.universal_newlines (String.concat "" (map Csv.writerow rows))))
  = Ok rows.
Proof.
  intros Hwide Hfree. rewrite (universal_newlines_rows rows Hwide Hfree).
  unfold Csv.reader, Csv.readlines.
  apply (lines_from_stream _ Csv.reset "" Csv.reset rows eq_refl
           (fun _ => eq_refl) (ends_with_newline_rows rows)
           (rows_read_back rows Hwide)).
Qed.

End CsvRoundTrip.

Section Numbers.

Lemma string_of_uint_digits (u : Decimal.uint) :
  Forall (fun c => isdigit c = true)
    (list_ascii_of_string (NilEmpty.string_of_uint u)).
Proof.
  induction u; cbn [NilEmpty.string_of_uint list_ascii_of_string];
    constructor; auto.
Qed.

Lemma isdigit_range (c : ascii) :
  isdigit c = true -> (48 <= nat_of_ascii c <= 57)%nat.
Proof.
  unfold isdigit, digit.
  destruct (Nat.leb_spec 48 (nat_of_ascii c));
    destruct (Nat.leb_spec (nat_of_ascii c) 57); cbn; try discriminate.
  lia.
Qed.

Lemma isdigit_not (c d : ascii) :
  isdigit c = true -> (nat_of_ascii d < 48 \/ 57 < nat_of_ascii d)%nat ->
  Ascii.eqb c d = false.
Proof.
  intros Hc Hd. apply isdigit_range in Hc.
  destruct (Ascii.eqb_spec c d) as [-> | _]; [lia | reflexivity].
Qed.

Lemma isdigit_not_space (c : ascii) : isdigit c = true -> is_space c = false.
Proof.
  intros Hc. apply isdigit_range in Hc. unfold is_space.
  destruct (Nat.eqb_spec (nat_of_ascii c) 32); [lia |].
  destruct (Nat.leb_spec 9 (nat_of_ascii c));
    destruct (Nat.leb_spec (nat_of_ascii c) 13); cbn; try reflexivity; lia.
Qed.

Lemma lstrip_digits (l : list ascii) :
  Forall (fun c => isdigit c = true) l -> lstrip l = l.
Proof.
  intros H. destruct H as [| c l' Hc _]; [reflexivity |].
  cbn. now rewrite isdigit_not_space.
Qed.

Lemma strip_digits (l : list ascii) :
  Forall (fun c => isdigit c = true) l -> strip l = l.
Proof.
  intros H. unfold strip. rewrite (lstrip_digits l H).
  rewrite lstrip_digits by (now apply Forall_rev).
  apply rev_involutive.
Qed.

Lemma drop_underscores_digits (l : list ascii) :
  Forall (fun c => isdigit c = true) l ->
  drop_underscores true l = Some l /\
  (l <> [] -> drop_underscores false l = Some l).
Proof.
  induction 1 as [| c l Hc _ [IH _]].
  - split; [reflexivity | congruence].
  - assert (Hu : Ascii.eqb c "_" = false)
      by (apply isdigit_not; [exact Hc | cbn; lia]).
    cbn [drop_underscores]. rewrite Hu, IH. now split.
Qed.

(** [int] reads back what [str] prints. *)
Lemma int_str (n : Z) : 0 <= n -> int (str n) = Ok n.
Proof.
  intros Hn. unfold str, int.
  assert (Hu : exists u,
             NilZero.string_of_int (Z.to_int n) = NilEmpty.string_of_uint u /\
             u <> Decimal.Nil /\ Z.of_N (N.of_uint u) = n).
  { destruct n as [| p | p]; [| | lia].
    - exists (Decimal.D0 Decimal.Nil). repeat split; discriminate.
    - exists (Pos.to_uint p). cbn [Z.to_int NilZero.string_of_int].
      assert (Hnn : Pos.to_uint p <> Decimal.Nil).
      { intros E. pose proof (DecimalPos.Unsigned.of_to p) as Hp.
        rewrite E in Hp. discriminate Hp. }
      split.
      + unfold NilZero.string_of_uint.
        destruct (Pos.to_uint p); [congruence | reflexivity ..].
      + split; [exact Hnn |].
        unfold N.of_uint. now rewrite DecimalPos.Unsigned.of_to. }
  destruct Hu as (u & -> & Hnil & Hval).
  pose proof (string_of_uint_digits u) as Hd.
  set (l := list_ascii_of_string (NilEmpty.string_of_uint u)) in *.
  assert (Hne : l <> []).
  { subst l. destruct u; cbn; congruence. }
  rewrite (strip_digits l Hd).
  destruct l as [| c l'] eqn:El; [congruence |].
  inversion Hd as [| ? ? Hc Hrest]; subst.
  assert (Ascii.eqb c "-" = false) as ->
    by (apply isdigit_not; [exact Hc | cbn; lia]).
  assert (Ascii.eqb c "+" = false) as ->
    by (apply isdigit_not; [exact Hc | cbn; lia]).
  cbn [orb].
  destruct (drop_underscores_digits (c :: l') Hd) as [_ Hdrop].
  rewrite (Hdrop Hne). rewrite <- El. subst l.
  rewrite string_of_list_ascii_of_string, NilEmpty.usu.
  first [now rewrite Hval | reflexivity].
Qed.

Lemma contains_digits (d : ascii) (s : string) :
  Forall (fun c => isdigit c = true) (list_ascii_of_string s) ->
  (nat_of_ascii d < 48 \/ 57 < nat_of_ascii d)%nat ->
  contains d s = false.
Proof.
  induction s as [| c s IH]; intros H Hd; [reflexivity |].
  cbn in H. inversion H as [| ? ? Hc Hrest]; subst.
  cbn [contains]. rewrite (isdigit_not c d Hc Hd). now apply IH.
Qed.

Lemma str_digits (n : Z) :
  0 <= n -> Forall (fun c => isdigit c = true) (list_ascii_of_string (str n)).
Proof.
  intros Hn. unfold str. destruct n as [| p | p]; [| | lia].
  - cbn. repeat constructor.
  - cbn [Z.to_int NilZero.string_of_int]. unfold NilZero.string_of_uint.
    destruct (Pos.to_uint p) eqn:E; try (rewrite <- E; apply string_of_uint_digits).
    cbn. repeat constructor.
Qed.

End Numbers.

Section Dates.

Lemma digit_dc (k : Z) : 0 <= k <= 9 -> digit (dc k) = Some k.
Proof.
  intros Hk.
  assert (k = 0 \/ k = 1 \/ k = 2 \/ k = 3 \/ k = 4 \/
          k = 5 \/ k = 6 \/ k = 7 \/ k = 8 \/ k = 9) as H by lia.
  repeat (destruct H as [-> | H]; [reflexivity |]). subst k. reflexivity.
Qed.

Lemma isdigit_dc (k : Z) : 0 <= k <= 9 -> isdigit (dc k) = true.
Proof. intros Hk. unfold isdigit. now rewrite digit_dc. Qed.

Lemma pad2_digits (n : Z) :
  0 <= n <= 99 ->
  pad 2 n = String (dc (n / 10)) (String (dc (n mod 10)) "").
Proof.
  intros Hn.
  assert (Hall : forallb
                   (fun k =>
                      String.eqb (pad 2 (Z.of_nat k))
                        (String (dc (Z.of_nat k / 10))
                           (String (dc (Z.of_nat k mod 10)) "")))
                   (seq 0 100) = true) by (vm_compute; reflexivity).
  rewrite forallb_forall in Hall.
  specialize (Hall (Z.to_nat n) ltac:(apply in_seq; lia)).
  rewrite Z2Nat.id in Hall by lia. now apply String.eqb_eq in Hall.
Qed.

Lemma pad4_digits (n : Z) :
  0 <= n <= 9999 ->
  pad 4 n
  = String (dc (n / 1000))
      (String (dc (n / 100 mod 10))
         (String (dc (n / 10 mod 10)) (String (dc (n mod 10)) ""))).
Proof.
  intros Hn.
  assert (Hall : forallb
                   (fun h =>
                      forallb
                        (fun l =>
                           String.eqb (pad 4 (100 * h + l))
                             (String (dc ((100 * h + l) / 1000))
                                (String (dc ((100 * h + l) / 100 mod 10))
                                   (String (dc ((100 * h + l) / 10 mod 10))
                                      (String (dc ((100 * h + l) mod 10))
                                         "")))))
                        (map Z.of_nat (seq 0 100)))
                   (map Z.of_nat (seq 0 100)) = true)
    by (vm_compute; reflexivity).
  rewrite forallb_forall in Hall.
  assert (Hin : forall k, 0 <= k <= 99 -> In k (map Z.of_nat (seq 0 100))).
  { intros k Hk. apply in_map_iff. exists (Z.to_nat k).
    split; [apply Z2Nat.id; lia | apply in_seq; lia]. }
  specialize (Hall (n / 100)
               (Hin (n / 100) ltac:(Z.div_mod_to_equations; lia))).
  rewrite forallb_forall in Hall.
  specialize (Hall (n mod 100)
               (Hin (n mod 100) ltac:(Z.div_mod_to_equations; lia))).
  replace (100 * (n / 100) + n mod 100) with n in Hall
    by (Z.div_mod_to_equations; lia).
  now apply String.eqb_eq in Hall.
Qed.

Lemma eqb_dc (k : Z) (c : ascii) :
  0 <= k <= 9 -> isdigit c = false -> Ascii.eqb (dc k) c = false.
Proof.
  intros Hk Hc. destruct (Ascii.eqb_spec (dc k) c) as [<- |]; [| reflexivity].
  now rewrite isdigit_dc in Hc.
Qed.

Lemma directive_two (two : Z -> Z -> bool) (one : Z -> bool)
    (k1 k2 : Z) (rest : list ascii) :
  0 <= k1 <= 9 -> 0 <= k2 <= 9 -> two k1 k2 = true ->
  exists others,
    directive two one (dc k1 :: dc k2 :: rest)
    = (10 * k1 + k2, rest) :: others.
Proof.
  intros H1 H2 Htwo. unfold directive.
  rewrite !digit_dc, Htwo by assumption. eexists. reflexivity.
Qed.

Lemma directive_d_two (k1 k2 : Z) (rest : list ascii) :
  0 <= k1 <= 9 -> 0 <= k2 <= 9 ->
  ((k1 =? 3) && (k2 <=? 1)) || ((1 <=? k1) && (k1 <=? 2))
  || ((k1 =? 0) && (1 <=? k2)) = true ->
  exists others,
    directive_d (dc k1 :: dc k2 :: rest) = (10 * k1 + k2, rest) :: others.
Proof.
  intros H1 H2 Htwo. unfold directive_d.
  destruct (directive_two
              (fun d1 d2 => ((d1 =? 3) && (d2 <=? 1))
                            || ((1 <=? d1) && (d1 <=? 2))
                            || ((d1 =? 0) && (1 <=? d2)))
              (fun d => 1 <=? d) k1 k2 rest H1 H2 Htwo) as [others ->].
  eexists. reflexivity.
Qed.

Lemma flat_map_first {A B : Type} (f : A -> list B) (x : A) (xs : list A)
    (r : B) :
  (exists t, f x = r :: t) -> exists t, flat_map f (x :: xs) = r :: t.
Proof. intros [t Ht]. cbn. rewrite Ht. eexists. reflexivity. Qed.

Ltac bool_lia :=
  repeat (rewrite orb_true_iff || rewrite andb_true_iff
          || rewrite Z.eqb_eq || rewrite Z.leb_le);
  Z.div_mod_to_equations; lia.

Lemma valid_ranges (dt : datetime) :
  valid dt ->
  (1 <= year dt <= 9999) /\ (1 <= month dt <= 12) /\ (1 <= day dt <= 31) /\
  (0 <= hour dt <= 23) /\ (0 <= minute dt <= 59) /\ (0 <= second dt <= 59).
Proof.
  unfold valid, make_datetime. intros H.
  destruct (_ && _) eqn:E in H; [| discriminate].
  repeat (apply andb_prop in E; destruct E as [E ?]).
  assert (days_in_month (year dt) (month dt) <= 31).
  { unfold days_in_month.
    destruct (month dt =? 2); [destruct (is_leap (year dt)); lia |].
    destruct ((month dt =? 4) || (month dt =? 6) || (month dt =? 9)
              || (month dt =? 11)); lia. }
  lia.
Qed.

Lemma strptime_strftime (dt : datetime) :
  valid dt -> strptime (strftime_seconds dt) = Ok dt.
Proof.
  intros Hvalid.
  destruct (valid_ranges dt Hvalid) as (Hy & Hm & Hd & Hh & Hmi & Hs).
  unfold strptime, strftime_seconds, strftime_minutes.
  rewrite pad4_digits by lia. rewrite !pad2_digits by lia.
  cbn [append list_ascii_of_string].
  assert (Hmatch : exists t,
    strptime_matches
      (dc (year dt / 1000) :: dc (year dt / 100 mod 10)
       :: dc (year dt / 10 mod 10) :: dc (year dt mod 10) :: "-"%char
       :: dc (month dt / 10) :: dc (month dt mod 10) :: "-"%char
       :: dc (day dt / 10) :: dc (day dt mod 10) :: " "%char
       :: dc (hour dt / 10) :: dc (hour dt mod 10) :: ":"%char
       :: dc (minute dt / 10) :: dc (minute dt mod 10) :: ":"%char
       :: dc (second dt / 10) :: dc (second dt mod 10) :: [])
    = (year dt, month dt, day dt, hour dt, minute dt, second dt, []) :: t).
  { unfold strptime_matches.
    unfold directive_Y. rewrite !digit_dc by (Z.div_mod_to_equations; lia).
    apply flat_map_first. cbn [literal Ascii.eqb Bool.eqb].
    apply flat_map_first.
    destruct (directive_two
                (fun d1 d2 => ((d1 =? 1) && (d2 <=? 2)) || ((d1 =? 0) && (1 <=? d2)))
                (fun d => 1 <=? d) (month dt / 10) (month dt mod 10)
                ("-"%char :: dc (day dt / 10) :: dc (day dt mod 10) :: " "%char
       :: dc (hour dt / 10) :: dc (hour dt mod 10) :: ":"%char
       :: dc (minute dt / 10) :: dc (minute dt mod 10) :: ":"%char
       :: dc (second dt / 10) :: dc (second dt mod 10) :: []))
      as [om Hom]; [Z.div_mod_to_equations; lia .. | bool_lia |].
    unfold directive_m. rewrite Hom. clear Hom.
    apply flat_map_first. cbn [literal Ascii.eqb Bool.eqb].
    apply flat_map_first.
    destruct (directive_d_two (day dt / 10) (day dt mod 10)
                (" "%char
       :: dc (hour dt / 10) :: dc (hour dt mod 10) :: ":"%char
       :: dc (minute dt / 10) :: dc (minute dt mod 10) :: ":"%char
       :: dc (second dt / 10) :: dc (second dt mod 10) :: []))
      as [od Hod]; [Z.div_mod_to_equations; lia .. | bool_lia |].
    rewrite Hod. clear Hod.
    apply flat_map_first.
    change (blanks (" "%char :: ?l)) with [lstrip l].
    cbn [lstrip].
    rewrite (isdigit_not_space (dc (hour dt / 10)))
      by (apply isdigit_dc; Z.div_mod_to_equations; lia).
    apply flat_map_first.
    destruct (directive_two
                (fun d1 d2 => ((d1 =? 2) && (d2 <=? 3)) || (d1 <=? 1))
                (fun _ => true) (hour dt / 10) (hour dt mod 10)
                (":"%char
       :: dc (minute dt / 10) :: dc (minute dt mod 10) :: ":"%char
       :: dc (second dt / 10) :: dc (second dt mod 10) :: []))
      as [oh Hoh]; [Z.div_mod_to_equations; lia .. | bool_lia |].
    unfold directive_H. rewrite Hoh. clear Hoh.
    apply flat_map_first. cbn [literal Ascii.eqb Bool.eqb].
    apply flat_map_first.
    destruct (directive_two
                (fun d1 _ : Z => d1 <=? 5)
                (fun _ => true) (minute dt / 10) (minute dt mod 10)
                (":"%char
       :: dc (second dt / 10) :: dc (second dt mod 10) :: []))
      as [omi Homi]; [Z.div_mod_to_equations; lia .. | bool_lia |].
    unfold directive_M. rewrite Homi. clear Homi.
    apply flat_map_first. cbn [literal Ascii.eqb Bool.eqb].
    apply flat_map_first.
    destruct (directive_two
                (fun d1 d2 => ((d1 =? 6) && (d2 <=? 1)) || (d1 <=? 5))
                (fun _ => true) (second dt / 10) (second dt mod 10) [])
      as [os Hos]; [Z.div_mod_to_equations; lia .. | bool_lia |].
    unfold directive_S. rewrite Hos. clear Hos.
    cbn [map].
    replace (1000 * (year dt / 1000) + 100 * (year dt / 100 mod 10)
             + 10 * (year dt / 10 mod 10) + year dt mod 10)
      with (year dt) by (Z.div_mod_to_equations; lia).
    replace (10 * (month dt / 10) + month dt mod 10) with (month dt)
      by (Z.div_mod_to_equations; lia).
    replace (10 * (day dt / 10) + day dt mod 10) with (day dt)
      by (Z.div_mod_to_equations; lia).
    replace (10 * (hour dt / 10) + hour dt mod 10) with (hour dt)
      by (Z.div_mod_to_equations; lia).
    replace (10 * (minute dt / 10) + minute dt mod 10) with (minute dt)
      by (Z.div_mod_to_equations; lia).
    replace (10 * (second dt / 10) + second dt mod 10) with (second dt)
      by (Z.div_mod_to_equations; lia).
    eexists. reflexivity. }
  destruct Hmatch as [t ->]. exact Hvalid.
Qed.

Lemma contains_strftime (dt : datetime) :
  valid dt -> contains CR (strftime_seconds dt) = false.
Proof.
  intros Hvalid.
  destruct (valid_ranges dt Hvalid) as (Hy & Hm & Hd & Hh & Hmi & Hs).
  unfold strftime_seconds, strftime_minutes.
  rewrite pad4_digits by lia. rewrite !pad2_digits by lia.
  cbn [append contains].
  rewrite !eqb_dc by (first [reflexivity | Z.div_mod_to_equations; lia]).
  reflexivity.
Qed.

Lemma plain_cr_free (r : Census.file_info) (dt : datetime) :
  plain r dt -> cr_free (Census.values r).
Proof.
  intros (Hn & Hp & Hf & He & Hs & Hv & _ & Hd).
  unfold cr_free, Census.values.
  repeat (apply Forall_cons; [| ]); try apply Forall_nil; try assumption.
  - apply contains_digits; [now apply str_digits | cbn; lia].
  - rewrite Hd. now apply contains_strftime.
Qed.

Lemma convert_row_written (r : Census.file_info) (dt : datetime) :
  plain r dt ->
  Summary.convert_row (Csv.zip_row Census.fieldnames (Census.values r))
  = Ok (read_back r dt).
Proof.
  intros (Hn & Hp & Hf & He & Hs & Hv & _ & Hd).
  unfold Summary.convert_row, Summary.field. cbn.
  rewrite int_str by assumption. cbn.
  rewrite Hd, strptime_strftime by assumption. cbn.
  unfold read_back. now rewrite Hd.
Qed.

(** X1 (the reach of C5).  What the census writes for records without a
    carriage return in their texts (the header, then their rows) is read
    back by the summary, row for row and in order, with the same file
    name, path, size (as an [int]), formatted size, date text and
    extension, and with the [datetime] the date text was printed from. *)
Theorem census_read_back (stamped : list (Census.file_info * datetime)) :
  Forall (fun p => plain (fst p) (snd p)) stamped ->
  Summary.parse_csv (header ++ Census.rows_text (map fst stamped))
  = Ok (map (fun p => read_back (fst p) (snd p)) stamped).
Proof.
  intros Hplain.
  unfold Summary.parse_csv, Csv.DictReader, Census.rows_text, header.
  rewrite <- (map_map Census.values Csv.writerow).
  rewrite <- concat_empty_cons.
  change (Csv.writerow Census.fieldnames
          :: map Csv.writerow (map Census.values (map fst stamped)))
    with (map Csv.writerow
            (Census.fieldnames :: map Census.values (map fst stamped))).
  rewrite reader_writer.
  - cbn [bind].
    induction Hplain as [| [r dt] rest Hr _ IH]; [reflexivity |].
    cbn [map filter fst snd Census.values].
    cbn [map Summary.for_each].
    change [Census.filename r; Census.full_path r; str (Census.size_bytes r);
            Census.size_formatted r; Census.modified_date r;
            Census.extension r] with (Census.values r).
    rewrite (convert_row_written r dt Hr). cbn [bind].
    cbn [bind] in IH. rewrite IH. reflexivity.
  - apply Forall_cons; [unfold wide; cbn; lia |].
    rewrite map_map. apply Forall_map. apply Forall_forall. intros p _.
    unfold wide. cbn. lia.
  - apply Forall_cons.
    + unfold cr_free, Census.fieldnames.
      repeat (apply Forall_cons; [reflexivity |]). apply Forall_nil.
    + rewrite map_map. apply Forall_map.
      eapply Forall_impl; [| exact Hplain].
      intros [r dt] H. now apply (plain_cr_free r dt).
Qed.

(** On two records, one of them with a comma in its name. *)
Lemma census_read_back_witness :
  Forall (fun p => plain (fst p) (snd p)) sample_stamped /\
  Summary.parse_csv (header ++ Census.rows_text (map fst sample_stamped))
  = Ok (map (fun p => read_back (fst p) (snd p)) sample_stamped).
Proof.
  assert (H : Forall (fun p => plain (fst p) (snd p)) sample_stamped).
  { unfold sample_stamped, plain.
    repeat (apply Forall_cons;
            [cbn [fst snd]; repeat split; first [reflexivity | cbn; lia] |]).
    apply Forall_nil. }
  split; [exact H | exact (census_read_back sample_stamped H)].
Defined.

End Dates.

Section RoundTrip.

(** C5 at that folder.  The census writes the name between quotes with
    its carriage return; the summary opens the file without [newline='']
    (the census opens it with), reads a line feed in its place, and hands
    on another file name and another path. *)
Theorem carriage_return_is_not_read_back :
  let run :=
    Census.main sample_zone "/home/u" None (Some "census.csv") true cr_fs
      None sample_world in
  exists written record row,
    exit_status (fst run) = 0 /\
    file_is (snd run) "census.csv" written true /\
    Census.scanned sample_zone "/home/u/Downloads" (FS.rglob cr_tree)
    = [record] /\
    written = header ++ Census.rows_text [record] /\
    Census.filename record = "a" ++ String CR "b.txt" /\
    Summary.parse_csv written = Ok [row] /\
    Summary.filename row = "a" ++ String LF "b.txt" /\
    Summary.filename row <> Census.filename record /\
    Summary.size_bytes row = Census.size_bytes record /\
    Summary.extension row = Census.extension record.
Proof.
  cbv zeta. do 3 eexists.
  split; [vm_compute; reflexivity |].
  split; [vm_compute; reflexivity |].
  split; [vm_compute; reflexivity |].
  split; [vm_compute; reflexivity |].
  split; [vm_compute; reflexivity |].
  split; [vm_compute; reflexivity |].
  split; [vm_compute; reflexivity |].
  split; [vm_compute; discriminate |].
  split; vm_compute; reflexivity.
Qed.

End RoundTrip.

(** ** More on the names and the links of the weekly report *)

Section TruncateMore.

Import Weekly.

Lemma rsplit1_some (c : ascii) (s name ext : string) :
  rsplit1 c s = Some (name, ext) ->
  s = name ++ String c ext /\ contains c ext = false.
Proof.
  revert name. induction s as [| d s IH]; intros name; cbn; [discriminate |].
  destruct (rsplit1 c s) as [[n e] |] eqn:E.
  - intros H. injection H as <- <-.
    destruct (IH n eq_refl) as [-> He]. now split.
  - destruct (Ascii.eqb_spec d c) as [-> |]; [| discriminate].
    intros H. injection H as <- <-. split; [reflexivity |].
    clear IH. induction s as [| d s IHs]; [reflexivity |].
    cbn in E |- *. destruct (rsplit1 c s) as [[n e] |]; [discriminate |].
    destruct (Ascii.eqb d c); [discriminate |]. now apply IHs.
Qed.

Lemma length_fallback (filename : string) (max_length : Z) :
  3 <= max_length -> max_length < len filename ->
  len (slice_to (max_length - 3) filename ++ "...") = max_length.
Proof.
  unfold len. intros Hm Hlen.
  rewrite slice_to_nonneg by lia.
  rewrite length_append, length_take. cbn [String.length]. lia.
Qed.

(** X2.  [truncate_filename] and its limit.  For a limit of at least 3 the
    result has at most [max_length] characters, and cutting it again with
    the same limit changes nothing. *)
Theorem truncate_filename_within_limit (filename : string) (max_length : Z) :
  3 <= max_length ->
  len (truncate_filename filename max_length) <= max_length /\
  truncate_filename (truncate_filename filename max_length) max_length
  = truncate_filename filename max_length.
Proof.
  intros Hm.
  assert (Hlen : len (truncate_filename filename max_length) <= max_length).
  { unfold truncate_filename.
    destruct (Z.leb_spec (len filename) max_length) as [Hle | Hgt];
      [exact Hle |].
    pose proof (length_fallback filename max_length Hm Hgt) as Hfb.
    destruct (contains "." filename); [| lia].
    destruct (rsplit1 "." filename) as [[name ext] |]; [| lia].
    destruct (Z.ltb_spec (len ext) (max_length - 3)); [| lia].
    destruct (Z.ltb_spec 0 (max_length - len ext - 4)); [| lia].
    unfold len in *. rewrite slice_to_nonneg by lia.
    rewrite !length_append, length_take. cbn [String.length]. lia. }
  split; [exact Hlen |].
  unfold truncate_filename at 1.
  destruct (Z.leb_spec (len (truncate_filename filename max_length)) max_length);
    [reflexivity | lia].
Qed.

(** X3.  What is kept of a long name.  A name of more than 40 characters,
    [stem.ext] with no dot in [ext]: when [ext] has at most 35 characters the
    result is the first [36 - len(ext)] characters of the stem, three dots
    and [ext], 39 characters in all (the dot before the extension is not
    kept); when [ext] has 36 or more, it is the first 37 characters of the
    whole name and three dots, 40 characters. *)
Theorem truncate_filename_extension (stem ext : string) :
  contains "." ext = false ->
  (40 < String.length (stem ++ "." ++ ext))%nat ->
  ((String.length ext <= 35)%nat ->
   truncate_filename (stem ++ "." ++ ext) 40
   = take (36 - String.length ext) stem ++ "..." ++ ext /\
   String.length (truncate_filename (stem ++ "." ++ ext) 40) = 39%nat) /\
  ((36 <= String.length ext)%nat ->
   truncate_filename (stem ++ "." ++ ext) 40
   = take 37 (stem ++ "." ++ ext) ++ "..." /\
   String.length (truncate_filename (stem ++ "." ++ ext) 40) = 40%nat).
Proof.
  intros Hdot Hlong.
  assert (Hcut : truncate_filename (stem ++ "." ++ ext) 40
                 = if len ext <? 40 - 3 then
                     if 0 <? 40 - len ext - 4 then
                       slice_to (40 - len ext - 4) stem ++ "..." ++ ext
                     else slice_to (40 - 3) (stem ++ "." ++ ext) ++ "..."
                   else slice_to (40 - 3) (stem ++ "." ++ ext) ++ "...").
  { unfold truncate_filename.
    destruct (Z.leb_spec (len (stem ++ "." ++ ext)) 40) as [Hle | _];
      [unfold len in Hle; lia |].
    rewrite contains_append. cbn [contains append].
    rewrite Ascii.eqb_refl, orb_true_r.
    change ("." ++ ext) with (String "." ext).
    rewrite (rsplit1_last "." stem ext Hdot). reflexivity. }
  rewrite Hcut. clear Hcut.
  rewrite length_append in Hlong. cbn [append String.length] in Hlong.
  unfold len. split; intros Hext.
  - destruct (Z.ltb_spec (Z.of_nat (String.length ext)) (40 - 3)); [| lia].
    destruct (Z.ltb_spec 0 (40 - Z.of_nat (String.length ext) - 4)); [| lia].
    rewrite slice_to_nonneg by lia.
    replace (Z.to_nat (40 - Z.of_nat (String.length ext) - 4))
      with (36 - String.length ext)%nat by lia.
    split; [reflexivity |].
    rewrite !length_append, length_take. cbn [String.length]. lia.
  - assert (Hfb : slice_to (40 - 3) (stem ++ "." ++ ext) ++ "..."
                  = take 37 (stem ++ "." ++ ext) ++ "...")
      by (rewrite slice_to_nonneg by lia; reflexivity).
    assert (Hres : (if Z.of_nat (String.length ext) <? 40 - 3 then
                      if 0 <? 40 - Z.of_nat (String.length ext) - 4 then
                        slice_to (40 - Z.of_nat (String.length ext) - 4) stem
                        ++ "..." ++ ext
                      else slice_to (40 - 3) (stem ++ "." ++ ext) ++ "..."
                    else slice_to (40 - 3) (stem ++ "." ++ ext) ++ "...")
                   = take 37 (stem ++ "." ++ ext) ++ "...").
    { destruct (Z.ltb_spec (Z.of_nat (String.length ext)) (40 - 3));
        [| exact Hfb].
      destruct (Z.ltb_spec 0 (40 - Z.of_nat (String.length ext) - 4));
        [lia | exact Hfb]. }
    rewrite Hres. split; [reflexivity |].
    rewrite !length_append, length_take, length_append.
    cbn [append String.length]. lia.
Qed.

End TruncateMore.

Section Quote.

Lemma hex_digit_unreserved (n : nat) :
  (n < 16)%nat -> unreserved (hex_digit n) = true.
Proof.
  intros Hn.
  do 16 (destruct n as [| n]; [reflexivity |]). lia.
Qed.

Lemma forallb_append (p : ascii -> bool) (a b : string) :
  forallb p (list_ascii_of_string (a ++ b))
  = forallb p (list_ascii_of_string a) && forallb p (list_ascii_of_string b).
Proof.
  induction a as [| c a IH]; cbn; [reflexivity |].
  now rewrite IH, andb_assoc.
Qed.

Lemma quote_link_safe (s : string) :
  forallb link_safe (list_ascii_of_string (quote s)) = true.
Proof.
  induction s as [| c s IH]; cbn [quote]; [reflexivity |].
  rewrite forallb_append, IH, andb_true_r.
  destruct (unreserved c) eqn:E.
  - cbn. unfold link_safe. now rewrite E.
  - pose proof (nat_ascii_bounded c) as Hc.
    cbn [list_ascii_of_string forallb]. unfold link_safe at 2 3.
    rewrite !hex_digit_unreserved.
    + reflexivity.
    + apply Nat.mod_upper_bound. lia.
    + apply Nat.Div0.div_lt_upper_bound. cbn. lia.
Qed.

Lemma contains_forallb (c : ascii) (p : ascii -> bool) (s : string) :
  p c = false -> forallb p (list_ascii_of_string s) = true ->
  contains c s = false.
Proof.
  intros Hc. induction s as [| d s IH]; cbn; [reflexivity |].
  intros H. apply andb_prop in H as [Hd Hs].
  rewrite (IH Hs), orb_false_r.
  destruct (Ascii.eqb_spec d c) as [-> |]; [congruence | reflexivity].
Qed.

(** X4.  The path in a delete link.  [quote(path, safe='/:')], as
    [generate_markdown_report] calls it, holds only letters, digits, the
    characters [_.-~/:] and [%]: no space, parenthesis, closing bracket, bar
    or line feed.  A path made of letters, digits and [_.-~/:] alone is left
    as it is. *)
Theorem quote_is_link_safe (s : string) :
  forallb link_safe (list_ascii_of_string (quote s)) = true /\
  contains " " (quote s) = false /\
  contains ")" (quote s) = false /\
  contains "(" (quote s) = false /\
  contains "]" (quote s) = false /\
  contains "|" (quote s) = false /\
  contains LF (quote s) = false /\
  (forallb unreserved (list_ascii_of_string s) = true -> quote s = s).
Proof.
  pose proof (quote_link_safe s) as H.
  split; [exact H |].
  repeat (split; [now apply (contains_forallb _ link_safe) |]).
  clear H. induction s as [| c s IH]; [reflexivity |].
  cbn. intros H. apply andb_prop in H as [Hc Hs].
  rewrite Hc, (IH Hs). reflexivity.
Qed.

End Quote.

(** ** The streams of a run of the census *)

Section CensusStreams.

Variable fromtimestamp : Z -> datetime.
Variable home : string.

Lemma same_streams_refl (w : world) : same_streams w w.
Proof. repeat split. Qed.

Lemma same_streams_trans (w1 w2 w3 : world) :
  same_streams w1 w2 -> same_streams w2 w3 -> same_streams w1 w3.
Proof.
  intros (A1 & B1 & C1 & D1) (A2 & B2 & C2 & D2).
  repeat split; etransitivity; eassumption.
Qed.

Lemma open_w_streams (path : string) (w : world) :
  can_open w path = Ok tt ->
  exists w', open_w path w = (Ok tt, w') /\ file_is w' path "" false /\
             same_streams w w'.
Proof.
  intros H. unfold open_w. rewrite H. eexists. split; [reflexivity |].
  split; [| repeat split].
  unfold file_is. cbn. apply get_set_file.
Qed.

Lemma write_streams (path text : string) (w : world) (c : string) (b : bool) :
  file_is w path c b ->
  exists w', write path text w = (Ok tt, w') /\
             file_is w' path (c ++ text) b /\ same_streams w w'.
Proof.
  unfold file_is, write. intros ->. eexists. split; [reflexivity |].
  split; [| repeat split].
  cbn. apply get_set_file.
Qed.

Lemma close_streams (path : string) (w : world) (c : string) (b : bool) :
  file_is w path c b ->
  file_is (close path w) path c true /\ same_streams w (close path w).
Proof.
  unfold file_is, close. intros ->. split; [| repeat split].
  cbn. apply get_set_file.
Qed.

Lemma print_end_streams (text e : string) (w : world) (path c : string)
    (b : bool) :
  file_is w path c b ->
  exists w', print_end text e w = (Ok tt, w') /\ file_is w' path c b /\
             stdout w' = (stdout w ++ [(text ++ e)%string])%list /\
             stderr w' = stderr w /\ clock w' = clock w /\
             can_open w' = can_open w.
Proof. intros H. eexists. split; [reflexivity |]. repeat split. exact H. Qed.

(** The loop of [create_csv_report] that no interrupt reaches in its body:
    the rows of the values, and on the standard output what the generator
    prints. *)
Lemma write_rows_said (out : string) (interrupt : option Census.point)
    (g : gen Census.file_info) :
  forall (n : nat) (w : world) (c : string),
    file_is w out c false ->
    (forall j, interrupt <> Some (Census.BeforeRow j) /\
               interrupt <> Some (Census.AfterRow j)) ->
    exists w',
      Census.write_rows out interrupt g n w
      = (match gen_end g with
         | Ok _ => Ok (n + List.length (gen_values g))%nat
         | Raise e => Raise e
         end, w') /\
      file_is w' out (c ++ Census.rows_text (gen_values g)) false /\
      stdout w' = (stdout w ++ gen_said g)%list /\
      stderr w' = stderr w /\ clock w' = clock w /\ can_open w' = can_open w.
Proof.
  induction g as [a rest IH | text rest IH | | e]; intros n w c Hfile Hint;
    cbn [Census.write_rows gen_values gen_end gen_said List.length].
  - rewrite arrives_before_other by (intros j Hj; now destruct (Hint j)).
    unfold io_bind at 1.
    destruct (write_streams out (Csv.writerow (Census.values a)) w c false Hfile)
      as (w1 & -> & Hfile1 & Ho & He & Hc & Hp).
    rewrite arrives_after_other by (intros j Hj; now destruct (Hint j)).
    destruct (IH (S n) w1 _ Hfile1 Hint)
      as (w' & Hrun & Hfile' & Ho' & He' & Hc' & Hp').
    exists w'. rewrite Hrun. rewrite rows_text_cons, <- append_assoc.
    replace (n + S (List.length (gen_values rest)))%nat
      with (S n + List.length (gen_values rest))%nat by lia.
    repeat split; try assumption; congruence.
  - unfold io_bind at 1.
    destruct (print_end_streams text "" w out c false Hfile)
      as (w1 & -> & Hfile1 & Ho & He & Hc & Hp).
    destruct (IH n w1 c Hfile1 Hint)
      as (w' & Hrun & Hfile' & Ho' & He' & Hc' & Hp').
    exists w'. rewrite Hrun. repeat split; try assumption; try congruence.
    rewrite Ho', Ho, append_empty_r, <- app_assoc. reflexivity.
  - exists w. rewrite Nat.add_0_r, app_nil_r. repeat split.
    unfold Census.rows_text. cbn. now rewrite append_empty_r.
  - exists w. rewrite app_nil_r. repeat split.
    unfold Census.rows_text. cbn. now rewrite append_empty_r.
Qed.

(** A run of [create_csv_report] whose output file can be opened and whose
    loop is reached by no interrupt in its body. *)
Lemma create_csv_report_streams (folder_path : string) (root : option FS.node)
    (output : option string) (quiet : bool)
    (interrupt : option Census.point) (w : world) :
  can_open w (report_path fromtimestamp output w) = Ok tt ->
  (forall j, interrupt <> Some (Census.BeforeRow j) /\
             interrupt <> Some (Census.AfterRow j)) ->
  let out := report_path fromtimestamp output w in
  let g :=
    Census.scan_folder fromtimestamp folder_path root (negb quiet) interrupt in
  let r :=
    match gen_end g with
    | Ok _ => Ok (List.length (gen_values g))
    | Raise e => Raise e
    end in
  exists w',
    Census.create_csv_report fromtimestamp folder_path root output
      (negb quiet) interrupt w
    = (match r with
       | Ok _ => Ok tt
       | Raise e => if is_Exception e then Raise (SystemExit 1) else Raise e
       end, w') /\
    file_is w' out (header ++ Census.rows_text (gen_values g)) true /\
    stdout w'
    = (stdout w ++ gen_said g
       ++ match r with
          | Raise KeyboardInterrupt => []
          | _ => last_lines out quiet r
          end)%list /\
    stderr w' = stderr w.
Proof.
  intros Hopen Hint out g r.
  unfold Census.create_csv_report.
  unfold io_bind at 1. unfold now_timestamp. cbv iota beta.
  fold (report_path fromtimestamp output w). fold out.
  unfold try_except, with_open_w.
  destruct (open_w_streams out w Hopen) as (w1 & -> & Hf1 & Ho1 & He1 & Hc1 & Hp1).
  unfold io_bind at 1.
  destruct (write_streams out (Csv.writerow Census.fieldnames) w1 "" false Hf1)
    as (w2 & -> & Hf2 & Ho2 & He2 & Hc2 & Hp2).
  cbn [append] in Hf2.
  destruct (write_rows_said out interrupt g 0%nat w2 header Hf2 Hint)
    as (w3 & Hloop & Hf3 & Ho3 & He3 & Hc3 & Hp3).
  unfold io_bind at 1. fold g. rewrite Hloop. cbn [Nat.add].
  subst r. destruct (gen_end g) as [[] | e].
  - destruct quiet; cbn [negb last_lines].
    + destruct (close_streams out w3 _ false Hf3) as [Hf4 (Ho4 & He4 & _)].
      eexists. split; [reflexivity |].
      split; [exact Hf4 |]. rewrite app_nil_r. split; congruence.
    + unfold io_bind.
      destruct (print_end_streams ("CSV report created: " ++ out) nl w3 out _
                  false Hf3) as (w4 & Hp4 & Hf4' & Ho4' & He4' & _).
      unfold print. rewrite Hp4.
      destruct (print_end_streams
                  ("Total files processed: "
                   ++ str (Z.of_nat (List.length (gen_values g))))
                  nl w4 out _ false Hf4') as (w5 & Hp5 & Hf5 & Ho5 & He5 & _).
      rewrite Hp5.
      destruct (close_streams out w5 _ false Hf5) as [Hf6 (Ho6 & He6 & _)].
      eexists. split; [reflexivity |]. split; [exact Hf6 |].
      split; [| congruence].
      rewrite Ho6, Ho5, Ho4', Ho3, Ho2, Ho1.
      rewrite <- !app_assoc. reflexivity.
  - destruct (close_streams out w3 _ false Hf3) as [Hf4 (Ho4 & He4 & _)].
    assert (Hbase : stdout (close out w3) = (stdout w ++ gen_said g)%list)
      by congruence.
    assert (Herr : stderr (close out w3) = stderr w) by congruence.
    destruct e; cbn [is_Exception last_lines];
      try (unfold io_bind, sys_exit, raise;
           match goal with
           | |- context [print ?t (close out w3)] =>
               destruct (print_end_streams t nl (close out w3) out _ true Hf4)
                 as (w5 & Hp5 & Hf5 & Ho5 & He5 & _);
               unfold print; rewrite Hp5
           end;
           eexists; split; [reflexivity |]; split; [exact Hf5 |];
           split; [rewrite Ho5, Hbase, <- app_assoc; reflexivity | congruence]);
      (eexists; split; [reflexivity |]; split; [exact Hf4 |];
       rewrite app_nil_r; split; assumption).
Qed.

(** A run of [main] whose output file can be opened and whose loop is
    reached by no interrupt in its body: the exit, the file and the
    lines printed. *)
Lemma main_streams (folder output : option string) (quiet : bool)
    (fs : string -> option FS.node) (interrupt : option Census.point)
    (w : world) :
  can_open w (report_path fromtimestamp output w) = Ok tt ->
  (forall j, interrupt <> Some (Census.BeforeRow j) /\
             interrupt <> Some (Census.AfterRow j)) ->
  let out := report_path fromtimestamp output w in
  let g :=
    Census.scan_folder fromtimestamp (scan_path home folder)
      (fs (scan_path home folder)) (negb quiet) interrupt in
  let r :=
    match gen_end g with
    | Ok _ => Ok (List.length (gen_values g))
    | Raise e => Raise e
    end in
  exists w',
    Census.main fromtimestamp home folder output quiet fs interrupt w
    = (handled r, w') /\
    file_is w' out (header ++ Census.rows_text (gen_values g)) true /\
    stdout w'
    = (stdout w ++ scanning_line (scan_path home folder) quiet
       ++ gen_said g ++ last_lines out quiet r)%list /\
    stderr w' = stderr w.
Proof.
  intros Hopen Hint out g r.
  unfold Census.main. fold (scan_path home folder).
  set (path := scan_path home folder) in *.
  assert (Hrun : forall w0,
             clock w0 = clock w -> can_open w0 = can_open w ->
             exists w',
               try_except
                 (Census.create_csv_report fromtimestamp path (fs path) output
                    (negb quiet) interrupt)
                 (fun e =>
                    match e with
                    | FileNotFoundError _ | NotADirectoryError _ =>
                        Some (print ("Error: " ++ exn_text e) ;;; sys_exit 1)
                    | KeyboardInterrupt =>
                        Some (print (nl ++ "Operation cancelled by user.") ;;;
                              sys_exit 1)
                    | _ => None
                    end) w0
               = (handled r, w') /\
               file_is w' out (header ++ Census.rows_text (gen_values g)) true /\
               stdout w' = (stdout w0 ++ gen_said g ++ last_lines out quiet r)%list /\
               stderr w' = stderr w0).
  { intros w0 Hclock Hcan.
    assert (Hpath : report_path fromtimestamp output w0 = out)
      by (unfold out, report_path; now rewrite Hclock).
    destruct (create_csv_report_streams path (fs path) output quiet interrupt w0)
      as (w1 & Hrep & Hf1 & Ho1 & He1).
    { rewrite Hpath, Hcan. exact Hopen. }
    { exact Hint. }
    rewrite Hpath in Hf1, Ho1. fold g in Hrep, Hf1, Ho1. fold r in Hrep, Ho1.
    unfold try_except. rewrite Hrep.
    destruct r as [n | e]; [exists w1; now repeat split |].
    destruct e; cbn [is_Exception handled];
      try (exists w1; repeat split; assumption).
    unfold io_bind, sys_exit, raise.
    destruct (print_end_streams (nl ++ "Operation cancelled by user.") nl w1
                out _ true Hf1) as (w2 & Hp2 & Hf2 & Ho2 & He2 & _).
    unfold print. rewrite Hp2.
    exists w2. split; [reflexivity |]. split; [exact Hf2 |].
    split; [| congruence].
    rewrite Ho2, Ho1. cbn [last_lines]. rewrite app_nil_r, <- app_assoc.
    reflexivity. }
  destruct quiet; cbn [negb scanning_line] in *.
  - unfold io_bind at 1, ret. apply Hrun; reflexivity.
  - unfold io_bind at 1, print, print_end.
    match goal with
    | |- context [try_except ?m ?h ?w0] =>
        destruct (Hrun w0 eq_refl eq_refl) as (w' & Hres & Hf & Ho & He)
    end.
    exists w'. split; [exact Hres |]. split; [exact Hf |].
    split; [| exact He].
    rewrite Ho. cbn [stdout]. rewrite <- !app_assoc. reflexivity.
Qed.

End CensusStreams.

(** ** The outcomes of a run of the census *)

Section CensusOutcomes.

Variable fromtimestamp : Z -> datetime.
Variable home : string.

Lemma filter_and_length {A : Type} (p q : A -> bool) (l : list A) :
  (List.length (filter (fun x => p x && q x) l)
   <= List.length (filter p l))%nat.
Proof.
  induction l as [| x l IH]; cbn [filter]; [lia |].
  destruct (p x), (q x); cbn [andb List.length]; lia.
Qed.

Lemma rows_text_nil : Census.rows_text [] = "".
Proof. reflexivity. Qed.







(** X8.  An interrupt in the counting pass.  [scan_folder] does not catch
    it there: the run ends with exit status 1, the output file is closed
    with the header alone, and the standard output ends with [Counting
    files...] and the line [Operation cancelled by user.] of [main]. *)
Theorem interrupt_while_counting (folder output : option string)
    (fs : string -> option FS.node) (w : world) (root : FS.node) (k : nat) :
  fs (scan_path home folder) = Some root ->
  FS.is_dir root = true ->
  (k <= List.length (FS.rglob root))%nat ->
  can_open w (report_path fromtimestamp output w) = Ok tt ->
  let run :=
    Census.main fromtimestamp home folder output false fs
      (Some (Census.InCount k)) w in
  exit_status (fst run) = 1 /\
  file_is (snd run) (report_path fromtimestamp output w) header true /\
  stdout (snd run)
  = (stdout w
     ++ scanning_line (scan_path home folder) false
     ++ ["Counting files..."%string; cancelled_line])%list /\
  stderr (snd run) = stderr w.
Proof.
  intros Hroot Hdir Hk Hopen run.
  destruct (main_streams fromtimestamp home folder output false fs
              (Some (Census.InCount k)) w Hopen)
    as (w' & Hrun & Hfile & Hout & Herr).
  { intros j. split; discriminate. }
  rewrite Hroot in Hrun, Hfile, Hout.
  unfold Census.scan_folder in Hrun, Hfile, Hout.
  rewrite Hdir in Hrun, Hfile, Hout.
  cbn [negb Census.interrupted_counting] in Hrun, Hfile, Hout.
  destruct (Nat.leb_spec k (List.length (FS.rglob root))) as [_ | ?]; [| lia].
  cbn [gen_end gen_values gen_said handled last_lines scanning_line]
    in Hrun, Hfile, Hout.
  rewrite rows_text_nil, append_empty_r in Hfile.
  subst run. rewrite Hrun. cbn [fst snd exit_status].
  repeat split; assumption.
Qed.

(** X10.  The message for a folder that is not there.  When nothing stands
    at the folder, or something that is no directory, the census ends with
    [sys.exit(1)] after the line [Error creating CSV report: Folder not
    found: <path>], respectively [Error creating CSV report: Path is not a
    directory: <path>]: the exception is caught by the last handler of
    [create_csv_report], not by the handlers of [main] that print [Error:
    ...]. *)
Theorem missing_folder_message (folder output : option string) (quiet : bool)
    (fs : string -> option FS.node) (w : world) :
  can_open w (report_path fromtimestamp output w) = Ok tt ->
  let run := Census.main fromtimestamp home folder output quiet fs None w in
  (fs (scan_path home folder) = None ->
   fst run = Raise (SystemExit 1) /\
   stdout (snd run)
   = (stdout w ++ scanning_line (scan_path home folder) quiet
      ++ [failed_line ("Folder not found: " ++ scan_path home folder)])%list /\
   stderr (snd run) = stderr w) /\
  (forall n, fs (scan_path home folder) = Some n -> FS.is_dir n = false ->
   fst run = Raise (SystemExit 1) /\
   stdout (snd run)
   = (stdout w ++ scanning_line (scan_path home folder) quiet
      ++ [failed_line
            ("Path is not a directory: " ++ scan_path home folder)])%list /\
   stderr (snd run) = stderr w).
Proof.
  intros Hopen run.
  destruct (main_streams fromtimestamp home folder output quiet fs None w Hopen)
    as (w' & Hrun & _ & Hout & Herr).
  { intros j. split; discriminate. }
  subst run. rewrite Hrun. cbn [fst snd].
  split.
  - intros Hroot. rewrite Hroot in Hout |- *.
    cbn [Census.scan_folder gen_end gen_said handled last_lines exn_text] in *.
    repeat split; assumption.
  - intros n Hroot Hdir. rewrite Hroot in Hout |- *.
    unfold Census.scan_folder in *. rewrite Hdir in *.
    cbn [negb gen_end gen_said handled last_lines exn_text] in *.
    repeat split; assumption.
Qed.

(** X11.  No [Exception] leaves [create_csv_report], whatever the folder,
    the output, the interrupt and the world: what it raises is a
    [SystemExit] or a [KeyboardInterrupt]. *)
Theorem create_csv_report_raises_no_exception (folder_path : string)
    (root : option FS.node) (output : option string) (show : bool)
    (interrupt : option Census.point) (w : world) (e : exn) :
  fst (Census.create_csv_report fromtimestamp folder_path root output show
         interrupt w) = Raise e ->
  is_Exception e = false.
Proof.
  unfold Census.create_csv_report.
  unfold io_bind at 1. unfold now_timestamp. cbv iota beta.
  unfold try_except.
  match goal with
  | |- context [with_open_w ?p ?b w] => destruct (with_open_w p b w) as [[u | e'] w']
  end; [discriminate |].
  destruct e'; cbn [is_Exception];
    try (unfold io_bind, print, print_end, sys_exit, raise; cbn [fst];
         intros H; injection H as <-; reflexivity);
    (cbn [fst]; intros H; injection H as <-; reflexivity).
Qed.

Lemma create_csv_report_unwritable (folder_path : string)
    (root : option FS.node) (output : option string) (quiet : bool)
    (interrupt : option Census.point) (w : world) (e : exn) :
  can_open w (report_path fromtimestamp output w) = Raise e ->
  is_Exception e = true ->
  Census.create_csv_report fromtimestamp folder_path root output (negb quiet)
    interrupt w
  = (Raise (SystemExit 1),
     mkWorld (clock w)
       (stdout w
        ++ last_lines (report_path fromtimestamp output w) quiet (Raise e))
       (stderr w) (can_open w) (disk w)).
Proof.
  intros Hopen Hexc.
  unfold Census.create_csv_report.
  unfold io_bind at 1. unfold now_timestamp. cbv iota beta.
  fold (report_path fromtimestamp output w).
  unfold try_except, with_open_w, open_w. rewrite Hopen.
  destruct e; try discriminate Hexc; reflexivity.
Qed.

(** X12.  An output file that cannot be opened.  When [open] raises an
    [OSError] the census ends with [sys.exit(1)] whatever stands at the
    folder; it writes nothing to the disk, and after the line of the folder
    it prints one line: [Error: Permission denied writing to <output>] for a
    [PermissionError], [Error creating CSV report: <e>] otherwise. *)
Theorem unwritable_output_stops_the_run (folder output : option string)
    (quiet : bool) (fs : string -> option FS.node)
    (interrupt : option Census.point) (w : world) (e : exn) :
  can_open w (report_path fromtimestamp output w) = Raise e ->
  is_OSError e = true ->
  let run := Census.main fromtimestamp home folder output quiet fs interrupt w in
  fst run = Raise (SystemExit 1) /\
  disk (snd run) = disk w /\
  stdout (snd run)
  = (stdout w ++ scanning_line (scan_path home folder) quiet
     ++ [refused_line (report_path fromtimestamp output w) e])%list /\
  stderr (snd run) = stderr w.
Proof.
  intros Hopen Hos run.
  assert (Hexc : is_Exception e = true) by (destruct e; try discriminate Hos; reflexivity).
  assert (Hmain : run
                  = (Raise (SystemExit 1),
                     mkWorld (clock w)
                       (stdout w ++ scanning_line (scan_path home folder) quiet
                        ++ last_lines (report_path fromtimestamp output w)
                             quiet (Raise e))
                       (stderr w) (can_open w) (disk w))).
  { subst run. unfold Census.main. fold (scan_path home folder).
    destruct quiet; cbn [negb scanning_line].
    - pose proof (create_csv_report_unwritable (scan_path home folder)
                    (fs (scan_path home folder)) output true interrupt w e
                    Hopen Hexc) as H.
      cbn [negb] in H.
      unfold io_bind, ret, try_except. rewrite H. reflexivity.
    - unfold io_bind, print, print_end, try_except.
      match goal with
      | |- context [Census.create_csv_report _ _ _ _ _ _ ?w0] =>
          pose proof (create_csv_report_unwritable (scan_path home folder)
                        (fs (scan_path home folder)) output false interrupt
                        w0 e Hopen Hexc) as H
      end.
      cbn [negb] in H. rewrite H. cbn [clock stdout stderr can_open disk].
      rewrite <- app_assoc. reflexivity. }
  rewrite Hmain. cbn [fst snd disk stdout stderr].
  repeat (split; [reflexivity |]). split; [| reflexivity].
  destruct e; try discriminate Hos; reflexivity.
Qed.

End CensusOutcomes.

(** ** The runs of the weekly review *)

Section Traversal.









End Traversal.

Section WeeklyRuns.

Variable fromtimestamp : Z -> datetime.
Variable home : string.









(** X14.  The scan errors of the weekly review.  The review ends with
    [sys.exit(1)], nothing on the standard output and one line on the
    standard error when nothing stands at the folder, when what stands
    there is no directory, and when the directory may not be listed: the
    [SystemExit] of [scan_downloads_folder] passes the handlers of [main]. *)
Theorem review_scan_errors (folder : option string)
    (fs : string -> option FS.node) (w : world) :
  let run := Weekly.main fromtimestamp home folder fs w in
  let path := scan_path home folder in
  (fs path = None ->
   fst run = Raise (SystemExit 1) /\
   stdout (snd run) = stdout w /\
   stderr (snd run)
   = (stderr w
      ++ [scan_error_line "Error: Downloads folder not found: " path])%list) /\
  (forall n, fs path = Some n -> FS.is_dir n = false ->
   fst run = Raise (SystemExit 1) /\
   stdout (snd run) = stdout w /\
   stderr (snd run)
   = (stderr w
      ++ [scan_error_line "Error: Path is not a directory: " path])%list) /\
  (forall nm st, fs path = Some (FS.Dir nm st None) ->
   fst run = Raise (SystemExit 1) /\
   stdout (snd run) = stdout w /\
   stderr (snd run)
   = (stderr w
      ++ [scan_error_line "Error: Permission denied accessing folder: " path])%list).
Proof.
  intros run path. subst run.
  unfold Weekly.main.
  change (match folder with
          | Some f =>
              if (f =? "")%string then Weekly.get_downloads_folder home else f
          | None => Weekly.get_downloads_folder home
          end) with path.
  split; [| split].
  - intros ->. cbn. auto.
  - intros n -> Hdir. unfold Weekly.scan_downloads_folder. rewrite Hdir.
    cbn. auto.
  - intros nm st ->. cbn. auto.
Qed.




(** Folding [Z.min] gives an element of the list below all of them. *)
Lemma fold_min_least (l : list Z) (x : Z) :
  In (fold_left Z.min l x) (x :: l) /\
  Forall (fun y => fold_left Z.min l x <= y) (x :: l).
Proof.
  revert x. induction l as [| y l IH]; intros x; cbn [fold_left].
  - split; [now left | constructor; [lia | constructor]].
  - destruct (IH (Z.min x y)) as [Hin Hall].
    inversion Hall as [| ? ? Hm Hrest]; subst.
    split.
    + destruct Hin as [Heq | Hin]; [| right; now right].
      destruct (Z.min_spec x y) as [[_ E] | [_ E]].
      * left. etransitivity; [symmetry; exact E | exact Heq].
      * right. left. etransitivity; [symmetry; exact E | exact Heq].
    + constructor; [lia |]. constructor; [lia | exact Hrest].
Qed.

Lemma fold_max_greatest (l : list Z) (x : Z) :
  In (fold_left Z.max l x) (x :: l) /\
  Forall (fun y => y <= fold_left Z.max l x) (x :: l).
Proof.
  revert x. induction l as [| y l IH]; intros x; cbn [fold_left].
  - split; [now left | constructor; [lia | constructor]].
  - destruct (IH (Z.max x y)) as [Hin Hall].
    inversion Hall as [| ? ? Hm Hrest]; subst.
    split.
    + destruct Hin as [Heq | Hin]; [| right; now right].
      destruct (Z.max_spec x y) as [[_ E] | [_ E]].
      * right. left. etransitivity; [symmetry; exact E | exact Heq].
      * left. etransitivity; [symmetry; exact E | exact Heq].
    + constructor; [lia |]. constructor; [lia | exact Hrest].
Qed.

(** X18.  The orders and the dates of the weekly aggregation.  For files
    that are not none, [analyze_files] gives the number of files and the sum
    of their sizes; [oldest_files] is the first 15 of the files in ascending
    order of modification time, files of one time in their order of the
    input; [subfolders] is the given list in descending order of total size,
    folders of one size in their order of the input; [oldest_date] and
    [newest_date] are the formatted least and greatest modification time of
    the files. *)
Theorem weekly_analysis_orders (files : list Weekly.file_info)
    (subs : list Weekly.subfolder_info) (w : world) (a : Weekly.analysis) :
  files <> [] ->
  fst (Weekly.analyze_files fromtimestamp files subs w) = Ok a ->
  Weekly.total_files a = Z.of_nat (List.length files) /\
  Weekly.total_size a = sum (map Weekly.size_bytes files) /\
  (exists ranked,
      Weekly.oldest_files a = firstn 15 ranked /\
      Permutation ranked files /\
      StronglySorted
        (fun x y => Weekly.modified_time x <= Weekly.modified_time y) ranked /\
      forall t, filter (fun f => Weekly.modified_time f =? t) ranked
                = filter (fun f => Weekly.modified_time f =? t) files) /\
  Permutation (Weekly.subfolders a) subs /\
  StronglySorted
    (fun x y => Weekly.sub_total_size y <= Weekly.sub_total_size x)
    (Weekly.subfolders a) /\
  (forall t, filter (fun s => Weekly.sub_total_size s =? t) (Weekly.subfolders a)
             = filter (fun s => Weekly.sub_total_size s =? t) subs) /\
  exists oldest newest,
    In oldest files /\ In newest files /\
    Weekly.oldest_date a
    = Some (Weekly.format_date fromtimestamp (Weekly.modified_time oldest)) /\
    Weekly.newest_date a
    = Some (Weekly.format_date fromtimestamp (Weekly.modified_time newest)) /\
    forall f, In f files ->
              Weekly.modified_time oldest <= Weekly.modified_time f
              <= Weekly.modified_time newest.
Proof.
  intros Hne Ha.
  destruct (analyze_files_lists fromtimestamp files subs w a Ha)
    as (_ & _ & Hold).
  destruct files as [| f files]; [contradiction |]. clear Hne.
  assert (Hrest :
            Weekly.total_files a = Z.of_nat (List.length (f :: files)) /\
            Weekly.total_size a = sum (map Weekly.size_bytes (f :: files)) /\
            Weekly.subfolders a = sorted Weekly.sub_total_size true subs /\
            Weekly.oldest_date a
            = Some (Weekly.format_date fromtimestamp
                      (fold_left Z.min (map Weekly.modified_time files)
                         (Weekly.modified_time f))) /\
            Weekly.newest_date a
            = Some (Weekly.format_date fromtimestamp
                      (fold_left Z.max (map Weekly.modified_time files)
                         (Weekly.modified_time f)))).
  { revert Ha.
    unfold Weekly.analyze_files, io_bind, lift, ret, now_timestamp.
    cbn [Py.min Py.max map].
    repeat match goal with
           | |- context [match ?r with Ok _ => _ | Raise _ => _ end] =>
               destruct r; cbn [fst snd]
           | |- context [if ?b then _ else _] => destruct b; cbn [fst snd bind]
           | |- context [let (_, _) := ?p in _] => destruct p
           | |- Raise _ = Ok _ -> _ => discriminate
           end;
      try (intros H; injection H as <-; cbn; auto). }
  destruct Hrest as (Hn & Hs & Hsub & Hod & Hnd).
  split; [exact Hn |]. split; [exact Hs |].
  split.
  { exists (sorted Weekly.modified_time false (f :: files)).
    split; [exact Hold |].
    split; [apply sorted_Permutation |].
    split; [apply sorted_ascending | intros t; apply sorted_stable]. }
  rewrite Hsub.
  split; [apply sorted_Permutation |].
  split; [apply sorted_descending |].
  split; [intros t; apply sorted_stable |].
  destruct (fold_min_least (map Weekly.modified_time files)
              (Weekly.modified_time f)) as [Hmin_in Hmin].
  destruct (fold_max_greatest (map Weekly.modified_time files)
              (Weekly.modified_time f)) as [Hmax_in Hmax].
  change (Weekly.modified_time f :: map Weekly.modified_time files)
    with (map Weekly.modified_time (f :: files)) in *.
  apply in_map_iff in Hmin_in as (oldest & Eo & Ho).
  apply in_map_iff in Hmax_in as (newest & En & Hn').
  exists oldest, newest.
  split; [exact Ho |]. split; [exact Hn' |].
  rewrite Eo, En. split; [exact Hod |]. split; [exact Hnd |].
  intros g Hg. rewrite Forall_forall in Hmin, Hmax.
  split; [apply Hmin | apply Hmax]; now apply in_map.
Qed.

End WeeklyRuns.

(** ** The breakdowns of the summary *)

Section Counters.

Context {K : Type} (eqb : K -> K -> bool).
Hypothesis eqb_spec : forall x y, reflect (x = y) (eqb x y).
Variable key_of : Summary.file_info -> K.

Lemma add_to_keys (k : K) (v : Z) (d : list (K * Z)) :
  map fst (add_to eqb k v d)
  = if existsb (fun k' => eqb k' k) (map fst d) then map fst d
    else (map fst d ++ [k])%list.
Proof.
  induction d as [| [k' v'] d IH]; [reflexivity |].
  cbn [add_to map fst existsb].
  destruct (eqb k' k); cbn [orb map fst]; [reflexivity |].
  rewrite IH. now destruct (existsb _ (map fst d)).
Qed.

Lemma existsb_keys (k : K) (l : list K) :
  existsb (fun k' => eqb k' k) l = true <-> In k l.
Proof.
  rewrite existsb_exists. split.
  - intros (x & Hx & E). destruct (eqb_spec x k); [now subst | discriminate].
  - intros H. exists k. split; [exact H |].
    destruct (eqb_spec k k); [reflexivity | contradiction].
Qed.

Lemma add_to_NoDup (k : K) (v : Z) (d : list (K * Z)) :
  NoDup (map fst d) -> NoDup (map fst (add_to eqb k v d)).
Proof.
  intros H. rewrite add_to_keys.
  destruct (existsb _ (map fst d)) eqn:E; [exact H |].
  apply NoDup_app; [exact H | constructor; [intros [] | constructor] |].
  intros x Hx [<- | []].
  apply existsb_keys in Hx. congruence.
Qed.

Lemma add_to_In (k k0 : K) (v : Z) (d : list (K * Z)) :
  In k0 (map fst (add_to eqb k v d)) <-> In k0 (map fst d) \/ k0 = k.
Proof.
  rewrite add_to_keys.
  destruct (existsb _ (map fst d)) eqn:E.
  - apply existsb_keys in E. split; [auto |]. intros [H | ->]; assumption.
  - rewrite in_app_iff. cbn. intuition.
Qed.

Lemma add_to_sum (k : K) (v : Z) (d : list (K * Z)) :
  sum (map snd (add_to eqb k v d)) = v + sum (map snd d).
Proof.
  induction d as [| [k' v'] d IH]; [unfold sum; cbn; lia |].
  cbn [add_to]. destruct (eqb k' k); cbn [map snd]; rewrite !sum_cons.
  - lia.
  - rewrite IH. lia.
Qed.

Lemma get_NoDup (k : K) (v : Z) (d : list (K * Z)) :
  NoDup (map fst d) -> In (k, v) d -> get eqb k d = v.
Proof.
  induction d as [| [k' v'] d IH]; [intros _ [] |].
  cbn [map fst get]. intros Hnd [E | Hin].
  - injection E as -> ->. now destruct (eqb_spec k k).
  - inversion Hnd as [| ? ? Hnotin Hnd']; subst.
    destruct (eqb_spec k' k) as [-> | _]; [| now apply IH].
    exfalso. apply Hnotin. now apply (in_map fst) in Hin.
Qed.

(** What the two counters hold after a loop over [rows]. *)
Lemma counters_after (rows : list Summary.file_info) :
  forall cs ss : list (K * Z),
    NoDup (map fst cs) ->
    map fst ss = map fst cs ->
    let after :=
      fold_left
        (fun '(cs, ss) file_info =>
           (add_to eqb (key_of file_info) 1 cs,
            add_to eqb (key_of file_info) (Summary.size_bytes file_info) ss))
        rows (cs, ss) in
    NoDup (map fst (fst after)) /\
    map fst (snd after) = map fst (fst after) /\
    (forall k, get eqb k (fst after)
               = get eqb k cs
                 + Z.of_nat (List.length (rows_of eqb key_of k rows))) /\
    (forall k, get eqb k (snd after)
               = get eqb k ss
                 + sum (map Summary.size_bytes (rows_of eqb key_of k rows))) /\
    (forall k, In k (map fst (fst after))
               <-> In k (map fst cs) \/ In k (map key_of rows)) /\
    sum (map snd (fst after)) = sum (map snd cs) + Z.of_nat (List.length rows).
Proof.
  induction rows as [| r rows IH]; intros cs ss Hnd Hkeys; cbv zeta.
  - cbn [fold_left fst snd rows_of filter List.length map].
    repeat split; try assumption; try (intros; unfold sum; cbn; lia).
    + now left.
    + intros [H | []]. exact H.
  - cbn [fold_left].
    destruct (IH (add_to eqb (key_of r) 1 cs)
                (add_to eqb (key_of r) (Summary.size_bytes r) ss))
      as (H1 & H2 & H3 & H4 & H5 & H6).
    { now apply add_to_NoDup. }
    { rewrite !add_to_keys, Hkeys. reflexivity. }
    cbv zeta in H1, H2, H3, H4, H5, H6.
    split; [exact H1 |]. split; [exact H2 |].
    split; [| split; [| split]].
    + intros k. rewrite H3, (get_add_to eqb eqb_spec).
      unfold rows_of. cbn [filter].
      destruct (eqb (key_of r) k); cbn [List.length]; lia.
    + intros k. rewrite H4, (get_add_to eqb eqb_spec).
      unfold rows_of. cbn [filter].
      destruct (eqb (key_of r) k); cbn [map]; rewrite ?sum_cons; lia.
    + intros k. rewrite H5, add_to_In. cbn [map In]. intuition.
    + rewrite H6, add_to_sum. cbn [List.length]. lia.
Qed.

End Counters.

Section Breakdown.

Lemma for_each_Forall2 {A B : Type} (f : A -> result B) (xs : list A) :
  forall ys, Summary.for_each f xs = Ok ys ->
             Forall2 (fun x y => f x = Ok y) xs ys.
Proof.
  induction xs as [| x xs IH]; intros ys H; cbn [Summary.for_each] in H.
  - injection H as <-. constructor.
  - destruct (f x) as [y |] eqn:E; [| discriminate H]. cbn [bind] in H.
    destruct (Summary.for_each f xs) as [ys' |]; [| discriminate H].
    cbn [bind] in H. injection H as <-.
    constructor; [exact E | now apply IH].
Qed.

Lemma sum_Permutation (l l' : list Z) : Permutation l l' -> sum l = sum l'.
Proof.
  induction 1 as [| x l l' _ IH | x y l | l l' l'' _ IH1 _ IH2];
    rewrite ?sum_cons; lia.
Qed.

Lemma Forall2_map_eq {A B C : Type} (f : A -> C) (g : B -> C)
    (xs : list A) (ys : list B) :
  Forall2 (fun x y => f x = g y) xs ys -> map f xs = map g ys.
Proof. induction 1 as [| x y xs ys E _ IH]; cbn; congruence. Qed.

Lemma StronglySorted_map {A B : Type} (f : A -> B) (R : B -> B -> Prop)
    (l : list A) :
  StronglySorted (fun x y => R (f x) (f y)) l <-> StronglySorted R (map f l).
Proof.
  induction l as [| x l IH]; cbn [map].
  - split; constructor.
  - split; intros H; inversion H as [| ? ? Hs Hall]; subst;
      constructor; try (now apply IH); rewrite Forall_map in *; exact Hall.
Qed.

(** What [analyze_data] makes its two breakdowns from. *)
Lemma analyze_data_breakdowns (rows : list Summary.file_info)
    (a : Summary.analysis) :
  Summary.analyze_data rows = Ok a ->
  Summary.total_files a = Z.of_nat (List.length rows) /\
  Summary.for_each
    (fun '(ext, count) =>
       formatted <-
         format_file_size
           (get String.eqb ext (snd (Summary.count_types rows))) ;;
       Ok {| Summary.type_extension := ext;
             Summary.type_count := count;
             Summary.type_total_size :=
               get String.eqb ext (snd (Summary.count_types rows));
             Summary.type_total_size_formatted := formatted |})
    (sorted snd true (fst (Summary.count_types rows)))
  = Ok (Summary.file_types a) /\
  Summary.for_each
    (fun y =>
       formatted <-
         format_file_size (get Z.eqb y (snd (Summary.count_years rows))) ;;
       Ok {| Summary.yr_year := y;
             Summary.yr_count := get Z.eqb y (fst (Summary.count_years rows));
             Summary.yr_total_size :=
               get Z.eqb y (snd (Summary.count_years rows));
             Summary.yr_total_size_formatted := formatted |})
    (sorted (fun y => y) true (map fst (fst (Summary.count_years rows))))
  = Ok (Summary.files_by_year a).
Proof.
  unfold Summary.analyze_data.
  destruct (format_file_size _); [| discriminate]. cbn [bind].
  destruct (Summary.count_types rows) as [cs ss].
  destruct (Summary.for_each _ (sorted snd true cs)) as [ft |] eqn:Hft;
    [| discriminate].
  cbn [bind].
  destruct (Summary.count_years rows) as [yc ys].
  destruct (Summary.for_each _ (sorted _ true (map fst yc))) as [fy |] eqn:Hfy;
    [| discriminate].
  cbn [bind]. intros H. injection H as <-.
  cbn [Summary.total_files Summary.file_types Summary.files_by_year fst snd].
  auto.
Qed.

(** X20.  The breakdown by type of [analyze_data].  [file_types] has an
    entry for the key of every row (its extension in lower case, [(no
    extension)] for none) and no key twice; the count of an entry is the
    number of rows of its key and is positive, its total size is the sum of
    their sizes, its formatted size is [format_file_size] of that sum; the
    entries stand in descending order of count and the counts add up to
    [total_files]. *)
Theorem type_breakdown (rows : list Summary.file_info) (a : Summary.analysis) :
  Summary.analyze_data rows = Ok a ->
  NoDup (map Summary.type_extension (Summary.file_types a)) /\
  (forall r, In r rows ->
             In (Summary.type_key r)
               (map Summary.type_extension (Summary.file_types a))) /\
  Forall
    (fun t =>
       let mine :=
         rows_of String.eqb Summary.type_key (Summary.type_extension t) rows in
       0 < Summary.type_count t /\
       Summary.type_count t = Z.of_nat (List.length mine) /\
       Summary.type_total_size t = sum (map Summary.size_bytes mine) /\
       format_file_size (Summary.type_total_size t)
       = Ok (Summary.type_total_size_formatted t))
    (Summary.file_types a) /\
  StronglySorted
    (fun x y => Summary.type_count y <= Summary.type_count x)
    (Summary.file_types a) /\
  sum (map Summary.type_count (Summary.file_types a)) = Summary.total_files a.
Proof.
  intros Ha.
  destruct (analyze_data_breakdowns rows a Ha) as (Hn & Hft & _).
  apply for_each_Forall2 in Hft.
  destruct (counters_after String.eqb String.eqb_spec Summary.type_key rows
              [] [] (NoDup_nil _) eq_refl)
    as (Hnd & Hkeys & Hcount & Hsize & Hin & Hsum).
  cbv zeta in Hnd, Hkeys, Hcount, Hsize, Hin, Hsum.
  fold (Summary.count_types rows) in Hnd, Hkeys, Hcount, Hsize, Hin, Hsum.
  set (cs := fst (Summary.count_types rows)) in *.
  set (ss := snd (Summary.count_types rows)) in *.
  pose proof (sorted_Permutation (@snd string Z) true cs) as Hperm.
  set (ranked := sorted snd true cs) in *.
  assert (Hext : map fst ranked
                 = map Summary.type_extension (Summary.file_types a)).
  { apply Forall2_map_eq. eapply Forall2_impl; [| exact Hft].
    intros [ext count] t H. cbn beta iota in H.
    destruct (format_file_size (get String.eqb ext ss)); [| discriminate H].
    cbn [bind] in H. injection H as <-. reflexivity. }
  assert (Hcnt : map snd ranked
                 = map Summary.type_count (Summary.file_types a)).
  { apply Forall2_map_eq. eapply Forall2_impl; [| exact Hft].
    intros [ext count] t H. cbn beta iota in H.
    destruct (format_file_size (get String.eqb ext ss)); [| discriminate H].
    cbn [bind] in H. injection H as <-. reflexivity. }
  split.
  { rewrite <- Hext. eapply Permutation_NoDup; [| exact Hnd].
    symmetry. now apply Permutation_map. }
  split.
  { intros r Hr. rewrite <- Hext.
    eapply Permutation_in; [symmetry; apply Permutation_map; exact Hperm |].
    apply Hin. right. now apply in_map. }
  split.
  { assert (Hall : Forall (fun p => In p cs) ranked).
    { apply Forall_forall. intros p Hp.
      eapply Permutation_in; [exact Hperm | exact Hp]. }
    clear Hext Hcnt Hperm. clearbody ranked.
    induction Hft as [| [ext count] t xs ys Hx _ IH]; [constructor |].
    inversion Hall as [| ? ? Hp Hall']; subst.
    constructor; [| now apply IH].
    cbn beta iota in Hx.
    destruct (format_file_size (get String.eqb ext ss)) as [formatted |] eqn:Hf;
      [| discriminate Hx].
    cbn [bind] in Hx. injection Hx as <-.
    cbn [Summary.type_extension Summary.type_count Summary.type_total_size
           Summary.type_total_size_formatted].
    pose proof (get_NoDup String.eqb String.eqb_spec ext count cs Hnd Hp) as Hg.
    rewrite Hcount in Hg. cbn [get] in Hg.
    assert (Hkey : In ext (map fst cs)) by (now apply (in_map fst) in Hp).
    apply Hin in Hkey as [[] | Hkey].
    apply in_map_iff in Hkey as (r & Hr & Hrin).
    assert (Hmine : In r (rows_of String.eqb Summary.type_key ext rows)).
    { unfold rows_of. apply filter_In. split; [exact Hrin |].
      rewrite Hr. apply String.eqb_refl. }
    split.
    { destruct (rows_of String.eqb Summary.type_key ext rows);
        [contradiction | cbn [List.length] in Hg; lia]. }
    split; [lia |].
    split; [rewrite Hsize; cbn [get]; lia | exact Hf]. }
  split.
  { apply (StronglySorted_map Summary.type_count (fun x y => y <= x)).
    rewrite <- Hcnt.
    apply (StronglySorted_map (@snd string Z) (fun x y => y <= x)).
    apply sorted_descending. }
  rewrite <- Hcnt, Hn.
  rewrite (sum_Permutation _ _ (Permutation_map snd Hperm)).
  rewrite Hsum. unfold sum. cbn. lia.
Qed.

(** X21.  The breakdown by year of [analyze_data].  [files_by_year] has an
    entry for the year of every row; the count of an entry is the number of
    rows of its year and is positive, its total size is the sum of their
    sizes, its formatted size is [format_file_size] of that sum; the years
    stand in strictly descending order and the counts add up to
    [total_files]. *)
Theorem year_breakdown (rows : list Summary.file_info) (a : Summary.analysis) :
  Summary.analyze_data rows = Ok a ->
  (forall r, In r rows ->
             In (year_of r) (map Summary.yr_year (Summary.files_by_year a))) /\
  Forall
    (fun y =>
       let mine := rows_of Z.eqb year_of (Summary.yr_year y) rows in
       0 < Summary.yr_count y /\
       Summary.yr_count y = Z.of_nat (List.length mine) /\
       Summary.yr_total_size y = sum (map Summary.size_bytes mine) /\
       format_file_size (Summary.yr_total_size y)
       = Ok (Summary.yr_total_size_formatted y))
    (Summary.files_by_year a) /\
  StronglySorted
    (fun x y => Summary.yr_year y < Summary.yr_year x)
    (Summary.files_by_year a) /\
  sum (map Summary.yr_count (Summary.files_by_year a)) = Summary.total_files a.
Proof.
  intros Ha.
  destruct (analyze_data_breakdowns rows a Ha) as (Hn & _ & Hfy).
  apply for_each_Forall2 in Hfy.
  destruct (counters_after Z.eqb Z.eqb_spec year_of rows
              [] [] (NoDup_nil _) eq_refl)
    as (Hnd & Hkeys & Hcount & Hsize & Hin & Hsum).
  cbv zeta in Hnd, Hkeys, Hcount, Hsize, Hin, Hsum.
  change (fold_left _ rows ([], [])) with (Summary.count_years rows)
    in Hnd, Hkeys, Hcount, Hsize, Hin, Hsum.
  set (yc := fst (Summary.count_years rows)) in *.
  set (ys := snd (Summary.count_years rows)) in *.
  pose proof (sorted_Permutation (fun y : Z => y) true (map fst yc)) as Hperm.
  pose proof (sorted_descending (fun y : Z => y) (map fst yc)) as Hdesc.
  set (ranked := sorted (fun y : Z => y) true (map fst yc)) in *.
  assert (Hyears : ranked = map Summary.yr_year (Summary.files_by_year a)).
  { rewrite <- (map_id ranked) at 1.
    apply Forall2_map_eq. eapply Forall2_impl; [| exact Hfy].
    intros y t H. cbn beta in H.
    destruct (format_file_size (get Z.eqb y ys)); [| discriminate H].
    cbn [bind] in H. injection H as <-. reflexivity. }
  assert (Hcnt : map (fun y => get Z.eqb y yc) ranked
                 = map Summary.yr_count (Summary.files_by_year a)).
  { apply Forall2_map_eq. eapply Forall2_impl; [| exact Hfy].
    intros y t H. cbn beta in H.
    destruct (format_file_size (get Z.eqb y ys)); [| discriminate H].
    cbn [bind] in H. injection H as <-. reflexivity. }
  assert (Hnd' : NoDup ranked).
  { eapply Permutation_NoDup; [symmetry; exact Hperm | exact Hnd]. }
  split.
  { intros r Hr. rewrite <- Hyears.
    eapply Permutation_in; [symmetry; exact Hperm |].
    apply Hin. right. now apply in_map. }
  split.
  { assert (Hall : Forall (fun y => In y (map fst yc)) ranked).
    { apply Forall_forall. intros p Hp.
      eapply Permutation_in; [exact Hperm | exact Hp]. }
    clear Hyears Hcnt Hnd' Hdesc Hperm. clearbody ranked.
    induction Hfy as [| y t xs ys' Hx _ IH]; [constructor |].
    inversion Hall as [| ? ? Hp Hall']; subst.
    constructor; [| now apply IH].
    cbn beta in Hx.
    destruct (format_file_size (get Z.eqb y ys)) as [formatted |] eqn:Hf;
      [| discriminate Hx].
    cbn [bind] in Hx. injection Hx as <-.
    cbn [Summary.yr_year Summary.yr_count Summary.yr_total_size
           Summary.yr_total_size_formatted].
    apply Hin in Hp as [[] | Hkey].
    apply in_map_iff in Hkey as (r & Hr & Hrin).
    assert (Hmine : In r (rows_of Z.eqb year_of y rows)).
    { unfold rows_of. apply filter_In. split; [exact Hrin |].
      rewrite Hr. apply Z.eqb_refl. }
    split.
    { rewrite Hcount. cbn [get].
      destruct (rows_of Z.eqb year_of y rows);
        [contradiction | cbn [List.length]; lia]. }
    split; [rewrite Hcount; cbn [get]; lia |].
    split; [rewrite Hsize; cbn [get]; lia | exact Hf]. }
  split.
  { apply (StronglySorted_map Summary.yr_year (fun x y => y < x)).
    rewrite <- Hyears. clear - Hdesc Hnd'.
    induction Hdesc as [| y l Hs IH Hall]; [constructor |].
    inversion Hnd' as [| ? ? Hnotin Hnd'']; subst.
    constructor; [now apply IH |].
    rewrite Forall_forall in *. intros z Hz.
    specialize (Hall z Hz). cbn beta in Hall.
    assert (z <> y) by (intros ->; contradiction). lia. }
  rewrite <- Hcnt, Hn.
  assert (Hgets : forall l, NoDup (map fst l) ->
                            map (fun y => get Z.eqb y l) (map fst l) = map snd l).
  { clear. intros l Hl. rewrite map_map.
    apply map_ext_in. intros [y v] Hyv. cbn [fst snd].
    now apply (get_NoDup Z.eqb Z.eqb_spec). }
  rewrite (sum_Permutation _ _ (Permutation_map (fun y => get Z.eqb y yc) Hperm)).
  rewrite (Hgets yc Hnd), Hsum. unfold sum. cbn. lia.
Qed.

End Breakdown.

(** ** The runs of the summary *)

Section SummaryRuns.

Variable fromtimestamp : Z -> datetime.

Lemma lookup_missing (key : string) (r : Csv.row) :
  ~ In key (map fst r) -> Csv.lookup key r = Raise (KeyError key).
Proof.
  induction r as [| [k v] r IH]; [reflexivity |].
  cbn [map fst In Csv.lookup]. intros H.
  rewrite IH by tauto.
  destruct (String.eqb_spec k key) as [-> | _]; [| reflexivity].
  exfalso. apply H. now left.
Qed.

(** X22.  A row without the size or the date column.  Converting a row
    that has no [size_bytes] column raises [KeyError('size_bytes')]; a row
    with an integer there and no [modified_date] column raises
    [KeyError('modified_date')]. *)
Theorem missing_column_is_a_key_error (r : Csv.row) :
  (~ In "size_bytes" (map fst r) ->
   Summary.convert_row r = Raise (KeyError "size_bytes")) /\
  (forall size_text size,
      Csv.lookup "size_bytes" r = Ok (Some size_text) ->
      int size_text = Ok size ->
      ~ In "modified_date" (map fst r) ->
      Summary.convert_row r = Raise (KeyError "modified_date")).
Proof.
  split.
  - intros H. unfold Summary.convert_row, Summary.field.
    now rewrite (lookup_missing "size_bytes" r H).
  - intros size_text size Hsize Hint H.
    unfold Summary.convert_row, Summary.field.
    rewrite Hsize. cbn [bind]. rewrite Hint. cbn [bind].
    now rewrite (lookup_missing "modified_date" r H).
Qed.


(** The report of an analysis is composed without an exception. *)
Lemma markdown_content_ok (rows : list Summary.file_info)
    (a : Summary.analysis) (timestamp : string) :
  Summary.analyze_data rows = Ok a ->
  exists content, Summary.markdown_content a timestamp = Ok content.
Proof.
  intros Ha. destruct rows as [| r rows].
  - cbn in Ha. injection Ha as <-. eexists. reflexivity.
  - destruct (analyze_data_fields (r :: rows) a Ha) as (Hn & _).
    assert (Htotal : Summary.total_files a <> 0)
      by (rewrite Hn; cbn [List.length]; lia).
    unfold Summary.markdown_content.
    match goal with
    | |- context [Summary.for_each ?f (firstn 20 (Summary.file_types a))] =>
        destruct (for_each_ok f (firstn 20 (Summary.file_types a))) as [ts ->]
    end.
    { intros t. unfold Summary.percentage_text.
      destruct (percent_1f_ok (Summary.type_count t) _ Htotal) as [p ->].
      eexists. reflexivity. }
    cbn [bind].
    match goal with
    | |- context [Summary.for_each ?f (Summary.files_by_year a)] =>
        destruct (for_each_ok f (Summary.files_by_year a)) as [ys ->]
    end.
    { intros y. unfold Summary.percentage_text.
      destruct (percent_1f_ok (Summary.yr_count y) _ Htotal) as [p ->].
      eexists. reflexivity. }
    eexists. reflexivity.
Qed.

(** X24.  The summary of a census that can be read.  When the CSV parses
    to rows whose sizes are not negative and add up to less than [2^1024 -
    2^970], and the output file can be opened, the summary ends normally:
    [analyze_data] returns, the text of the report is composed without an
    exception, and the output file is closed holding that text; nothing is
    written on the standard error. *)
Theorem summary_of_readable_csv (csv_file : string) (output : option string)
    (text : string) (rows : list Summary.file_info) (w : world) :
  Summary.parse_csv text = Ok rows ->
  sizes_ok (map Summary.size_bytes rows) ->
  can_open w (summary_path fromtimestamp output w) = Ok tt ->
  let run := Summary.main fromtimestamp csv_file output (Ok text) w in
  exists a content,
    Summary.analyze_data rows = Ok a /\
    Summary.markdown_content a (strftime_seconds (fromtimestamp (clock w)))
    = Ok content /\
    fst run = Ok tt /\
    file_is (snd run) (summary_path fromtimestamp output w) content true /\
    stderr (snd run) = stderr w.
Proof.
  intros Hparse Hsizes Hopen run.
  destruct (analyze_data_returns rows Hsizes) as [a Ha].
  destruct (markdown_content_ok rows a
              (strftime_seconds (fromtimestamp (clock w))) Ha)
    as [content Hcontent].
  exists a, content. split; [exact Ha |]. split; [exact Hcontent |].
  assert (Hrun : exists w', run = (Ok tt, w') /\
                            file_is w' (summary_path fromtimestamp output w)
                              content true /\
                            stderr w' = stderr w);
    [| destruct Hrun as (w' & -> & Hf & He); cbn [fst snd]; auto].
  subst run. unfold Summary.main.
  unfold io_bind at 1. unfold now_timestamp. cbv iota beta.
  fold (summary_path fromtimestamp output w).
  set (out := summary_path fromtimestamp output w) in *.
  unfold io_bind at 1. unfold print at 1, print_end. cbv iota beta.
  unfold io_bind at 1.
  unfold Summary.read_csv_data at 1, try_except at 1, io_bind at 1, lift at 1.
  cbv iota beta. unfold lift at 1. rewrite Hparse. cbv iota beta.
  unfold io_bind at 1. unfold print at 1, print_end. cbv iota beta.
  unfold io_bind at 1, lift at 1. rewrite Ha. cbv iota beta.
  unfold io_bind at 1. unfold print at 1, print_end. cbv iota beta.
  unfold Summary.generate_markdown_report.
  unfold io_bind at 1. unfold now_timestamp. cbv iota beta.
  cbn [clock]. unfold io_bind at 1, lift at 1. rewrite Hcontent.
  cbv iota beta.
  unfold try_except, with_open_w, io_bind.
  match goal with
  | |- context [open_w out ?w0] =>
      destruct (open_w_streams out w0 Hopen)
        as (w1 & -> & Hf1 & Ho1 & He1 & _)
  end.
  destruct (write_streams out content w1 "" false Hf1)
    as (w2 & -> & Hf2 & Ho2 & He2 & _).
  cbn [append] in Hf2.
  destruct (close_streams out w2 content false Hf2) as [Hf3 (Ho3 & He3 & _)].
  unfold print, print_end.
  eexists. split; [reflexivity |]. cbn [stderr]. split.
  - unfold file_is in *. cbn [disk]. exact Hf3.
  - rewrite He3, He2, He1. reflexivity.
Qed.

End SummaryRuns.

(** ** The reach of the size format, interrupts and bars *)

Section Overflow.

Lemma float_of_int_overflow (n : Z) :
  2 ^ 1024 - 2 ^ 970 <= n -> float_of_int n = Raise OverflowError.
Proof.
  intros Hn. unfold float_of_int.
  assert (H971 : 2 ^ 971 = 2 * 2 ^ 970)
    by (rewrite <- Z.pow_succ_r by lia; reflexivity).
  assert (HA : 2 ^ 1024 = 2 ^ 54 * 2 ^ 970)
    by (rewrite <- Z.pow_add_r by lia; reflexivity).
  assert (H1023 : 2 ^ 1023 = 2 ^ 53 * 2 ^ 970)
    by (rewrite <- Z.pow_add_r by lia; reflexivity).
  assert (HApos : 0 < 2 ^ 970) by (apply Z.pow_pos_nonneg; lia).
  assert (H53 : 2 ^ 53 = 9007199254740992) by reflexivity.
  assert (H54 : 2 ^ 54 = 18014398509481984) by reflexivity.
  assert (Hbig : 2 ^ 1023 <= n) by nia.
  assert (Hpos : 0 < n) by nia.
  rewrite Z.abs_eq by lia.
  destruct (Z.ltb_spec n (2 ^ 53)) as [Hlt | _]; [nia |].
  cbv zeta.
  destruct (Z.log2_spec n Hpos) as [Hl1 Hl2].
  assert (HL : 1023 <= Z.log2 n).
  { rewrite <- (Z.log2_pow2 1023) by lia. now apply Z.log2_le_mono. }
  set (e := Z.log2 n - 52) in *.
  assert (HE : 0 < 2 ^ e) by (apply Z.pow_pos_nonneg; lia).
  assert (Hsplit : 2 ^ Z.log2 n = 2 ^ 52 * 2 ^ e).
  { rewrite <- Z.pow_add_r by lia. f_equal. lia. }
  assert (H52 : 2 ^ 52 = 4503599627370496) by reflexivity.
  pose proof (round_half_even_range n (2 ^ e) HE) as Hrange.
  assert (Hq : 2 ^ 52 <= n / 2 ^ e) by (apply Z.div_le_lower_bound; lia).
  assert (Hgoal : 2 ^ 1024 <= round_half_even n (2 ^ e) * 2 ^ e).
  { destruct (Z.le_gt_cases 1024 (Z.log2 n)) as [Hhigh | Hlow].
    - assert (2 ^ 1024 <= 2 ^ Z.log2 n) by (apply Z.pow_le_mono_r; lia).
      nia.
    - assert (He : e = 971) by lia.
      assert (HL' : Z.succ (Z.log2 n) = 1024) by lia.
      rewrite HL' in Hl2. rewrite He in *. clear Hrange.
      set (A := 2 ^ 970) in *. rewrite H971 in *.
      assert (Hq1 : n / (2 * A) = 2 ^ 53 - 1).
      { apply Z.le_antisymm.
        - assert (n / (2 * A) < 2 ^ 53)
            by (apply Z.div_lt_upper_bound; nia).
          lia.
        - apply Z.div_le_lower_bound; nia. }
      pose proof (Z.div_mod n (2 * A) ltac:(lia)) as Hdm.
      unfold round_half_even. rewrite Hq1.
      destruct (Z.ltb_spec (2 * (n mod (2 * A))) (2 * A)) as [Hsmall | _];
        [nia |].
      assert (Hodd : Z.even (2 ^ 53 - 1) = false) by reflexivity.
      rewrite Hodd.
      destruct (2 * A <? 2 * (n mod (2 * A))); nia. }
  destruct (Z.leb_spec (2 ^ 1024) (round_half_even n (2 ^ e) * 2 ^ e));
    [reflexivity | lia].
Qed.

(** X13.  Where [format_file_size] raises.  It returns a text for every
    size from 0 to [2^1024 - 2^970 - 1], and raises [OverflowError] from
    [2^1024 - 2^970] on, where the division by [1024.0] cannot turn the
    [int] into a [float]. *)
Theorem format_file_size_domain (n : Z) :
  0 <= n ->
  (n < 2 ^ 1024 - 2 ^ 970 -> exists s, format_file_size n = Ok s) /\
  (2 ^ 1024 - 2 ^ 970 <= n -> format_file_size n = Raise OverflowError).
Proof.
  intros Hn. split.
  - intros Hlt. apply format_file_size_ok. lia.
  - intros Hge.
    assert (HA : 2 ^ 1024 = 2 ^ 54 * 2 ^ 970)
      by (rewrite <- Z.pow_add_r by lia; reflexivity).
    assert (HApos : 0 < 2 ^ 970) by (apply Z.pow_pos_nonneg; lia).
    assert (H54 : 2 ^ 54 = 18014398509481984) by reflexivity.
    unfold format_file_size, format_size. cbn [is_zero].
    destruct (Z.eqb_spec n 0) as [-> | _]; [nia |].
    change (List.length size_names - 1)%nat with 4%nat.
    cbn [scale_loop ge1024].
    destruct (Z.leb_spec 1024 n) as [_ | Hsmall]; [| nia].
    cbn [div1024]. rewrite (float_of_int_overflow n Hge). reflexivity.
Qed.

End Overflow.

Section MoreRuns.

Variable fromtimestamp : Z -> datetime.
Variable home : string.

(** The second pass that an interrupt reaches, when it does not show its
    progress, prints the line of the interrupt and nothing else. *)
Lemma second_pass_interrupted_said (folder_path : string) (fc : Z)
    (k' : nat) (entries : list FS.entry) :
  Census.entries_fit entries ->
  forall (k : nat) (pc : Z),
    (k <= k' <= k + List.length entries)%nat ->
    gen_said (Census.second_pass fromtimestamp folder_path false
                (Some (Census.InScan k')) fc entries k pc)
    = [interrupted_line
         (pc + Z.of_nat
                 (List.length
                    (filter (fun e : FS.entry => readable (snd e))
                       (firstn (k' - k) entries))))].
Proof.
  induction 1 as [| [rel n] entries Hfit _ IH]; intros k pc Hk.
  - cbn [List.length] in Hk. assert (k' = k) as -> by lia.
    cbn [Census.second_pass Census.arrives Census.point_eqb].
    rewrite Nat.eqb_refl, Nat.sub_diag. cbn. now rewrite Z.add_0_r.
  - cbn [Census.second_pass Census.arrives Census.point_eqb].
    destruct (Nat.eqb_spec k' k) as [-> | Hne].
    + rewrite Nat.sub_diag. cbn. now rewrite Z.add_0_r.
    + cbn [List.length] in Hk.
      replace (k' - k)%nat with (S (k' - S k)) by lia.
      cbn [firstn filter snd].
      destruct (FS.is_file n) eqn:Hfile.
      2: { assert (readable n = false) as ->
             by (unfold readable; now rewrite Hfile).
           apply IH. lia. }
      destruct (FS.stat n) as [st | e] eqn:Hstat.
      2: { assert (readable n = false) as ->
             by (unfold readable, FS.stat_ok; now rewrite Hfile, Hstat).
           cbn [gen_said]. apply IH. lia. }
      assert (readable n = true) as ->
        by (unfold readable, FS.stat_ok; now rewrite Hfile, Hstat).
      destruct (format_file_size_ok (FS.st_size st) (Hfit st Hfile Hstat))
        as [formatted ->].
      cbv zeta. cbn [andb gen_said]. rewrite IH by lia.
      cbn [List.length]. do 2 f_equal. lia.
Qed.

(** X9.  An interrupt in the second pass of a quiet run.  The run ends
    normally and prints one line, [Interrupted. Processed M files.], where
    [M] counts the readable files among the entries passed before the
    interrupt: [--quiet] does not silence that line. *)
Theorem interrupt_is_reported_when_quiet (folder output : option string)
    (fs : string -> option FS.node) (w : world) (root : FS.node) (k : nat) :
  fs (scan_path home folder) = Some root ->
  FS.is_dir root = true ->
  Census.entries_fit (FS.rglob root) ->
  can_open w (report_path fromtimestamp output w) = Ok tt ->
  (k <= List.length (FS.rglob root))%nat ->
  let run :=
    Census.main fromtimestamp home folder output true fs
      (Some (Census.InScan k)) w in
  fst run = Ok tt /\
  stdout (snd run)
  = (stdout w
     ++ [interrupted_line
           (Z.of_nat
              (List.length
                 (filter (fun e : FS.entry => readable (snd e))
                    (firstn k (FS.rglob root)))))])%list /\
  stderr (snd run) = stderr w.
Proof.
  intros Hroot Hdir Hfit Hopen Hk run.
  destruct (main_streams fromtimestamp home folder output true fs
              (Some (Census.InScan k)) w Hopen)
    as (w' & Hrun & _ & Hout & Herr).
  { intros j. split; discriminate. }
  rewrite Hroot in Hrun, Hout.
  destruct (scan_folder_second_pass fromtimestamp (scan_path home folder) root
              false (Some (Census.InScan k)) Hdir ltac:(discriminate))
    as (fc & Hvals & Hend).
  destruct (second_pass_interrupted fromtimestamp (scan_path home folder)
              false fc k (FS.rglob root) Hfit 0%nat 0 ltac:(lia)) as [Hv He].
  rewrite He in Hend. cbn [negb] in Hrun, Hout.
  rewrite Hend in Hrun, Hout.
  subst run. rewrite Hrun. cbn [fst snd handled].
  split; [reflexivity |]. split; [| exact Herr].
  rewrite Hout. unfold Census.scan_folder. rewrite Hdir. cbn [negb].
  rewrite (second_pass_interrupted_said (scan_path home folder) 0 k
             (FS.rglob root) Hfit 0%nat 0 ltac:(lia)).
  rewrite Nat.sub_0_r, Z.add_0_l. reflexivity.
Qed.

End MoreRuns.

Section Bars.

Lemma replace_bars (s : string) (escaped : bool) :
  bars_escaped escaped (replace "|" "\|" s) = true.
Proof.
  revert escaped. induction s as [| c s IH]; intros escaped; [reflexivity |].
  cbn [replace].
  destruct (Ascii.eqb_spec c "|") as [-> | Hc].
  - cbn [append bars_escaped]. cbn. apply IH.
  - cbn [append bars_escaped].
    destruct (Ascii.eqb_spec c "|"); [contradiction |]. cbn [andb]. apply IH.
Qed.

(** X19.  The bars of the names in the tables.  In the name a row of a
    table of files shows, [truncate_filename(name).replace('|', '\|')],
    and in a folder name escaped the same way, every bar stands right after
    a backslash; a name without a bar is left as it is. *)
Theorem table_names_escape_bars :
  (forall f : Weekly.file_info, bars_escaped false (Weekly.shown_name f) = true) /\
  (forall name : string, bars_escaped false (replace "|" "\|" name) = true) /\
  (forall name : string,
      contains "|" name = false -> replace "|" "\|" name = name).
Proof.
  split; [| split].
  - intros f. apply replace_bars.
  - intros name. apply replace_bars.
  - induction name as [| c name IH]; [reflexivity |].
    cbn [contains replace]. intros H. apply orb_false_iff in H as [Hc Hn].
    rewrite Hc, (IH Hn). reflexivity.
Qed.

End Bars.

(** ** The weekly review of a folder with files *)

Section ReviewRuns.

Variable fromtimestamp : Z -> datetime.
Variable home : string.



















End ReviewRuns.

(** ** The properties above on the samples *)

Section Samples.

(** A name of 54 characters at the limit 20. *)
Lemma truncate_filename_within_limit_witness :
  len (Weekly.truncate_filename (long_stem ++ ".iso") 20) <= 20 /\
  Weekly.truncate_filename
    (Weekly.truncate_filename (long_stem ++ ".iso") 20) 20
  = Weekly.truncate_filename (long_stem ++ ".iso") 20.
Proof.
  exact (truncate_filename_within_limit (long_stem ++ ".iso") 20
           ltac:(lia)).
Defined.

(** A name of 54 characters with the extension [iso]. *)
Lemma truncate_filename_extension_witness :
  ((String.length "iso" <= 35)%nat ->
   Weekly.truncate_filename (long_stem ++ "." ++ "iso") 40
   = take (36 - String.length "iso") long_stem ++ "..." ++ "iso" /\
   String.length (Weekly.truncate_filename (long_stem ++ "." ++ "iso") 40)
   = 39%nat) /\
  ((36 <= String.length "iso")%nat ->
   Weekly.truncate_filename (long_stem ++ "." ++ "iso") 40
   = take 37 (long_stem ++ "." ++ "iso") ++ "..." /\
   String.length (Weekly.truncate_filename (long_stem ++ "." ++ "iso") 40)
   = 40%nat).
Proof.
  exact (truncate_filename_extension long_stem "iso" eq_refl
           ltac:(vm_compute; lia)).
Defined.

(** A name that needs no encoding. *)
Lemma quote_is_link_safe_witness :
  forallb unreserved (list_ascii_of_string "report_2023.pdf") = true /\
  quote "report_2023.pdf" = "report_2023.pdf".
Proof.
  split; [reflexivity |].
  exact (proj2 (proj2 (proj2 (proj2 (proj2 (proj2 (proj2
           (quote_is_link_safe "report_2023.pdf"))))))) eq_refl).
Defined.




(** An interrupt in the counting pass over the sample tree. *)
Lemma interrupt_while_counting_witness :
  let run :=
    Census.main sample_zone "/home/u" None (Some "census.csv") false
      sample_fs (Some (Census.InCount 1)) sample_world in
  exit_status (fst run) = 1 /\
  file_is (snd run) (report_path sample_zone (Some "census.csv") sample_world)
    header true /\
  stdout (snd run)
  = (stdout sample_world
     ++ scanning_line (scan_path "/home/u" None) false
     ++ ["Counting files..."%string; cancelled_line])%list /\
  stderr (snd run) = stderr sample_world.
Proof.
  exact (interrupt_while_counting sample_zone "/home/u" None
           (Some "census.csv") sample_fs sample_world sample_tree 1 eq_refl
           eq_refl ltac:(vm_compute; lia) eq_refl).
Defined.

(** The census of a path where nothing stands. *)
Lemma missing_folder_message_witness :
  let run :=
    Census.main sample_zone "/home/u" (Some "/nowhere") (Some "census.csv")
      false sample_fs None sample_world in
  fst run = Raise (SystemExit 1) /\
  stdout (snd run)
  = (stdout sample_world
     ++ scanning_line (scan_path "/home/u" (Some "/nowhere")) false
     ++ [failed_line
           ("Folder not found: " ++ scan_path "/home/u" (Some "/nowhere"))])%list /\
  stderr (snd run) = stderr sample_world.
Proof.
  exact (proj1 (missing_folder_message sample_zone "/home/u"
                  (Some "/nowhere") (Some "census.csv") false sample_fs
                  sample_world eq_refl) eq_refl).
Defined.

(** A report that may not be opened. *)
Lemma create_csv_report_raises_no_exception_witness :
  fst (Census.create_csv_report sample_zone "/home/u/Downloads"
         (Some sample_tree) (Some "census.csv") true None locked_world)
  = Raise (SystemExit 1) /\
  is_Exception (SystemExit 1) = false.
Proof.
  split; [reflexivity |].
  exact (create_csv_report_raises_no_exception sample_zone
           "/home/u/Downloads" (Some sample_tree) (Some "census.csv") true
           None locked_world (SystemExit 1) eq_refl).
Defined.

(** The census in a world where no file may be opened. *)
Lemma unwritable_output_stops_the_run_witness :
  let run :=
    Census.main sample_zone "/home/u" None (Some "census.csv") false
      sample_fs None locked_world in
  fst run = Raise (SystemExit 1) /\
  disk (snd run) = disk locked_world /\
  stdout (snd run)
  = (stdout locked_world ++ scanning_line (scan_path "/home/u" None) false
     ++ [refused_line (report_path sample_zone (Some "census.csv") locked_world)
           (PermissionError "Permission denied")])%list /\
  stderr (snd run) = stderr locked_world.
Proof.
  exact (unwritable_output_stops_the_run sample_zone "/home/u" None
           (Some "census.csv") false sample_fs None locked_world
           (PermissionError "Permission denied") eq_refl eq_refl).
Defined.


(** The review of a path where nothing stands. *)
Lemma review_scan_errors_witness :
  let run :=
    Weekly.main sample_zone "/home/u" (Some "/nowhere") sample_fs sample_world in
  fst run = Raise (SystemExit 1) /\
  stdout (snd run) = stdout sample_world /\
  stderr (snd run)
  = (stderr sample_world
     ++ [scan_error_line "Error: Downloads folder not found: "
           (scan_path "/home/u" (Some "/nowhere"))])%list.
Proof.
  exact (proj1 (review_scan_errors sample_zone "/home/u" (Some "/nowhere")
                  sample_fs sample_world) eq_refl).
Defined.


(** The aggregation of the three sample files. *)
Lemma weekly_analysis_orders_witness :
  exists a,
    fst (Weekly.analyze_files sample_zone sample_files [] sample_world) = Ok a /\
    Weekly.total_files a = Z.of_nat (List.length sample_files) /\
    Weekly.total_size a = sum (map Weekly.size_bytes sample_files) /\
    (exists ranked,
        Weekly.oldest_files a = firstn 15 ranked /\
        Permutation ranked sample_files /\
        StronglySorted
          (fun x y => Weekly.modified_time x <= Weekly.modified_time y)
          ranked /\
        forall t, filter (fun f => Weekly.modified_time f =? t) ranked
                  = filter (fun f => Weekly.modified_time f =? t)
                      sample_files) /\
    Permutation (Weekly.subfolders a) [] /\
    StronglySorted
      (fun x y => Weekly.sub_total_size y <= Weekly.sub_total_size x)
      (Weekly.subfolders a) /\
    (forall t,
        filter (fun s => Weekly.sub_total_size s =? t) (Weekly.subfolders a)
        = filter (fun s => Weekly.sub_total_size s =? t) []) /\
    exists oldest newest,
      In oldest sample_files /\ In newest sample_files /\
      Weekly.oldest_date a
      = Some (Weekly.format_date sample_zone (Weekly.modified_time oldest)) /\
      Weekly.newest_date a
      = Some (Weekly.format_date sample_zone (Weekly.modified_time newest)) /\
      forall f, In f sample_files ->
                Weekly.modified_time oldest <= Weekly.modified_time f
                <= Weekly.modified_time newest.
Proof.
  destruct (Weekly.analyze_files sample_zone sample_files [] sample_world)
    as [[a | e] w'] eqn:Hrun; [| vm_compute in Hrun; discriminate Hrun].
  exists a. split; [reflexivity |].
  apply (weekly_analysis_orders sample_zone sample_files [] sample_world a).
  - discriminate.
  - now rewrite Hrun.
Defined.

(** The types of the three sample rows. *)
Lemma type_breakdown_witness :
  exists a,
    Summary.analyze_data sample_rows = Ok a /\
    NoDup (map Summary.type_extension (Summary.file_types a)) /\
    (forall r, In r sample_rows ->
               In (Summary.type_key r)
                 (map Summary.type_extension (Summary.file_types a))) /\
    Forall
      (fun t =>
         let mine :=
           rows_of String.eqb Summary.type_key (Summary.type_extension t)
             sample_rows in
         0 < Summary.type_count t /\
         Summary.type_count t = Z.of_nat (List.length mine) /\
         Summary.type_total_size t = sum (map Summary.size_bytes mine) /\
         format_file_size (Summary.type_total_size t)
         = Ok (Summary.type_total_size_formatted t))
      (Summary.file_types a) /\
    StronglySorted
      (fun x y => Summary.type_count y <= Summary.type_count x)
      (Summary.file_types a) /\
    sum (map Summary.type_count (Summary.file_types a))
    = Summary.total_files a.
Proof.
  destruct (Summary.analyze_data sample_rows) as [a | e] eqn:Hrun;
    [| vm_compute in Hrun; discriminate Hrun].
  exists a. split; [reflexivity |].
  exact (type_breakdown sample_rows a Hrun).
Defined.

(** The years of the three sample rows. *)
Lemma year_breakdown_witness :
  exists a,
    Summary.analyze_data sample_rows = Ok a /\
    (forall r, In r sample_rows ->
               In (year_of r)
                 (map Summary.yr_year (Summary.files_by_year a))) /\
    Forall
      (fun y =>
         let mine := rows_of Z.eqb year_of (Summary.yr_year y) sample_rows in
         0 < Summary.yr_count y /\
         Summary.yr_count y = Z.of_nat (List.length mine) /\
         Summary.yr_total_size y = sum (map Summary.size_bytes mine) /\
         format_file_size (Summary.yr_total_size y)
         = Ok (Summary.yr_total_size_formatted y))
      (Summary.files_by_year a) /\
    StronglySorted
      (fun x y => Summary.yr_year y < Summary.yr_year x)
      (Summary.files_by_year a) /\
    sum (map Summary.yr_count (Summary.files_by_year a))
    = Summary.total_files a.
Proof.
  destruct (Summary.analyze_data sample_rows) as [a | e] eqn:Hrun;
    [| vm_compute in Hrun; discriminate Hrun].
  exists a. split; [reflexivity |].
  exact (year_breakdown sample_rows a Hrun).
Defined.

(** A row of one column, and one of two. *)
Lemma missing_column_is_a_key_error_witness :
  Summary.convert_row [("filename", Some "a.iso")]
  = Raise (KeyError "size_bytes") /\
  Summary.convert_row [("filename", Some "a.iso"); ("size_bytes", Some "700")]
  = Raise (KeyError "modified_date").
Proof.
  split.
  - apply (proj1 (missing_column_is_a_key_error [("filename", Some "a.iso")])).
    cbn. intros [H | []]. discriminate H.
  - apply (proj2 (missing_column_is_a_key_error
                    [("filename", Some "a.iso"); ("size_bytes", Some "700")])
             "700" 700); [reflexivity | reflexivity |].
    cbn. intros [H | [H | []]]; discriminate H.
Defined.


Lemma sample_parsed_sizes : sizes_ok (map Summary.size_bytes sample_parsed).
Proof.
  split; [repeat constructor; cbn; lia | vm_compute; reflexivity].
Defined.

(** The summary of a census of one file. *)
Lemma summary_of_readable_csv_witness :
  let run :=
    Summary.main sample_zone "census.csv" (Some "summary.md")
      (Ok sample_text) sample_world in
  exists a content,
    Summary.analyze_data sample_parsed = Ok a /\
    Summary.markdown_content a
      (strftime_seconds (sample_zone (clock sample_world)))
    = Ok content /\
    fst run = Ok tt /\
    file_is (snd run) (summary_path sample_zone (Some "summary.md") sample_world)
      content true /\
    stderr (snd run) = stderr sample_world.
Proof.
  exact (summary_of_readable_csv sample_zone "census.csv" (Some "summary.md")
           sample_text sample_parsed sample_world eq_refl sample_parsed_sizes
           eq_refl).
Defined.

(** A size that is formatted, and one that is not. *)
Lemma format_file_size_domain_witness :
  (exists s, format_file_size 2048 = Ok s) /\
  format_file_size (2 ^ 1024) = Raise OverflowError.
Proof.
  split.
  - apply (proj1 (format_file_size_domain 2048 ltac:(lia))).
    vm_compute. reflexivity.
  - apply (proj2 (format_file_size_domain (2 ^ 1024)
                    ltac:(vm_compute; discriminate))).
    vm_compute. discriminate.
Defined.

(** An interrupt in the second pass over the sample tree, quiet. *)
Lemma interrupt_is_reported_when_quiet_witness :
  let run :=
    Census.main sample_zone "/home/u" None (Some "census.csv") true
      sample_fs (Some (Census.InScan 1)) sample_world in
  fst run = Ok tt /\
  stdout (snd run)
  = (stdout sample_world
     ++ [interrupted_line
           (Z.of_nat
              (List.length
                 (filter (fun e : FS.entry => readable (snd e))
                    (firstn 1 (FS.rglob sample_tree)))))])%list /\
  stderr (snd run) = stderr sample_world.
Proof.
  exact (interrupt_is_reported_when_quiet sample_zone "/home/u" None
           (Some "census.csv") sample_fs sample_world sample_tree 1 eq_refl
           eq_refl sample_tree_fits eq_refl ltac:(vm_compute; lia)).
Defined.

(** A name without a bar. *)
Lemma table_names_escape_bars_witness :
  contains "|" "a.iso" = false /\ replace "|" "\|" "a.iso" = "a.iso".
Proof.
  split; [reflexivity |].
  exact (proj2 (proj2 table_names_escape_bars) "a.iso" eq_refl).
Defined.



End Samples.
